(** * The Ansible provisioner plugin of aminator, as a shallow embedding

    Source: [aminatorplugins/provisioner/ansible.py].

    The plugin stages playbooks into a mounted root filesystem, writes an
    inventory file, builds the [ansible-playbook] command line, records
    package metadata and cleans up.  Every method is embedded as a function
    of a small monad that threads the state of the process (filesystem,
    process root, environment, open files, [context.package]), may raise a
    Python exception, and emits the list of side effects it attempted. *)

From Stdlib Require Import Ascii String.
From stdpp Require Import gmap strings list.

(** ** Python values and exceptions *)

(** The values the plugin configuration holds: options are strings,
    [store_true] flags are booleans, an absent key reads as [None]. *)
Inductive pyval : Type :=
  | PyNone
  | PyBool (b : bool)
  | PyStr (s : string).

(** Truth value of [if v:]. *)
Definition truthy (v : pyval) : bool :=
  match v with
  | PyNone => false
  | PyBool b => b
  | PyStr "" => false
  | PyStr _ => true
  end.

(** [str(v)], as used by [str.format] and by [%s] in log messages. *)
Definition py_str (v : pyval) : string :=
  match v with
  | PyNone => "None"
  | PyBool true => "True"
  | PyBool false => "False"
  | PyStr s => s
  end.

Inductive exn : Type :=
  | TypeError
  | KeyError
  | OSError
  | IOError
  | AttributeError
  | ShutilError.

Inductive result (A : Type) : Type :=
  | Ret (a : A)
  | Raise (e : exn).
Arguments Ret {A} a.
Arguments Raise {A} e.

(** [config.get(k)] and [config.get(k, d)] on the plugin's option map. *)
Definition cfg_get (config : gmap string pyval) (k : string) : pyval :=
  default PyNone (config !! k).

Definition cfg_get_d (config : gmap string pyval) (k : string) (d : pyval) : pyval :=
  default d (config !! k).

(** ** Paths *)

(** A resolved path is the list of its components from the real root. *)
Definition path : Type := list string.

Definition slash : ascii := "/"%char.

Definition is_abs (s : string) : bool :=
  match s with
  | String c _ => Ascii.eqb c slash
  | EmptyString => false
  end.

Fixpoint ends_with_slash (s : string) : bool :=
  match s with
  | EmptyString => false
  | String c EmptyString => Ascii.eqb c slash
  | String _ s' => ends_with_slash s'
  end.

Definition flush (cur : string) : list string :=
  match cur with
  | EmptyString => []
  | _ => [cur]
  end.

(** Components of a path string: split at ['/'], empty components dropped
    (so ["/a//b/"] and ["/a/b"] name the same file).  Components ["."] and
    [".."] and symbolic links are not interpreted. *)
Fixpoint comps_aux (cur : string) (s : string) : list string :=
  match s with
  | EmptyString => flush cur
  | String c s' =>
      if Ascii.eqb c slash then flush cur ++ comps_aux "" s'
      else comps_aux (cur +:+ String c "") s'
  end.

Definition comps (s : string) : list string := comps_aux "" s.

(** [posixpath.join(a, *p)]. *)
Definition join2 (acc b : string) : string :=
  if is_abs b then b
  else if bool_decide (acc = "") || ends_with_slash acc then acc +:+ b
  else acc +:+ "/" +:+ b.

Definition os_path_join (a : string) (p : list string) : string :=
  fold_left join2 p a.

Fixpoint is_prefix (p q : path) : bool :=
  match p, q with
  | [], _ => true
  | a :: p', b :: q' => bool_decide (a = b) && is_prefix p' q'
  | _ :: _, [] => false
  end.

(** ** The filesystem: a tree of directories and regular files *)

#[warnings="-register-all"]
Inductive node : Type :=
  | File (content : string)
  | Dir (entries : gmap string node).

Fixpoint get (t : node) (p : path) : option node :=
  match p with
  | [] => Some t
  | c :: p' =>
      match t with
      | Dir m =>
          match m !! c with
          | Some t' => get t' p'
          | None => None
          end
      | File _ => None
      end
  end.

Definition isdir (t : node) (p : path) : bool :=
  match get t p with
  | Some (Dir _) => true
  | _ => false
  end.

(** [store t p o] binds the entry named by [p] in its parent directory to
    [o] ([None] unlinks it).  It fails when [p] is the root or when the
    parent of [p] is not an existing directory. *)
Fixpoint store (t : node) (p : path) (o : option node) : option node :=
  match p with
  | [] => None
  | c :: p' =>
      match t with
      | File _ => None
      | Dir m =>
          match p' with
          | [] => Some (Dir (partial_alter (fun _ => o) c m))
          | _ :: _ =>
              match m !! c with
              | Some t' =>
                  match store t' p' o with
                  | Some t'' => Some (Dir (<[c := t'']> m))
                  | None => None
                  end
              | None => None
              end
          end
      end
  end.

(** A chain of fresh directories ending in [n]. *)
Fixpoint chain (p : path) (n : node) : node :=
  match p with
  | [] => n
  | c :: p' => Dir {[c := chain p' n]}
  end.

(** [graft t p n] creates [p] as [n] together with every missing ancestor
    ([os.makedirs] followed by filling the new directory).  It fails when
    [p] already exists or when an ancestor of [p] is a regular file. *)
Fixpoint graft (t : node) (p : path) (n : node) : option node :=
  match p with
  | [] => None
  | c :: p' =>
      match t with
      | File _ => None
      | Dir m =>
          match m !! c with
          | Some t' =>
              match graft t' p' n with
              | Some t'' => Some (Dir (<[c := t'']> m))
              | None => None
              end
          | None => Some (Dir (<[c := chain p' n]> m))
          end
      end
  end.

(** [strip p q] is the rest of [q] after the prefix [p]. *)
Fixpoint strip (p q : path) : option path :=
  match p, q with
  | [], _ => Some q
  | a :: p', b :: q' => if bool_decide (a = b) then strip p' q' else None
  | _ :: _, [] => None
  end.

(** [shutil.copytree] lists the source before it creates the destination
    and recurses into the entries it listed.  When the destination lies at
    least two levels inside the source, below one of the listed entries,
    the recursion re-enters the directory it is creating and never ends
    normally. *)
Definition copy_reenters (t : node) (src dst : path) : bool :=
  match strip src dst with
  | Some (c :: _ :: _) => isdir t (src ++ [c])
  | _ => false
  end.

(** ** The state of the process and the effect monad *)

(** [context.package]: the package argument, the inventory path and the
    metadata attributes. *)
Record package : Type := Package {
  arg : string;
  inventory : option string;
  attributes : option (gmap string pyval) }.

(** [root] is the directory the process is chrooted to ([[]] outside any
    chroot) and [cwd] its working directory, both as resolved paths.
    [handles] lists the files that are open for writing. *)
Record world : Type := World {
  fs : node;
  root : path;
  cwd : path;
  environ : gmap string string;
  handles : list path;
  pkg : package }.

Inductive level : Type := CRITICAL | ERROR | INFO | DEBUG.

(** The side effects a method attempts, in the order it attempts them. *)
Inductive event : Type :=
  | EvLog (lvl : level) (msg : string)
  | EvCopytree (src dst : string)
  | EvMakedirs (p : string)
  | EvOpen (p : string)
  | EvWrite (h : path) (data : string)
  | EvClose (h : path)
  | EvRmtree (p : string)
  | EvRemove (p : string)
  | EvSetInventory (v : string)
  | EvSetAttributes (md : gmap string pyval).

Definition M (A : Type) : Type := world -> result A * world * list event.

Definition ret {A : Type} (a : A) : M A := fun w => (Ret a, w, []).

Definition raise {A : Type} (e : exn) : M A := fun w => (Raise e, w, []).

Definition bind {A B : Type} (m : M A) (k : A -> M B) : M B :=
  fun w =>
    match m w with
    | (Ret a, w1, ev1) =>
        match k a w1 with
        | (r, w2, ev2) => (r, w2, ev1 ++ ev2)
        end
    | (Raise e, w1, ev1) => (Raise e, w1, ev1)
    end.

#[global] Instance M_ret : MRet M := @ret.
#[global] Instance M_bind : MBind M := fun A B k m => bind m k.

(** [try: m  except KeyError: h]. *)
Definition try_except_KeyError {A : Type} (m : M A) (h : M A) : M A :=
  fun w =>
    match m w with
    | (Raise KeyError, w1, ev1) =>
        match h w1 with
        | (r, w2, ev2) => (r, w2, ev1 ++ ev2)
        end
    | other => other
    end.

(** [m] followed by [f] whether or not [m] raised; an exception of [m] is
    raised again after [f] (the exit of a [with] block). *)
Definition finally {A : Type} (m : M A) (f : M unit) : M A :=
  fun w =>
    match m w with
    | (r, w1, ev1) =>
        match f w1 with
        | (Ret _, w2, ev2) => (r, w2, ev1 ++ ev2)
        | (Raise e, w2, ev2) => (Raise e, w2, ev1 ++ ev2)
        end
    end.

Definition set_fs (t : node) (w : world) : world :=
  World t (root w) (cwd w) (environ w) (handles w) (pkg w).

Definition set_handles (hs : list path) (w : world) : world :=
  World (fs w) (root w) (cwd w) (environ w) hs (pkg w).

Definition set_pkg (p : package) (w : world) : world :=
  World (fs w) (root w) (cwd w) (environ w) (handles w) p.

(** ** Operating system and library calls *)

(** The file a path string names for the process: absolute paths start at
    the process root, relative ones at the working directory; the empty
    string names nothing. *)
Definition resolve (w : world) (s : string) : option path :=
  match s with
  | EmptyString => None
  | _ => Some ((if is_abs s then root w else cwd w) ++ comps s)
  end.

(** [a + b] on values that must both be strings. *)
Definition py_concat (a b : pyval) : M string :=
  match a, b with
  | PyStr x, PyStr y => ret (x +:+ y)
  | _, _ => raise TypeError
  end.

Definition log (lvl : level) (msg : string) : M unit :=
  fun w => (Ret (), w, [EvLog lvl msg]).

(** [os.path.isdir(v)]: false for anything that is not an existing
    directory, [TypeError] for a value that is not a string. *)
Definition os_path_isdir (v : pyval) : M bool :=
  fun w =>
    match v with
    | PyStr s =>
        (Ret (match resolve w s with
              | Some p => isdir (fs w) p
              | None => false
              end), w, [])
    | _ => (Raise TypeError, w, [])
    end.

(** [shutil.copytree(src, dst)]: [os.listdir(src)] fails unless [src] is a
    directory, [os.makedirs(dst)] fails when [dst] exists, then the listed
    entries are copied. *)
Definition shutil_copytree (src : pyval) (dst : string) : M unit :=
  fun w =>
    let ev := [EvCopytree (py_str src) dst] in
    match src with
    | PyStr s =>
        match resolve w s, resolve w dst with
        | Some ps, Some pd =>
            match get (fs w) ps with
            | Some (Dir m) =>
                if copy_reenters (fs w) ps pd then
                  match graft (fs w) pd (Dir ∅) with
                  | Some t' => (Raise ShutilError, set_fs t' w, ev)
                  | None => (Raise OSError, w, ev)
                  end
                else
                  match graft (fs w) pd (Dir m) with
                  | Some t' => (Ret (), set_fs t' w, ev)
                  | None => (Raise OSError, w, ev)
                  end
            | _ => (Raise OSError, w, ev)
            end
        | _, _ => (Raise OSError, w, ev)
        end
    | _ => (Raise TypeError, w, ev)
    end.

(** [os.makedirs(p)]. *)
Definition os_makedirs (p : string) : M unit :=
  fun w =>
    match resolve w p with
    | Some pp =>
        match graft (fs w) pp (Dir ∅) with
        | Some t' => (Ret (), set_fs t' w, [EvMakedirs p])
        | None => (Raise OSError, w, [EvMakedirs p])
        end
    | None => (Raise OSError, w, [EvMakedirs p])
    end.

(** [open(p, 'w')]: creates or truncates the file; the result is the open
    file, identified by its resolved path. *)
Definition py_open_w (p : string) : M path :=
  fun w =>
    match resolve w p with
    | Some pp =>
        if isdir (fs w) pp then (Raise IOError, w, [EvOpen p])
        else
          match store (fs w) pp (Some (File "")) with
          | Some t' => (Ret pp, set_handles (pp :: handles w) (set_fs t' w), [EvOpen p])
          | None => (Raise IOError, w, [EvOpen p])
          end
    | None => (Raise IOError, w, [EvOpen p])
    end.

(** [f.write(v)]: appends to the file; [TypeError] unless [v] is a string. *)
Definition file_write (h : path) (v : pyval) : M unit :=
  fun w =>
    match v with
    | PyStr data =>
        match get (fs w) h with
        | Some (File c) =>
            match store (fs w) h (Some (File (c +:+ data))) with
            | Some t' => (Ret (), set_fs t' w, [EvWrite h data])
            | None => (Raise IOError, w, [EvWrite h data])
            end
        | _ => (Raise IOError, w, [EvWrite h data])
        end
    | _ => (Raise TypeError, w, [])
    end.

(** [f.writelines(s)] on a string writes its characters one after the
    other. *)
Definition file_writelines (h : path) (s : string) : M unit :=
  file_write h (PyStr s).

Definition file_close (h : path) : M unit :=
  fun w =>
    (Ret (), set_handles (filter (fun x => x ≠ h) (handles w)) w, [EvClose h]).

(** What happens to a file object when the last name bound to it goes out
    of scope: it is deallocated, which closes the file.  [close()] is not
    called, so nothing is recorded. *)
Definition release_file (p : string) : M unit :=
  fun w =>
    match resolve w p with
    | Some pp => (Ret (), set_handles (filter (fun x => x <> pp) (handles w)) w, [])
    | None => (Ret (), w, [])
    end.

(** [os.environ[k]]. *)
Definition os_environ (k : string) : M string :=
  fun w =>
    match environ w !! k with
    | Some v => (Ret v, w, [])
    | None => (Raise KeyError, w, [])
    end.

(** [shutil.rmtree(v)] with the default [onerror], which raises: the
    argument must name a directory.  The process root itself cannot be
    unlinked: its entries are removed and [os.rmdir] then fails. *)
Definition shutil_rmtree (v : pyval) : M unit :=
  fun w =>
    let ev := [EvRmtree (py_str v)] in
    match v with
    | PyStr s =>
        match resolve w s with
        | Some p =>
            if isdir (fs w) p then
              if bool_decide (p = root w) then
                match p with
                | [] => (Raise OSError, set_fs (Dir ∅) w, ev)
                | _ :: _ =>
                    match store (fs w) p (Some (Dir ∅)) with
                    | Some t' => (Raise OSError, set_fs t' w, ev)
                    | None => (Raise OSError, w, ev)
                    end
                end
              else
                match store (fs w) p None with
                | Some t' => (Ret (), set_fs t' w, ev)
                | None => (Raise OSError, w, ev)
                end
            else (Raise OSError, w, ev)
        | None => (Raise OSError, w, ev)
        end
    | _ => (Raise TypeError, w, ev)
    end.

(** [os.remove(p)]: unlinks a regular file. *)
Definition os_remove (p : string) : M unit :=
  fun w =>
    match resolve w p with
    | Some pp =>
        match get (fs w) pp with
        | Some (File _) =>
            match store (fs w) pp None with
            | Some t' => (Ret (), set_fs t' w, [EvRemove p])
            | None => (Raise OSError, w, [EvRemove p])
            end
        | _ => (Raise OSError, w, [EvRemove p])
        end
    | None => (Raise OSError, w, [EvRemove p])
    end.

(** [context.package.inventory = v]. *)
Definition set_inventory (v : string) : M unit :=
  fun w =>
    (Ret (), set_pkg (Package (arg (pkg w)) (Some v) (attributes (pkg w))) w,
     [EvSetInventory v]).

(** [context.package.attributes = md]. *)
Definition set_attributes (md : gmap string pyval) : M unit :=
  fun w =>
    (Ret (), set_pkg (Package (arg (pkg w)) (inventory (pkg w)) (Some md)) w,
     [EvSetAttributes md]).

Definition package_arg : M string :=
  fun w => (Ret (arg (pkg w)), w, []).

(** [context.package.inventory], [None] until it has been assigned. *)
Definition package_inventory : M pyval :=
  fun w =>
    (Ret (match inventory (pkg w) with
          | Some i => PyStr i
          | None => PyNone
          end), w, []).

(** A pure result as a computation. *)
Definition lift {A : Type} (r : result A) : M A :=
  fun w => (r, w, []).

(** ** The plugin *)

(** [self]: the mount point of the volume ([self._distro._mountpoint]) and
    the plugin's options ([self._config.plugins[self.full_name]]).

    The provisioner base class calls [_pre_chroot_block] on the host,
    "after mounting the volume, but before chroot'ing", and the other
    methods inside the chroot at the mount point.  That is why
    [_copy_playbooks] prefixes the paths it writes with the mount point
    while [_write_local_inventory] and [_ansible_cleanup] use paths as the
    volume sees them. *)
Record plugin : Type := Plugin {
  _mountpoint : string;
  config : gmap string pyval }.

Definition vault_password_file : string := "/tmp/vault_password".

(** [_write_local_inventory]: writes the inventory file (inside the chroot
    environment). *)
Definition _write_local_inventory (self : plugin) : M bool :=
  let path := cfg_get_d (config self) "inventory_file_path" (PyStr "/etc/ansible") in
  path_slash ← py_concat path (PyStr "/");
  filename ← py_concat (PyStr path_slash) (cfg_get (config self) "inventory_file");
  set_inventory filename;;
  is_dir ← os_path_isdir path;
  (if negb is_dir then
     log DEBUG ("creating " +:+ py_str path);;
     os_makedirs (py_str path);;
     log DEBUG ("created " +:+ py_str path)
   else ret ());;
  f ← py_open_w filename;
  finally
    (log DEBUG ("writing " +:+ filename);;
     file_write f (cfg_get (config self) "inventory_file_content");;
     log DEBUG ("wrote " +:+ filename))
    (file_close f);;
  ret true.

(** The [try]/[except KeyError] block of [_copy_playbooks]: "pass in vault
    password into the chroot env". *)
Definition pass_vault_password (self : plugin) : M unit :=
  try_except_KeyError
    (f ← py_open_w (os_path_join (_mountpoint self) ["tmp"; "vault_password"]);
     pwd ← os_environ "VAULT_PWD";
     file_writelines f pwd;;
     file_close f)
    (log ERROR "Environment variable for Ansible vault not set!").

(** [_copy_playbooks]: copies the playbooks from the host into the mounted
    volume and, when asked to, drops the vault password next to them.  It
    runs before the process enters the chroot.  The file object [f] is a
    local of the method: when the [except] clause has skipped [f.close()],
    the file stays open until the method returns and [f] is released. *)
Definition _copy_playbooks (self : plugin) : M bool :=
  let playbooks_path_source := cfg_get (config self) "playbooks_path_source" in
  playbooks_path_dest ←
    py_concat (PyStr (_mountpoint self)) (cfg_get (config self) "playbooks_path_dest");
  src_is_dir ← os_path_isdir playbooks_path_source;
  (if negb src_is_dir then
     log CRITICAL ("directory does not exist " +:+ py_str playbooks_path_source)
   else ret ());;
  dest_is_dir ← os_path_isdir (PyStr playbooks_path_dest);
  if (dest_is_dir : bool) return M bool then
    log CRITICAL ("directory already exists " +:+ playbooks_path_dest);;
    ret false
  else
    shutil_copytree playbooks_path_source playbooks_path_dest;;
    (if truthy (cfg_get (config self) "vault_password") then
       pass_vault_password self;;
       release_file (os_path_join (_mountpoint self) ["tmp"; "vault_password"])
     else ret ());;
    ret true.

(** [_pre_chroot_block]. *)
Definition _pre_chroot_block (self : plugin) : M unit :=
  _copy_playbooks self;; ret ().

(** [_ansible_cleanup]. *)
Definition _ansible_cleanup (self : plugin) : M unit :=
  let keep_playbooks := cfg_get (config self) "keep_playbooks" in
  let vault_password := cfg_get (config self) "vault_password" in
  (if negb (truthy keep_playbooks) then
     shutil_rmtree (cfg_get (config self) "playbooks_path_dest")
   else ret ());;
  (if truthy vault_password then os_remove vault_password_file else ret ()).

(** The second statement of [_ansible_cleanup], on its own. *)
Definition erase_secret (self : plugin) : M unit :=
  if truthy (cfg_get (config self) "vault_password")
  then os_remove vault_password_file else ret ().

(** The dictionary [_store_package_metadata] builds. *)
Definition metadata_of (self : plugin) (name : string) : gmap string pyval :=
  <["extra_vars" := cfg_get_d (config self) "extravars" (PyStr "")]>
    (<["release" := PyStr ""]>
       (<["version" := cfg_get_d (config self) "appversion" (PyStr "")]>
          (<["name" := PyStr name]> ∅))).

(** [_store_package_metadata]. *)
Definition _store_package_metadata (self : plugin) : M unit :=
  _ansible_cleanup self;;
  name ← package_arg;
  set_attributes (metadata_of self name).

(** [run_ansible_playbook], the function under the [@command()] decorator:
    it builds the command line that the decorator then executes. *)
Definition run_ansible_playbook
    (inventory extra_vars playbook_dir playbook vault_password : pyval)
    : result string :=
  match playbook_dir, playbook with
  | PyStr d, PyStr p =>
      let path := d +:+ "/" +:+ p in
      let command :=
        "ansible-playbook -c local -i " +:+ py_str inventory +:+
        " -e 'ami=True " +:+ py_str extra_vars +:+ "' " +:+ path in
      if truthy vault_password then
        Ret (command +:+ " --vault-password-file /tmp/vault_password")
      else Ret command
  | _, _ => Raise TypeError
  end.

(** [_provision_package]: writes the inventory and hands the command line
    to the [@command()] decorator, which runs it; the result here is the
    command line handed over.  [_write_local_inventory] returns [True] or
    raises, so the branch on a false result, which would read
    [result.result] on a boolean, is never taken. *)
Definition _provision_package (self : plugin) : M string :=
  result ← _write_local_inventory self;
  if negb result return M string then raise AttributeError
  else
    let extra_vars := cfg_get_d (config self) "extravars" (PyStr "") in
    let path := cfg_get (config self) "playbooks_path_dest" in
    let vault_password := cfg_get_d (config self) "vault_password" (PyStr "") in
    name ← package_arg;
    log INFO ("Running Ansible playbook " +:+ name +:+ "...");;
    inv ← package_inventory;
    lift (run_ansible_playbook inv extra_vars path (PyStr name) vault_password).

(** [_refresh_package_metadata], [_deactivate_provisioning_service_block]
    and [_activate_provisioning_service_block]: "Empty until Aminator is
    reorganized". *)
Definition _refresh_package_metadata (self : plugin) : M bool := ret true.

Definition _deactivate_provisioning_service_block (self : plugin) : M bool := ret true.

Definition _activate_provisioning_service_block (self : plugin) : M bool := ret true.

(** ** Concrete requests and filesystems *)

Definition dir_of (l : list (string * node)) : node := Dir (list_to_map l).

(** The playbooks on the host. *)
Definition playbooks_tree : node :=
  dir_of [("site.yml", File "- hosts: all")].

(** A host with playbooks under [/artifacts/playbooks] and the volume
    mounted at [/mnt], holding [/etc] and [/tmp]. *)
Definition host_fs : node :=
  dir_of [("artifacts", dir_of [("playbooks", playbooks_tree)]);
          ("mnt", dir_of [("etc", dir_of []); ("tmp", dir_of [])])].

Definition fresh_package : package := Package "site.yml" None None.

Definition host_world (t : node) (env : gmap string string) : world :=
  World t [] [] env [] fresh_package.

(** The world of the process once it has entered the chroot at [mnt]
    ([os.chroot(mnt)] followed by [os.chdir('/')]). *)
Definition enter_chroot (mnt : string) (w : world) : world :=
  match resolve w mnt with
  | Some r => World (fs w) r r (environ w) (handles w) (pkg w)
  | None => w
  end.

Definition base_config : gmap string pyval :=
  list_to_map
    [("playbooks_path_source", PyStr "/artifacts/playbooks");
     ("playbooks_path_dest", PyStr "/srv/prov");
     ("inventory_file", PyStr "hosts");
     ("inventory_file_content", PyStr "127.0.0.1")].

Definition plain_plugin : plugin := Plugin "/mnt" base_config.

Definition vault_plugin : plugin :=
  Plugin "/mnt" (<["vault_password" := PyBool true]> base_config).

Definition state_of {A : Type} (x : result A * world * list event) : world :=
  snd (fst x).

Definition events_of {A : Type} (x : result A * world * list event) : list event :=
  snd x.

Definition outcome_of {A : Type} (x : result A * world * list event) : result A :=
  fst (fst x).

Definition keep_vault_plugin : plugin :=
  Plugin "/mnt"
    (<["keep_playbooks" := PyBool true]>
       (<["vault_password" := PyBool true]> base_config)).

(** A request whose playbooks directory does not exist on the host. *)
Definition missing_source_plugin : plugin :=
  Plugin "/mnt" (<["playbooks_path_source" := PyStr "/artifacts/missing"]> base_config).

(** A request that stages the playbooks as the [/tmp] of a volume that has
    none, from a source that ships a file named [vault_password]. *)
Definition tmp_dest_plugin : plugin :=
  Plugin "/mnt"
    (<["playbooks_path_dest" := PyStr "/tmp"]>
       (<["keep_playbooks" := PyBool true]>
          (<["vault_password" := PyBool true]> base_config))).

Definition playbooks_with_vault_file : node :=
  dir_of [("site.yml", File "- hosts: all"); ("vault_password", File "from the repository")].

Definition bare_volume_fs : node :=
  dir_of [("artifacts", dir_of [("playbooks", playbooks_with_vault_file)]);
          ("mnt", dir_of [("etc", dir_of [])])].

Definition vault_env : gmap string string := {["VAULT_PWD" := "s3cret"]}.

(** The world after staging [self] from the host world [w], seen from
    inside the chroot. *)
Definition staged_in_chroot (self : plugin) (w : world) : world :=
  enter_chroot (_mountpoint self) (state_of (_copy_playbooks self w)).

(** ** Orders on the effects of a run *)

Definition is_cleanup (e : event) : bool :=
  match e with
  | EvRmtree _ | EvRemove _ => true
  | _ => false
  end.

Definition is_record (e : event) : bool :=
  match e with
  | EvSetAttributes _ => true
  | _ => false
  end.

Definition is_log (e : event) : bool :=
  match e with
  | EvLog _ _ => true
  | _ => false
  end.

(** A volume whose [/etc] is a regular file. *)
Definition etc_file_fs : node :=
  dir_of [("mnt", dir_of [("etc", File "")])].

(** The path string has no component ['.'] or ['..']: those are the
    components [comps] does not interpret. *)
Definition no_dots (s : string) : bool :=
  forallb (fun c => negb (String.eqb c ".") && negb (String.eqb c "..")) (comps s).

(** A request whose destination does not start with a slash, and a volume
    that happens to hold a directory [/srv/prov]. *)
Definition relative_dest_plugin : plugin :=
  Plugin "/mnt" (<["playbooks_path_dest" := PyStr "srv/prov"]> base_config).

Definition volume_with_prov_fs : node :=
  dir_of [("artifacts", dir_of [("playbooks", playbooks_tree)]);
          ("mnt", dir_of [("etc", dir_of []); ("tmp", dir_of []);
                          ("srv", dir_of [("prov", dir_of [])])])].

(** Requests with a key missing. *)
Definition no_dest_plugin : plugin :=
  Plugin "/mnt" (delete "playbooks_path_dest" base_config).

Definition no_source_plugin : plugin :=
  Plugin "/mnt" (delete "playbooks_path_source" base_config).

Definition no_inventory_file_plugin : plugin :=
  Plugin "/mnt" (delete "inventory_file" base_config).

Definition no_content_plugin : plugin :=
  Plugin "/mnt"
    (<["inventory_file_path" := PyStr "/etc"]>
       (delete "inventory_file_content" base_config)).

(** Everything of the process but the filesystem is the same in [w] and
    [w']. *)
Definition same_process (w w' : world) : Prop :=
  root w' = root w /\ cwd w' = cwd w /\ environ w' = environ w /\
  handles w' = handles w /\ pkg w' = pkg w.

(** Neither path is on the way to the other. *)
Definition unrelated (p q : path) : Prop :=
  is_prefix p q = false /\ is_prefix q p = false.

(** [m] leaves the component [f] of the state as it was, whether it
    returns or raises. *)
Definition preserves {A X : Type} (f : world -> X) (m : M A) : Prop :=
  forall w : world, f (state_of (m w)) = f w.

(** [m] attempts only effects that satisfy [Q], whatever the state. *)
Definition emits {A : Type} (Q : event -> Prop) (m : M A) : Prop :=
  forall w : world, Forall Q (events_of (m w)).

Definition not_open (e : event) : Prop :=
  match e with
  | EvOpen _ => False
  | _ => True
  end.

(** Every effect of kind [P] comes before every effect of kind [Q]. *)
Definition all_before (P Q : event -> bool) (evs : list event) : Prop :=
  forall (i j : nat) (e1 e2 : event),
    evs !! i = Some e1 -> evs !! j = Some e2 ->
    P e1 = true -> Q e2 = true -> i < j.

(** * Path strings *)

Section Paths.

Lemma comps_aux_app_abs (a b cur : string) :
  is_abs b = true ->
  comps_aux cur (a +:+ b) = comps_aux cur a ++ comps b.
Proof.
  revert cur. induction a as [|c a IH]; intros cur Hb; simpl.
  - destruct b as [|c b]; [discriminate|]. simpl in Hb.
    unfold comps. simpl. rewrite Hb. simpl. reflexivity.
  - destruct (Ascii.eqb c slash).
    + rewrite IH by assumption. rewrite app_assoc. reflexivity.
    + apply IH. assumption.
Qed.

Lemma comps_aux_app_slash (a b cur : string) :
  ends_with_slash a = true ->
  comps_aux cur (a +:+ b) = comps_aux cur a ++ comps b.
Proof.
  revert cur. induction a as [|c a IH]; intros cur Ha; [discriminate|].
  destruct a as [|c' a].
  - simpl in Ha. simpl. rewrite Ha. simpl. rewrite app_nil_r. reflexivity.
  - change (ends_with_slash (String c' a) = true) in Ha.
    change (String c (String c' a) +:+ b) with (String c (String c' a +:+ b)).
    change (comps_aux cur (String c (String c' a +:+ b))) with
      (if Ascii.eqb c slash then flush cur ++ comps_aux "" (String c' a +:+ b)
       else comps_aux (cur +:+ String c "") (String c' a +:+ b)).
    change (comps_aux cur (String c (String c' a))) with
      (if Ascii.eqb c slash then flush cur ++ comps_aux "" (String c' a)
       else comps_aux (cur +:+ String c "") (String c' a)).
    destruct (Ascii.eqb c slash).
    + rewrite IH by assumption. rewrite app_assoc. reflexivity.
    + apply IH. assumption.
Qed.

Lemma comps_app_abs (a b : string) :
  is_abs b = true -> comps (a +:+ b) = comps a ++ comps b.
Proof. apply comps_aux_app_abs. Qed.

Lemma append_assoc (a b c : string) : (a +:+ b) +:+ c = a +:+ (b +:+ c).
Proof.
  induction a as [|x a IH]; [reflexivity|].
  change (String x ((a +:+ b) +:+ c) = String x (a +:+ (b +:+ c))).
  f_equal. exact IH.
Qed.

Lemma append_empty_r (a : string) : a +:+ "" = a.
Proof.
  induction a as [|x a IH]; [reflexivity|].
  change (String x (a +:+ "") = String x a). f_equal. exact IH.
Qed.

Lemma is_abs_append (a b : string) : is_abs a = true -> is_abs (a +:+ b) = true.
Proof. destruct a; [discriminate|]. simpl. auto. Qed.

Lemma abs_not_empty (a : string) : is_abs a = true -> a <> "".
Proof. destruct a; [discriminate|]. discriminate. Qed.

Lemma ends_with_slash_append (a : string) (c : ascii) (b : string) :
  ends_with_slash (a +:+ String c b) = ends_with_slash (String c b).
Proof.
  induction a as [|x a IH]; [reflexivity|].
  change (String x a +:+ String c b) with (String x (a +:+ String c b)).
  destruct a as [|y a]; [reflexivity|].
  change (String y a +:+ String c b) with (String y (a +:+ String c b)) in *.
  exact IH.
Qed.

Lemma join2_rel (acc b : string) :
  is_abs b = false -> acc <> "" ->
  join2 acc b =
    if ends_with_slash acc then acc +:+ b else acc +:+ String slash b.
Proof.
  intros Hb Hacc. unfold join2. rewrite Hb.
  rewrite (bool_decide_eq_false_2 _ Hacc). reflexivity.
Qed.

Lemma append_not_empty (a : string) (c : ascii) (b : string) :
  a +:+ String c b <> "".
Proof. destruct a; discriminate. Qed.

(** Where staging puts the secret: [tmp/vault_password] below the mount
    point, whether or not the mount point ends in a slash. *)
Lemma comps_secret (m : string) :
  is_abs m = true ->
  is_abs (os_path_join m ["tmp"; "vault_password"]) = true /\
  comps (os_path_join m ["tmp"; "vault_password"]) =
    comps m ++ ["tmp"; "vault_password"].
Proof.
  intros Hm.
  change (os_path_join m ["tmp"; "vault_password"])
    with (join2 (join2 m "tmp") "vault_password").
  rewrite (join2_rel m "tmp") by (reflexivity || apply abs_not_empty; assumption).
  destruct (ends_with_slash m) eqn:Hs.
  - rewrite join2_rel by (reflexivity || apply append_not_empty).
    rewrite ends_with_slash_append. simpl ends_with_slash. cbv iota.
    split; [do 2 apply is_abs_append; assumption|].
    rewrite comps_app_abs by reflexivity.
    unfold comps at 1. rewrite comps_aux_app_slash by assumption.
    rewrite <- app_assoc. reflexivity.
  - rewrite join2_rel by (reflexivity || apply append_not_empty).
    rewrite ends_with_slash_append. simpl ends_with_slash. cbv iota.
    split; [do 2 apply is_abs_append; assumption|].
    rewrite comps_app_abs by reflexivity.
    rewrite comps_app_abs by reflexivity.
    rewrite <- app_assoc. reflexivity.
Qed.

End Paths.

(** * The filesystem tree *)

Section Tree.

Lemma get_cons (m : gmap string node) (c : string) (p : path) :
  get (Dir m) (c :: p) = match m !! c with Some t' => get t' p | None => None end.
Proof. reflexivity. Qed.

Lemma get_file (s : string) (p : path) : p <> [] -> get (File s) p = None.
Proof. destruct p; [congruence|reflexivity]. Qed.

Lemma get_app (t : node) (p q : path) :
  get t (p ++ q) = match get t p with Some n => get n q | None => None end.
Proof.
  revert t. induction p as [|c p IH]; intros t; [reflexivity|].
  destruct t as [s|m]; [reflexivity|].
  simpl. destruct (m !! c); [apply IH|reflexivity].
Qed.

(** What is read at the stored path afterwards. *)
Lemma store_get_same (t t' : node) (p : path) (o : option node) :
  store t p o = Some t' -> get t' p = o.
Proof.
  revert t t'. induction p as [|c p IH]; intros t t' H; [discriminate|].
  destruct t as [s|m]; [discriminate|]. simpl in H.
  destruct p as [|c' p].
  - inversion H; subst. simpl. rewrite lookup_partial_alter_eq.
    destruct o; reflexivity.
  - destruct (m !! c) as [t1|] eqn:Hc; [|discriminate].
    destruct (store t1 (c' :: p) o) as [t1'|] eqn:Hs; [|discriminate].
    inversion H; subst. rewrite get_cons, lookup_insert_eq. eapply IH; eassumption.
Qed.

(** Unlinking an entry creates nothing. *)
Lemma store_none_get_none (t t' : node) (q p : path) :
  store t q None = Some t' -> get t p = None -> get t' p = None.
Proof.
  revert t t' p. induction q as [|c q IH]; intros t t' p H Hp; [discriminate|].
  destruct t as [s|m]; [discriminate|]. simpl in H.
  destruct p as [|a p]; [discriminate|].
  rewrite get_cons in Hp.
  destruct q as [|c' q].
  - inversion H; subst. rewrite get_cons.
    destruct (decide (c = a)) as [->|Hne].
    + rewrite lookup_partial_alter_eq. reflexivity.
    + rewrite lookup_partial_alter_ne by assumption. exact Hp.
  - destruct (m !! c) as [t1|] eqn:Hc; [|discriminate].
    destruct (store t1 (c' :: q) None) as [t1'|] eqn:Hs; [|discriminate].
    inversion H; subst. rewrite get_cons.
    destruct (decide (c = a)) as [->|Hne].
    + rewrite lookup_insert_eq. rewrite Hc in Hp. eapply IH; eassumption.
    + rewrite lookup_insert_ne by assumption. exact Hp.
Qed.

Lemma isdir_cons (m : gmap string node) (c : string) (p : path) :
  isdir (Dir m) (c :: p) =
    match m !! c with Some t' => isdir t' p | None => false end.
Proof. unfold isdir. rewrite get_cons. destruct (m !! c); reflexivity. Qed.

Lemma isdir_file (s : string) (p : path) : isdir (File s) p = false.
Proof. destruct p; reflexivity. Qed.

(** Rebinding or unlinking an entry that is not a directory keeps every
    directory a directory. *)
Lemma store_isdir (t t' : node) (q p : path) (o : option node) :
  store t q o = Some t' ->
  isdir t q = false -> isdir t p = true -> isdir t' p = true.
Proof.
  revert t t' p. induction q as [|c q IH]; intros t t' p H Hq Hp; [discriminate|].
  destruct t as [s0|m]; [discriminate|]. simpl in H.
  rewrite isdir_cons in Hq.
  destruct q as [|c' q].
  - inversion H; subst. destruct p as [|a p]; [reflexivity|].
    rewrite isdir_cons in Hp. rewrite isdir_cons.
    destruct (decide (c = a)) as [->|Hne].
    + destruct (m !! a) as [t1|]; [|discriminate].
      destruct p as [|b p].
      * congruence.
      * destruct t1 as [s1|m1]; [rewrite isdir_file in Hp; discriminate|].
        discriminate.
    + rewrite lookup_partial_alter_ne by assumption. exact Hp.
  - destruct (m !! c) as [t1|] eqn:Hc; [|discriminate].
    destruct (store t1 (c' :: q) o) as [t1'|] eqn:Hs; [|discriminate].
    inversion H; subst. destruct p as [|a p]; [reflexivity|].
    rewrite isdir_cons in Hp. rewrite isdir_cons.
    destruct (decide (c = a)) as [->|Hne].
    + rewrite lookup_insert_eq. rewrite Hc in Hp. eapply IH; eassumption.
    + rewrite lookup_insert_ne by assumption. exact Hp.
Qed.

(** Rebinding or unlinking an entry that is not a directory leaves every
    existing entry that is not on the way to it as it was. *)
Lemma store_get_other (t t' : node) (q p : path) (o : option node) :
  store t q o = Some t' ->
  isdir t q = false -> is_prefix p q = false -> is_Some (get t p) ->
  get t' p = get t p.
Proof.
  revert t t' p. induction q as [|c q IH]; intros t t' p H Hq Hpq Hp; [discriminate|].
  destruct t as [s0|m]; [discriminate|]. simpl in H.
  rewrite isdir_cons in Hq.
  destruct p as [|a p]; [discriminate|].
  simpl in Hpq. rewrite get_cons in Hp.
  destruct q as [|c' q].
  - inversion H; subst. rewrite !get_cons.
    destruct (decide (a = c)) as [->|Hne].
    + rewrite bool_decide_eq_true_2 in Hpq by reflexivity. simpl in Hpq.
      destruct p as [|b p]; [discriminate|].
      destruct (m !! c) as [t1|]; [|destruct Hp; discriminate].
      destruct t1 as [s1|m1]; [destruct Hp; discriminate|discriminate].
    + rewrite lookup_partial_alter_ne by congruence. reflexivity.
  - destruct (m !! c) as [t1|] eqn:Hc; [|discriminate].
    destruct (store t1 (c' :: q) o) as [t1'|] eqn:Hs; [|discriminate].
    inversion H; subst. rewrite !get_cons.
    destruct (decide (a = c)) as [->|Hne].
    + rewrite bool_decide_eq_true_2 in Hpq by reflexivity. simpl in Hpq.
      rewrite lookup_insert_eq. rewrite Hc in Hp |- *.
      eapply IH; eassumption.
    + rewrite lookup_insert_ne by congruence. reflexivity.
Qed.

Lemma chain_get (p : path) (n : node) : get (chain p n) p = Some n.
Proof.
  induction p as [|c p IH]; [reflexivity|].
  simpl. rewrite lookup_singleton_eq. exact IH.
Qed.

(** What a successful [graft] leaves at the grafted path, and what stood
    there before. *)
Lemma graft_get_same (t t' : node) (p : path) (n : node) :
  graft t p n = Some t' -> get t' p = Some n.
Proof.
  revert t t'. induction p as [|c p IH]; intros t t' H; [discriminate|].
  destruct t as [s|m]; [discriminate|]. simpl in H.
  destruct (m !! c) as [t1|] eqn:Hc.
  - destruct (graft t1 p n) as [t1'|] eqn:Hg; [|discriminate].
    inversion H; subst. rewrite get_cons, lookup_insert_eq. eapply IH; eassumption.
  - inversion H; subst. rewrite get_cons, lookup_insert_eq. apply chain_get.
Qed.

Lemma graft_get_none (t t' : node) (p : path) (n : node) :
  graft t p n = Some t' -> get t p = None.
Proof.
  revert t t'. induction p as [|c p IH]; intros t t' H; [discriminate|].
  destruct t as [s|m]; [discriminate|]. simpl in H. rewrite get_cons.
  destruct (m !! c) as [t1|] eqn:Hc; [|reflexivity].
  destruct (graft t1 p n) as [t1'|] eqn:Hg; [|discriminate].
  eapply IH; eassumption.
Qed.

Lemma isdir_get_none (t : node) (p : path) : get t p = None -> isdir t p = false.
Proof. unfold isdir. intros ->. reflexivity. Qed.

End Tree.

(** * Running the monad *)

Section Monad.

Context {A B : Type}.

Lemma bind_run (m : M A) (k : A -> M B) (w : world) :
  (x ← m; k x) w =
    match m w with
    | (Ret a, w1, ev1) =>
        match k a w1 with
        | (r, w2, ev2) => (r, w2, ev1 ++ ev2)
        end
    | (Raise e, w1, ev1) => (Raise e, w1, ev1)
    end.
Proof. reflexivity. Qed.

Lemma ret_bind (a : A) (k : A -> M B) (w : world) :
  (x ← ret a; k x) w = k a w.
Proof.
  rewrite bind_run. unfold ret. destruct (k a w) as [[r w2] ev2]. reflexivity.
Qed.

Lemma bind_ret_inv (m : M A) (k : A -> M B) (w w' : world) (b : B) (ev : list event) :
  (x ← m; k x) w = (Ret b, w', ev) ->
  exists a w1 ev1 ev2,
    m w = (Ret a, w1, ev1) /\ k a w1 = (Ret b, w', ev2) /\ ev = ev1 ++ ev2.
Proof.
  rewrite bind_run. destruct (m w) as [[[a|e] w1] ev1]; [|discriminate].
  destruct (k a w1) as [[r w2] ev2] eqn:Hk. intros H. inversion H; subst.
  exists a, w1, ev1, ev2. auto.
Qed.

End Monad.

(** * The command line *)

(** C4: the command builder returns
    [ansible-playbook -c local -i <inventory> -e 'ami=True <extra_vars>' <playbook_dir>/<playbook>],
    followed by [ --vault-password-file /tmp/vault_password] exactly when
    the vault password flag is true; on the request of scenario A it is
    [ansible-playbook -c local -i /etc/ansible/hosts -e 'ami=True ' /srv/prov/site.yml]. *)
Theorem C4_command_line :
  (forall (inventory extra_vars playbook_dir playbook : string) (vault_password : pyval),
     run_ansible_playbook (PyStr inventory) (PyStr extra_vars) (PyStr playbook_dir)
       (PyStr playbook) vault_password =
     Ret ("ansible-playbook -c local -i " +:+ inventory +:+ " -e 'ami=True " +:+
          extra_vars +:+ "' " +:+ playbook_dir +:+ "/" +:+ playbook +:+
          (if truthy vault_password
           then " --vault-password-file /tmp/vault_password" else ""))) /\
  run_ansible_playbook (PyStr "/etc/ansible/hosts") (PyStr "") (PyStr "/srv/prov")
    (PyStr "site.yml") (PyStr "") =
  Ret "ansible-playbook -c local -i /etc/ansible/hosts -e 'ami=True ' /srv/prov/site.yml".
Proof.
  split; [|reflexivity].
  intros inventory extra_vars playbook_dir playbook vault_password.
  unfold run_ansible_playbook. simpl py_str.
  destruct (truthy vault_password).
  - f_equal. rewrite !append_assoc. reflexivity.
  - f_equal. rewrite append_empty_r. reflexivity.
Qed.

(** * Cleanup and metadata *)

Section Cleanup.

Lemma rmtree_events (v : pyval) (w : world) :
  events_of (shutil_rmtree v w) = [EvRmtree (py_str v)].
Proof.
  unfold shutil_rmtree, events_of. destruct v as [|b|s]; try reflexivity.
  destruct (resolve w s) as [p|]; [|reflexivity].
  destruct (isdir (fs w) p); [|reflexivity].
  destruct (bool_decide (p = root w)).
  - destruct p; [reflexivity|]. destruct (store _ _ _); reflexivity.
  - destruct (store _ _ _); reflexivity.
Qed.

Lemma remove_events (p : string) (w : world) :
  events_of (os_remove p w) = [EvRemove p].
Proof.
  unfold os_remove, events_of. destruct (resolve w p) as [pp|]; [|reflexivity].
  destruct (get (fs w) pp) as [[c|m]|]; try reflexivity.
  destruct (store _ _ _); reflexivity.
Qed.

(** A call of [shutil.rmtree] that returns has unlinked a directory. *)
Lemma rmtree_ret_inv (v : pyval) (w w' : world) (ev : list event) :
  shutil_rmtree v w = (Ret (), w', ev) ->
  exists s p t',
    v = PyStr s /\ resolve w s = Some p /\ isdir (fs w) p = true /\
    store (fs w) p None = Some t' /\ w' = set_fs t' w.
Proof.
  unfold shutil_rmtree. destruct v as [|b|s]; try discriminate.
  destruct (resolve w s) as [p|] eqn:Hr; [|discriminate].
  destruct (isdir (fs w) p) eqn:Hd; [|discriminate].
  destruct (bool_decide (p = root w)).
  - destruct p; [discriminate|]. destruct (store _ _ _); discriminate.
  - destruct (store (fs w) p None) as [t'|] eqn:Hs; [|discriminate].
    intros H. inversion H; subst. exists s, p, t'. auto.
Qed.

(** A call of [shutil.rmtree] on something that is not a directory raises
    and changes nothing. *)
Lemma rmtree_not_dir (s : string) (w : world) (p : path) :
  resolve w s = Some p -> isdir (fs w) p = false ->
  shutil_rmtree (PyStr s) w = (Raise OSError, w, [EvRmtree s]).
Proof. intros Hr Hd. unfold shutil_rmtree. rewrite Hr, Hd. reflexivity. Qed.

(** A call of [os.remove] that returns has unlinked a regular file. *)
Lemma remove_ret_inv (p : string) (w w' : world) (ev : list event) :
  os_remove p w = (Ret (), w', ev) ->
  exists pp t',
    resolve w p = Some pp /\ store (fs w) pp None = Some t' /\ w' = set_fs t' w.
Proof.
  unfold os_remove. destruct (resolve w p) as [pp|] eqn:Hr; [|discriminate].
  destruct (get (fs w) pp) as [[c|m]|]; try discriminate.
  destruct (store (fs w) pp None) as [t'|] eqn:Hs; [|discriminate].
  intros H. inversion H; subst. exists pp, t'. auto.
Qed.

Lemma cleanup_keep (self : plugin) (w : world) :
  truthy (cfg_get (config self) "keep_playbooks") = true ->
  _ansible_cleanup self w = erase_secret self w.
Proof.
  intros Hk. unfold _ansible_cleanup, erase_secret. rewrite Hk. simpl negb. cbv iota.
  rewrite bind_run. unfold ret at 1.
  destruct (truthy (cfg_get (config self) "vault_password")).
  - destruct (os_remove vault_password_file w) as [[r w2] ev2]. reflexivity.
  - reflexivity.
Qed.

Lemma cleanup_unstage (self : plugin) (w : world) :
  truthy (cfg_get (config self) "keep_playbooks") = false ->
  _ansible_cleanup self w =
    (shutil_rmtree (cfg_get (config self) "playbooks_path_dest");; erase_secret self) w.
Proof.
  intros Hk. unfold _ansible_cleanup, erase_secret. rewrite Hk. reflexivity.
Qed.

Lemma erase_secret_events (self : plugin) (w : world) :
  Forall (fun e => is_cleanup e = true) (events_of (erase_secret self w)).
Proof.
  unfold erase_secret. destruct (truthy _).
  - rewrite remove_events. repeat constructor.
  - constructor.
Qed.

Lemma cleanup_events (self : plugin) (w : world) :
  Forall (fun e => is_cleanup e = true) (events_of (_ansible_cleanup self w)).
Proof.
  destruct (truthy (cfg_get (config self) "keep_playbooks")) eqn:Hk.
  - rewrite cleanup_keep by assumption. apply erase_secret_events.
  - rewrite cleanup_unstage by assumption. rewrite bind_run.
    pose proof (rmtree_events (cfg_get (config self) "playbooks_path_dest") w) as Hev.
    destruct (shutil_rmtree _ w) as [[[u|e] w1] ev1]; unfold events_of in Hev;
      simpl in Hev; subst ev1.
    + pose proof (erase_secret_events self w1) as Hev2.
      destruct (erase_secret self w1) as [[r w2] ev2]. unfold events_of in *. simpl in *.
      constructor; [reflexivity|assumption].
    + repeat constructor.
Qed.

(** What [_store_package_metadata] does, in terms of [_ansible_cleanup]. *)
Lemma store_package_metadata_run (self : plugin) (w : world) :
  _store_package_metadata self w =
    match _ansible_cleanup self w with
    | (Ret _, w1, ev1) =>
        let md := metadata_of self (arg (pkg w1)) in
        (Ret (),
         set_pkg (Package (arg (pkg w1)) (inventory (pkg w1)) (Some md)) w1,
         ev1 ++ [EvSetAttributes md])
    | (Raise e, w1, ev1) => (Raise e, w1, ev1)
    end.
Proof.
  unfold _store_package_metadata. rewrite bind_run.
  destruct (_ansible_cleanup self w) as [[[u|e] w1] ev1]; reflexivity.
Qed.

Lemma all_before_app (P Q : event -> bool) (l1 l2 : list event) :
  Forall (fun e => Q e = false) l1 ->
  Forall (fun e => P e = false) l2 ->
  all_before P Q (l1 ++ l2).
Proof.
  intros H1 H2 i j e1 e2 Hi Hj HP HQ.
  rewrite Forall_lookup in H1. rewrite Forall_lookup in H2.
  destruct (decide (i < length l1)) as [Hlt|Hge].
  - destruct (decide (j < length l1)) as [Hjl|Hjg]; [|lia].
    rewrite lookup_app_l in Hj by assumption.
    specialize (H1 _ _ Hj). simpl in H1. congruence.
  - rewrite lookup_app_r in Hi by lia.
    specialize (H2 _ _ Hi). simpl in H2. congruence.
Qed.

End Cleanup.

(** C5, as the code has it: in every run of [_store_package_metadata] the
    cleanup effects (removal of the staged playbooks, removal of the
    secret) all come before the metadata is recorded: the method first runs
    [_ansible_cleanup] and records the metadata (name, version, release,
    extra_vars) after it, only when cleanup returned without raising. *)
Theorem C5_cleanup_before_record (self : plugin) (w : world) :
  all_before is_cleanup is_record (events_of (_store_package_metadata self w)) /\
  _store_package_metadata self w =
    match _ansible_cleanup self w with
    | (Ret _, w1, ev1) =>
        let md := metadata_of self (arg (pkg w1)) in
        (Ret (),
         set_pkg (Package (arg (pkg w1)) (inventory (pkg w1)) (Some md)) w1,
         ev1 ++ [EvSetAttributes md])
    | (Raise e, w1, ev1) => (Raise e, w1, ev1)
    end.
Proof.
  split; [|apply store_package_metadata_run].
  pose proof (cleanup_events self w) as Hev.
  assert (Hnr : Forall (fun x => is_record x = false) (events_of (_ansible_cleanup self w))).
  { eapply Forall_impl; [exact Hev|]. intros [] Hx; simpl in *; congruence. }
  rewrite store_package_metadata_run.
  destruct (_ansible_cleanup self w) as [[[u|e] w1] ev1] eqn:Hc;
    unfold events_of in *; simpl in *.
  - apply all_before_app; [exact Hnr|]. repeat constructor.
  - rewrite <- (app_nil_r ev1). apply all_before_app; [exact Hnr|constructor].
Qed.

(** C5, as stated, fails on a staged request: the metadata is recorded
    after the playbooks have been removed, not before. *)
Lemma C5_counterexample :
  ~ all_before is_record is_cleanup
      (events_of (_store_package_metadata plain_plugin
                    (staged_in_chroot plain_plugin (host_world host_fs ∅)))).
Proof.
  assert (E : events_of (_store_package_metadata plain_plugin
                (staged_in_chroot plain_plugin (host_world host_fs ∅))) =
              [EvRmtree "/srv/prov"; EvSetAttributes (metadata_of plain_plugin "site.yml")]).
  { vm_compute. reflexivity. }
  rewrite E. intros H.
  specialize (H 1 0 _ _ eq_refl eq_refl eq_refl eq_refl). lia.
Qed.

Section Unstage.

Lemma erase_secret_ret_inv (self : plugin) (w w' : world) (ev : list event) :
  erase_secret self w = (Ret (), w', ev) ->
  (truthy (cfg_get (config self) "vault_password") = false /\ w' = w) \/
  (truthy (cfg_get (config self) "vault_password") = true /\
   exists pp t',
     resolve w vault_password_file = Some pp /\
     store (fs w) pp None = Some t' /\ w' = set_fs t' w).
Proof.
  unfold erase_secret. destruct (truthy _).
  - intros H. right. split; [reflexivity|]. eapply remove_ret_inv. exact H.
  - intros H. inversion H. left. auto.
Qed.

(** With [keep_playbooks] false, cleanup raises at once, and changes
    nothing, unless the destination is a directory. *)
Lemma cleanup_not_dir (self : plugin) (w : world) (d : string) (P : path) :
  truthy (cfg_get (config self) "keep_playbooks") = false ->
  cfg_get (config self) "playbooks_path_dest" = PyStr d ->
  resolve w d = Some P ->
  isdir (fs w) P = false ->
  _ansible_cleanup self w = (Raise OSError, w, [EvRmtree d]).
Proof.
  intros Hk Hd Hr Hn. rewrite cleanup_unstage by assumption.
  rewrite bind_run, Hd. rewrite (rmtree_not_dir d w P) by assumption. reflexivity.
Qed.

(** With [keep_playbooks] false, a cleanup that returns has unlinked the
    directory the destination names for the process, and nothing stands
    at that path afterwards. *)
Lemma cleanup_ret_unstaged (self : plugin) (w w' : world) (ev : list event) :
  truthy (cfg_get (config self) "keep_playbooks") = false ->
  _ansible_cleanup self w = (Ret (), w', ev) ->
  exists d P,
    cfg_get (config self) "playbooks_path_dest" = PyStr d /\
    resolve w d = Some P /\ isdir (fs w) P = true /\
    get (fs w') P = None /\ root w' = root w /\ cwd w' = cwd w.
Proof.
  intros Hk H. rewrite cleanup_unstage in H by assumption.
  apply bind_ret_inv in H as ([] & wa & ev1 & ev2 & Hrm & Her & _).
  apply rmtree_ret_inv in Hrm as (d & P & t' & Hd & Hr & Hdir & Hst & ->).
  exists d, P. split; [assumption|]. split; [assumption|]. split; [assumption|].
  pose proof (store_get_same _ _ _ _ Hst) as Hnone.
  apply erase_secret_ret_inv in Her as [[_ ->]|[_ (pp & t'' & _ & Hst2 & ->)]].
  - auto.
  - simpl. split; [|auto]. eapply store_none_get_none; eassumption.
Qed.

End Unstage.

(** C7, as the code has it: cleanup with [keep_playbooks] false is not
    idempotent.  When nothing stands at the destination, [shutil.rmtree]
    raises [OSError]; the failing call leaves the whole state, filesystem
    included, as it was.  In particular a second cleanup right after a
    cleanup that returned raises. *)
Theorem C7_unstage_missing_raises :
  (forall (self : plugin) (w : world) (d : string) (P : path),
     truthy (cfg_get (config self) "keep_playbooks") = false ->
     config self !! "playbooks_path_dest" = Some (PyStr d) ->
     resolve w d = Some P ->
     get (fs w) P = None ->
     _ansible_cleanup self w = (Raise OSError, w, [EvRmtree d])) /\
  (forall (self : plugin) (w w1 : world) (ev : list event),
     truthy (cfg_get (config self) "keep_playbooks") = false ->
     _ansible_cleanup self w = (Ret (), w1, ev) ->
     exists d, _ansible_cleanup self w1 = (Raise OSError, w1, [EvRmtree d])).
Proof.
  split.
  - intros self w d P Hk Hd Hr Hn.
    apply (cleanup_not_dir self w d P); try assumption.
    + unfold cfg_get. rewrite Hd. reflexivity.
    + apply isdir_get_none. assumption.
  - intros self w w1 ev Hk H.
    destruct (cleanup_ret_unstaged self w w1 ev Hk H)
      as (d & P & Hd & Hr & _ & Hnone & Hroot & Hcwd).
    exists d. apply (cleanup_not_dir self w1 d P); try assumption.
    + unfold resolve in *. rewrite Hroot, Hcwd. assumption.
    + apply isdir_get_none. assumption.
Qed.

(** C7 at a concrete input: nothing staged, and right after a cleanup of
    staged playbooks. *)
Lemma C7_witness :
  _ansible_cleanup plain_plugin (enter_chroot "/mnt" (host_world host_fs ∅)) =
    (Raise OSError, enter_chroot "/mnt" (host_world host_fs ∅), [EvRmtree "/srv/prov"]) /\
  exists d,
    _ansible_cleanup plain_plugin
      (state_of (_ansible_cleanup plain_plugin
                   (staged_in_chroot plain_plugin (host_world host_fs ∅)))) =
    (Raise OSError,
     state_of (_ansible_cleanup plain_plugin
                 (staged_in_chroot plain_plugin (host_world host_fs ∅))),
     [EvRmtree d]).
Proof.
  split.
  - apply (proj1 C7_unstage_missing_raises plain_plugin _ "/srv/prov" ["mnt"; "srv"; "prov"]);
      reflexivity.
  - apply (proj2 C7_unstage_missing_raises plain_plugin
             (staged_in_chroot plain_plugin (host_world host_fs ∅)) _
             [EvRmtree "/srv/prov"]).
    + reflexivity.
    + vm_compute. reflexivity.
Defined.

(** C7, as stated, fails: with nothing staged at [/srv/prov] under the
    mount, cleanup does not return normally. *)
Lemma C7_counterexample :
  truthy (cfg_get (config plain_plugin) "keep_playbooks") = false /\
  get (fs (enter_chroot "/mnt" (host_world host_fs ∅))) ["mnt"; "srv"; "prov"] = None /\
  ~ exists w' ev,
      _ansible_cleanup plain_plugin (enter_chroot "/mnt" (host_world host_fs ∅)) =
        (Ret (), w', ev).
Proof.
  split; [reflexivity|]. split; [reflexivity|].
  intros (w' & ev & H). vm_compute in H. discriminate.
Qed.

(** * Staging *)

Section Effects.

Context {A B : Type}.

Lemma events_bind (m : M A) (k : A -> M B) (w : world) :
  events_of ((x ← m; k x) w) =
    events_of (m w) ++
    match outcome_of (m w) with
    | Ret a => events_of (k a (state_of (m w)))
    | Raise _ => []
    end.
Proof.
  rewrite bind_run. unfold events_of, outcome_of, state_of.
  destruct (m w) as [[[a|e] w1] ev1]; simpl.
  - destruct (k a w1) as [[r w2] ev2]. reflexivity.
  - rewrite app_nil_r. reflexivity.
Qed.

Lemma emits_bind (Q : event -> Prop) (m : M A) (k : A -> M B) :
  emits Q m -> (forall a, emits Q (k a)) -> emits Q (x ← m; k x).
Proof.
  intros Hm Hk w. rewrite events_bind. apply Forall_app. split; [apply Hm|].
  destruct (outcome_of (m w)); [apply Hk|constructor].
Qed.

Lemma emits_ret (Q : event -> Prop) (a : A) : emits Q (ret a).
Proof. intros w. constructor. Qed.

Lemma emits_raise (Q : event -> Prop) (e : exn) : emits Q (raise e : M A).
Proof. intros w. constructor. Qed.

End Effects.

Section Staging.

Lemma emits_log (Q : event -> Prop) (lvl : level) (msg : string) :
  Q (EvLog lvl msg) -> emits Q (log lvl msg).
Proof. intros H w. repeat constructor. exact H. Qed.

Lemma emits_py_concat (Q : event -> Prop) (a b : pyval) : emits Q (py_concat a b).
Proof. intros w. unfold py_concat. destruct a, b; constructor. Qed.

Lemma emits_isdir (Q : event -> Prop) (v : pyval) : emits Q (os_path_isdir v).
Proof. intros w. unfold os_path_isdir. destruct v; constructor. Qed.

Lemma copytree_events (v : pyval) (dst : string) (w : world) :
  events_of (shutil_copytree v dst w) = [EvCopytree (py_str v) dst].
Proof.
  unfold shutil_copytree, events_of. destruct v as [|b|s]; try reflexivity.
  destruct (resolve w s) as [ps|]; [|reflexivity].
  destruct (resolve w dst) as [pd|]; [|reflexivity].
  destruct (get (fs w) ps) as [[c|m]|]; try reflexivity.
  destruct (copy_reenters _ _ _); destruct (graft _ _ _); reflexivity.
Qed.

(** Staging opens no file unless the vault password is asked for. *)
Lemma copy_playbooks_no_open (self : plugin) :
  truthy (cfg_get (config self) "vault_password") = false ->
  emits not_open (_copy_playbooks self).
Proof.
  intros Hv. unfold _copy_playbooks. rewrite Hv.
  apply emits_bind; [apply emits_py_concat|]. intros dst.
  apply emits_bind; [apply emits_isdir|]. intros b.
  apply emits_bind.
  { destruct (negb b); [apply emits_log; exact I|apply emits_ret]. }
  intros _. apply emits_bind; [apply emits_isdir|]. intros b2.
  destruct b2.
  - apply emits_bind; [apply emits_log; exact I|]. intros _. apply emits_ret.
  - apply emits_bind.
    { intros w. rewrite copytree_events. repeat constructor. }
    intros _. apply emits_bind; [apply emits_ret|]. intros _. apply emits_ret.
Qed.

Lemma copytree_ret_inv (v : pyval) (dst : string) (w w' : world) (ev : list event) :
  shutil_copytree v dst w = (Ret (), w', ev) ->
  exists s ps pd m t',
    v = PyStr s /\ resolve w s = Some ps /\ resolve w dst = Some pd /\
    get (fs w) ps = Some (Dir m) /\ graft (fs w) pd (Dir m) = Some t' /\
    w' = set_fs t' w.
Proof.
  unfold shutil_copytree. destruct v as [|b|s]; try discriminate.
  destruct (resolve w s) as [ps|] eqn:Hs; [|discriminate].
  destruct (resolve w dst) as [pd|] eqn:Hd; [|discriminate].
  destruct (get (fs w) ps) as [[c|m]|] eqn:Hg; try discriminate.
  destruct (copy_reenters _ _ _).
  - destruct (graft _ _ _); discriminate.
  - destruct (graft (fs w) pd (Dir m)) as [t'|] eqn:Hgr; [|discriminate].
    intros H. inversion H; subst. exists s, ps, pd, m, t'. auto 10.
Qed.

Lemma isdir_ret_inv (v : pyval) (w w' : world) (b : bool) (ev : list event) :
  os_path_isdir v w = (Ret b, w', ev) ->
  w' = w /\ ev = [] /\
  exists s, v = PyStr s /\
    b = match resolve w s with Some p => isdir (fs w) p | None => false end.
Proof.
  unfold os_path_isdir. destruct v as [|b0|s]; try discriminate.
  intros H. inversion H; subst. eauto.
Qed.

(** A staging that returns [True] has copied the source and then run the
    vault password block, if asked to. *)
Lemma stage_ret_true (self : plugin) (w0 w1 : world) (ev : list event) :
  _copy_playbooks self w0 = (Ret true, w1, ev) ->
  exists d wc evc evv,
    cfg_get (config self) "playbooks_path_dest" = PyStr d /\
    shutil_copytree (cfg_get (config self) "playbooks_path_source")
      (_mountpoint self +:+ d) w0 = (Ret (), wc, evc) /\
    (if truthy (cfg_get (config self) "vault_password")
     then
       pass_vault_password self;;
       release_file (os_path_join (_mountpoint self) ["tmp"; "vault_password"])
     else ret ()) wc = (Ret (), w1, evv).
Proof.
  unfold _copy_playbooks. intros H.
  apply bind_ret_inv in H as (dst & wa & e1 & e2 & Hc & H & _).
  unfold py_concat in Hc.
  destruct (cfg_get (config self) "playbooks_path_dest") as [| |d] eqn:Hd;
    try discriminate.
  inversion Hc; subst. clear Hc.
  apply bind_ret_inv in H as (b & wb & e3 & e4 & Hi & H & _).
  apply isdir_ret_inv in Hi as (-> & _ & _).
  apply bind_ret_inv in H as ([] & wc & e5 & e6 & Hl & H & _).
  assert (wc = wa) as ->.
  { destruct (negb b); inversion Hl; reflexivity. }
  apply bind_ret_inv in H as (b2 & wd & e7 & e8 & Hi2 & H & _).
  apply isdir_ret_inv in Hi2 as (-> & _ & _).
  destruct b2.
  - apply bind_ret_inv in H as ([] & we & e9 & e10 & _ & H & _). inversion H.
  - apply bind_ret_inv in H as ([] & we & e9 & e10 & Hcp & H & _).
    apply bind_ret_inv in H as ([] & wf & e11 & e12 & Hv & H & _).
    inversion H; subst.
    exists d, we, e9, e11. auto.
Qed.

Lemma open_ret_inv (p : string) (w w' : world) (h : path) (ev : list event) :
  py_open_w p w = (Ret h, w', ev) ->
  exists t',
    resolve w p = Some h /\ isdir (fs w) h = false /\
    store (fs w) h (Some (File "")) = Some t' /\
    w' = set_handles (h :: handles w) (set_fs t' w) /\ ev = [EvOpen p].
Proof.
  unfold py_open_w. destruct (resolve w p) as [pp|]; [|discriminate].
  destruct (isdir (fs w) pp) eqn:Hd; [discriminate|].
  destruct (store (fs w) pp (Some (File ""))) as [t'|] eqn:Hs; [|discriminate].
  intros H. inversion H; subst. exists t'. auto.
Qed.

Lemma write_ret_inv (h : path) (v : pyval) (w w' : world) (ev : list event) :
  file_write h v w = (Ret (), w', ev) ->
  exists data c t',
    v = PyStr data /\ get (fs w) h = Some (File c) /\
    store (fs w) h (Some (File (c +:+ data))) = Some t' /\ w' = set_fs t' w.
Proof.
  unfold file_write. destruct v as [| |data]; try discriminate.
  destruct (get (fs w) h) as [[c|m]|] eqn:Hg; try discriminate.
  destruct (store _ _ _) as [t'|] eqn:Hs; [|discriminate].
  intros H. inversion H; subst. exists data, c, t'. auto.
Qed.

Lemma write_raise_inv (h : path) (v : pyval) (w w' : world) (e : exn) (ev : list event) :
  file_write h v w = (Raise e, w', ev) -> e = IOError \/ e = TypeError.
Proof.
  unfold file_write. destruct v as [| |data]; try (intros H; inversion H; auto).
  revert H. destruct (get (fs w) h) as [[c|m]|]; try (intros H; inversion H; auto).
  revert H. destruct (store _ _ _); intros H; inversion H; auto.
Qed.

(** What the vault password block leaves behind when it returns: the
    process is where it was, directories are still directories, and only
    the secret file and the directories on the way to it may differ. *)
Lemma pass_vault_ret (self : plugin) (w w' : world) (ev : list event) :
  pass_vault_password self w = (Ret (), w', ev) ->
  exists SP,
    resolve w (os_path_join (_mountpoint self) ["tmp"; "vault_password"]) = Some SP /\
    root w' = root w /\ cwd w' = cwd w /\
    (forall p, isdir (fs w) p = true -> isdir (fs w') p = true) /\
    (forall p, is_prefix p SP = false -> is_Some (get (fs w) p) ->
               get (fs w') p = get (fs w) p).
Proof.
  unfold pass_vault_password, try_except_KeyError. rewrite bind_run.
  destruct (py_open_w _ w) as [[[h|e] wo] evo] eqn:Hopen.
  2:{ apply (f_equal outcome_of) in Hopen. unfold py_open_w, outcome_of in Hopen.
      destruct (resolve w _); [|simpl in Hopen; inversion Hopen; subst; discriminate].
      destruct (isdir _ _); [simpl in Hopen; inversion Hopen; subst; discriminate|].
      destruct (store _ _ _); simpl in Hopen; inversion Hopen; subst; discriminate. }
  apply open_ret_inv in Hopen as (t1 & Hres & Hnd & Hst & Hwo & Hevo). subst wo evo.
  intros H. exists h. split; [assumption|].
  rewrite bind_run in H. unfold os_environ at 1 in H. simpl environ in H.
  destruct (environ w !! "VAULT_PWD") as [pwd|].
  - rewrite bind_run in H.
    destruct (file_writelines h pwd _) as [[[[]|e] ww] evw] eqn:Hw.
    2:{ unfold file_writelines in Hw.
        apply write_raise_inv in Hw as [->| ->]; discriminate. }
    unfold file_writelines in Hw.
    apply write_ret_inv in Hw as (data & c & t2 & _ & Hg & Hst2 & ->).
    simpl in Hg, Hst2. inversion H; subst. simpl.
    split; [reflexivity|]. split; [reflexivity|].
    assert (Hnd1 : isdir t1 h = false) by (unfold isdir; rewrite Hg; reflexivity).
    split.
    + intros p Hp. eapply store_isdir; [exact Hst2|exact Hnd1|].
      eapply store_isdir; eassumption.
    + intros p Hpre Hp.
      assert (E1 : get t1 p = get (fs w) p) by (eapply store_get_other; eassumption).
      rewrite <- E1. eapply store_get_other; try eassumption. rewrite E1. assumption.
  - inversion H; subst. simpl.
    split; [reflexivity|]. split; [reflexivity|]. split.
    + intros p Hp. eapply store_isdir; eassumption.
    + intros p Hpre Hp. eapply store_get_other; eassumption.
Qed.

(** Releasing the local [f] after the block changes the open files only. *)
Lemma vault_release_ret (self : plugin) (w w1 : world) (ev : list event) :
  (pass_vault_password self;;
   release_file (os_path_join (_mountpoint self) ["tmp"; "vault_password"])) w =
    (Ret (), w1, ev) ->
  exists wb SP,
    pass_vault_password self w = (Ret (), wb, ev) /\
    resolve w (os_path_join (_mountpoint self) ["tmp"; "vault_password"]) = Some SP /\
    w1 = set_handles (filter (fun x => x <> SP) (handles wb)) wb.
Proof.
  intros H. apply bind_ret_inv in H as ([] & wb & e1 & e2 & Hp & Hr & ->).
  pose proof Hp as Hp'. apply pass_vault_ret in Hp' as (SP & HSP & Hroot & Hcwd & _).
  exists wb, SP. unfold release_file in Hr.
  assert (HSPb : resolve wb (os_path_join (_mountpoint self) ["tmp"; "vault_password"]) =
                 Some SP).
  { unfold resolve in *. rewrite Hroot, Hcwd. exact HSP. }
  rewrite HSPb in Hr. inversion Hr; subst. rewrite app_nil_r.
  split; [exact Hp|]. split; [exact HSP|reflexivity].
Qed.

(** The vault password block when [VAULT_PWD] is not set: the file has been
    opened, hence created, and the [KeyError] is only logged. *)
Lemma pass_vault_no_env (self : plugin) (w wo : world) (h : path) (evo : list event) :
  py_open_w (os_path_join (_mountpoint self) ["tmp"; "vault_password"]) w =
    (Ret h, wo, evo) ->
  environ w !! "VAULT_PWD" = None ->
  pass_vault_password self w =
    (Ret (), wo,
     evo ++ [EvLog ERROR "Environment variable for Ansible vault not set!"]).
Proof.
  intros Hopen Henv. unfold pass_vault_password, try_except_KeyError.
  rewrite bind_run, Hopen.
  apply open_ret_inv in Hopen as (t1 & _ & _ & _ & -> & _).
  rewrite bind_run. unfold os_environ at 1. simpl environ. rewrite Henv.
  rewrite app_nil_r. reflexivity.
Qed.

End Staging.

Section StagedRuns.

Lemma resolve_abs (w : world) (s : string) :
  is_abs s = true -> resolve w s = Some (root w ++ comps s).
Proof. intros H. destruct s; [discriminate|]. unfold resolve. rewrite H. reflexivity. Qed.

Lemma is_prefix_app (r p q : path) : is_prefix (r ++ p) (r ++ q) = is_prefix p q.
Proof.
  induction r as [|c r IH]; [reflexivity|].
  simpl. rewrite bool_decide_eq_true_2 by reflexivity. exact IH.
Qed.

(** The path staging copies to, and the same directory named from inside
    the chroot. *)
Lemma staged_path (w0 w2 : world) (mnt d : string) :
  is_abs mnt = true -> is_abs d = true ->
  root w2 = root w0 ++ comps mnt ->
  resolve w0 (mnt +:+ d) = Some (root w0 ++ comps (mnt +:+ d)) /\
  resolve w2 d = Some (root w0 ++ comps (mnt +:+ d)).
Proof.
  intros Hm Hd Hr. split.
  - apply resolve_abs. apply is_abs_append. assumption.
  - rewrite (resolve_abs w2 d Hd), Hr, comps_app_abs by assumption.
    rewrite app_assoc. reflexivity.
Qed.

(** The secret file, named from the host and from inside the chroot. *)
Lemma secret_path (w0 w2 : world) (mnt : string) :
  is_abs mnt = true ->
  root w2 = root w0 ++ comps mnt ->
  resolve w0 (os_path_join mnt ["tmp"; "vault_password"]) =
    Some (root w0 ++ comps mnt ++ ["tmp"; "vault_password"]) /\
  resolve w2 vault_password_file =
    Some (root w0 ++ comps mnt ++ ["tmp"; "vault_password"]).
Proof.
  intros Hm Hr. destruct (comps_secret mnt Hm) as [Habs Hc]. split.
  - rewrite (resolve_abs w0 _ Habs), Hc. reflexivity.
  - rewrite (resolve_abs w2 vault_password_file eq_refl), Hr.
    rewrite <- app_assoc. reflexivity.
Qed.

(** A cleanup that returns, for a request with a vault password, has
    unlinked [/tmp/vault_password]. *)
Lemma cleanup_ret_erased (self : plugin) (w w' : world) (ev : list event) :
  truthy (cfg_get (config self) "vault_password") = true ->
  _ansible_cleanup self w = (Ret (), w', ev) ->
  get (fs w') (root w ++ ["tmp"; "vault_password"]) = None.
Proof.
  intros Hv H.
  assert (Her : exists wa eva, erase_secret self wa = (Ret (), w', eva) /\ root wa = root w).
  { destruct (truthy (cfg_get (config self) "keep_playbooks")) eqn:Hk.
    - rewrite cleanup_keep in H by assumption. eauto.
    - rewrite cleanup_unstage in H by assumption.
      apply bind_ret_inv in H as ([] & wa & e1 & e2 & Hrm & Her & _).
      apply rmtree_ret_inv in Hrm as (s & p & t' & _ & _ & _ & _ & ->).
      exists (set_fs t' w), e2. auto. }
  destruct Her as (wa & eva & Her & Hroot).
  apply erase_secret_ret_inv in Her as [[Hf _]|[_ (pp & t' & Hr & Hst & ->)]];
    [congruence|].
  rewrite (resolve_abs wa vault_password_file eq_refl) in Hr.
  inversion Hr; subst pp. rewrite <- Hroot. simpl fs.
  eapply store_get_same. exact Hst.
Qed.

(** The second statement of cleanup touches nothing but the secret file
    and the directories on the way to it. *)
Lemma erase_secret_frame (self : plugin) (w w' : world) (r : result unit)
    (ev : list event) (p : path) :
  erase_secret self w = (r, w', ev) ->
  (truthy (cfg_get (config self) "vault_password") = true ->
   is_prefix p (root w ++ ["tmp"; "vault_password"]) = false) ->
  is_Some (get (fs w) p) ->
  get (fs w') p = get (fs w) p.
Proof.
  unfold erase_secret. destruct (truthy _).
  - unfold os_remove. rewrite (resolve_abs w vault_password_file eq_refl).
    change (comps vault_password_file) with ["tmp"; "vault_password"].
    destruct (get (fs w) _) as [[c|m]|] eqn:Hg; try (intros H; inversion H; reflexivity).
    destruct (store _ _ _) as [t'|] eqn:Hst; intros H Hpre Hp; inversion H; subst;
      [|reflexivity].
    simpl. eapply store_get_other; [exact Hst| |auto|exact Hp].
    unfold isdir. rewrite Hg. reflexivity.
  - intros H. inversion H. reflexivity.
Qed.

(** What a staging that returns [True] leaves at its destination. *)
Lemma stage_ret_true_tree (self : plugin) (w0 w1 : world) (ev : list event) (d : string) :
  is_abs (_mountpoint self) = true ->
  cfg_get (config self) "playbooks_path_dest" = PyStr d ->
  _copy_playbooks self w0 = (Ret true, w1, ev) ->
  exists s S m,
    cfg_get (config self) "playbooks_path_source" = PyStr s /\
    resolve w0 s = Some S /\ get (fs w0) S = Some (Dir m) /\
    get (fs w0) (root w0 ++ comps (_mountpoint self +:+ d)) = None /\
    isdir (fs w1) (root w0 ++ comps (_mountpoint self +:+ d)) = true /\
    ((truthy (cfg_get (config self) "vault_password") = true ->
      is_prefix (comps (_mountpoint self +:+ d))
        (comps (_mountpoint self) ++ ["tmp"; "vault_password"]) = false) ->
     get (fs w1) (root w0 ++ comps (_mountpoint self +:+ d)) = Some (Dir m)).
Proof.
  intros Hm Hd H.
  apply stage_ret_true in H as (d' & wc & evc & evv & Hd' & Hcp & Hv).
  rewrite Hd in Hd'. inversion Hd'; subst d'. clear Hd'.
  apply copytree_ret_inv in Hcp as (s & S & P & m & t' & Hs & HS & HP & Hg & Hgr & ->).
  rewrite resolve_abs in HP by (apply is_abs_append; assumption).
  inversion HP; subst P. clear HP.
  exists s, S, m. repeat (split; [assumption|]).
  split; [eapply graft_get_none; exact Hgr|].
  pose proof (graft_get_same _ _ _ _ Hgr) as Hsame.
  destruct (truthy (cfg_get (config self) "vault_password")).
  - apply vault_release_ret in Hv as (wb & SP0 & Hv & _ & ->).
    apply pass_vault_ret in Hv as (SP & Hres & _ & _ & Hdir & Hfr).
    simpl fs in *.
    destruct (comps_secret (_mountpoint self) Hm) as [Habs Hc].
    rewrite resolve_abs in Hres by assumption. rewrite Hc in Hres.
    inversion Hres; subst SP. clear Hres. split.
    + apply Hdir. unfold isdir. rewrite Hsame. reflexivity.
    + intros Hpre. rewrite Hfr; [exact Hsame| |rewrite Hsame; eauto].
      simpl root. rewrite is_prefix_app. auto.
  - inversion Hv; subst. simpl. split; [|intros _; exact Hsame].
    unfold isdir. rewrite Hsame. reflexivity.
Qed.

End StagedRuns.

(** C1: whenever staging wrote the secret file
    [<mountpoint>/tmp/vault_password] (it opened it, whether or not the
    password was then available) and cleanup, run inside the chroot at the
    mount point, completes, that file no longer exists on the volume. *)
Theorem C1_secret_erased (self : plugin) (w0 w1 w2 w3 : world)
    (r0 : result bool) (ev1 ev3 : list event) :
  is_abs (_mountpoint self) = true ->
  _copy_playbooks self w0 = (r0, w1, ev1) ->
  In (EvOpen (os_path_join (_mountpoint self) ["tmp"; "vault_password"])) ev1 ->
  root w2 = root w0 ++ comps (_mountpoint self) ->
  _ansible_cleanup self w2 = (Ret (), w3, ev3) ->
  resolve w0 (os_path_join (_mountpoint self) ["tmp"; "vault_password"]) =
    Some (root w0 ++ comps (_mountpoint self) ++ ["tmp"; "vault_password"]) /\
  get (fs w3) (root w0 ++ comps (_mountpoint self) ++ ["tmp"; "vault_password"]) = None.
Proof.
  intros Hm Hst Hopen Hroot Hcl.
  split; [apply (secret_path w0 w2); assumption|].
  assert (Hv : truthy (cfg_get (config self) "vault_password") = true).
  { destruct (truthy (cfg_get (config self) "vault_password")) eqn:Hv; [reflexivity|].
    pose proof (copy_playbooks_no_open self Hv w0) as Hno.
    rewrite Hst in Hno. unfold events_of in Hno. simpl in Hno.
    rewrite Forall_forall in Hno. apply list_elem_of_In in Hopen.
    destruct (Hno _ Hopen). }
  pose proof (cleanup_ret_erased self w2 w3 ev3 Hv Hcl) as Hnone.
  rewrite Hroot, <- app_assoc in Hnone. exact Hnone.
Qed.

(** C1 on a request with a vault password whose [VAULT_PWD] is not set
    (secret source missing): the empty file staging created is gone after
    cleanup. *)
Lemma C1_witness :
  get (fs (state_of (_copy_playbooks vault_plugin (host_world host_fs ∅))))
    ["mnt"; "tmp"; "vault_password"] = Some (File "") /\
  get (fs (state_of (_ansible_cleanup vault_plugin
                       (staged_in_chroot vault_plugin (host_world host_fs ∅)))))
    ["mnt"; "tmp"; "vault_password"] = None.
Proof.
  split; [vm_compute; reflexivity|].
  refine (proj2 (C1_secret_erased vault_plugin (host_world host_fs ∅)
            (state_of (_copy_playbooks vault_plugin (host_world host_fs ∅)))
            (staged_in_chroot vault_plugin (host_world host_fs ∅))
            (state_of (_ansible_cleanup vault_plugin
                         (staged_in_chroot vault_plugin (host_world host_fs ∅))))
            (Ret true)
            [EvCopytree "/artifacts/playbooks" "/mnt/srv/prov";
             EvOpen "/mnt/tmp/vault_password";
             EvLog ERROR "Environment variable for Ansible vault not set!"]
            [EvRmtree "/srv/prov"; EvRemove "/tmp/vault_password"]
            _ _ _ _ _)).
  - reflexivity.
  - vm_compute. reflexivity.
  - simpl. auto.
  - reflexivity.
  - vm_compute. reflexivity.
Defined.

(** C2, as the code has it: when [playbooks_path_dest] is an absolute path
    (it starts with a slash) without ['.'] or ['..'] components, staging
    succeeded, [keep_playbooks] is false and cleanup, run inside the chroot
    at the mount point, completes, the directory staging copied into,
    [<mountpoint> + playbooks_path_dest], no longer exists.  Cleanup removes
    [playbooks_path_dest] as the chroot sees it; only for such a destination
    is that the directory staging wrote on the host. *)
Theorem C2_playbooks_removed (self : plugin) (w0 w1 w2 w3 : world) (d : string)
    (ev1 ev3 : list event) :
  is_abs (_mountpoint self) = true ->
  config self !! "playbooks_path_dest" = Some (PyStr d) ->
  is_abs d = true ->
  no_dots d = true ->
  truthy (cfg_get (config self) "keep_playbooks") = false ->
  _copy_playbooks self w0 = (Ret true, w1, ev1) ->
  root w2 = root w0 ++ comps (_mountpoint self) ->
  _ansible_cleanup self w2 = (Ret (), w3, ev3) ->
  resolve w0 (_mountpoint self +:+ d) = Some (root w0 ++ comps (_mountpoint self +:+ d)) /\
  isdir (fs w1) (root w0 ++ comps (_mountpoint self +:+ d)) = true /\
  get (fs w3) (root w0 ++ comps (_mountpoint self +:+ d)) = None.
Proof.
  intros Hm Hd Habs _ Hk Hst Hroot Hcl.
  assert (Hd' : cfg_get (config self) "playbooks_path_dest" = PyStr d).
  { unfold cfg_get. rewrite Hd. reflexivity. }
  destruct (staged_path w0 w2 (_mountpoint self) d Hm Habs Hroot) as [Hr0 Hr2].
  split; [exact Hr0|]. split.
  - destruct (stage_ret_true_tree self w0 w1 ev1 d Hm Hd' Hst)
      as (s & S & m & _ & _ & _ & _ & Hdir & _).
    exact Hdir.
  - destruct (cleanup_ret_unstaged self w2 w3 ev3 Hk Hcl)
      as (d2 & P & Hd2 & Hres & _ & Hnone & _).
    rewrite Hd' in Hd2. inversion Hd2; subst d2.
    rewrite Hr2 in Hres. inversion Hres; subst P. exact Hnone.
Qed.

(** C2 on the request of scenario A. *)
Lemma C2_witness :
  isdir (fs (state_of (_copy_playbooks plain_plugin (host_world host_fs ∅))))
    ["mnt"; "srv"; "prov"] = true /\
  get (fs (state_of (_ansible_cleanup plain_plugin
                       (staged_in_chroot plain_plugin (host_world host_fs ∅)))))
    ["mnt"; "srv"; "prov"] = None.
Proof.
  refine (proj2 (C2_playbooks_removed plain_plugin (host_world host_fs ∅)
            (state_of (_copy_playbooks plain_plugin (host_world host_fs ∅)))
            (staged_in_chroot plain_plugin (host_world host_fs ∅))
            (state_of (_ansible_cleanup plain_plugin
                         (staged_in_chroot plain_plugin (host_world host_fs ∅))))
            "/srv/prov"
            [EvCopytree "/artifacts/playbooks" "/mnt/srv/prov"]
            [EvRmtree "/srv/prov"]
            _ _ _ _ _ _ _ _)).
  - reflexivity.
  - reflexivity.
  - reflexivity.
  - reflexivity.
  - reflexivity.
  - vm_compute. reflexivity.
  - reflexivity.
  - vm_compute. reflexivity.
Defined.

(** C2, as stated, fails for a destination that does not start with a
    slash.  With mount point [/mnt] and destination [srv/prov], staging
    copies into [/mntsrv/prov] on the host; cleanup, inside the chroot,
    removes the directory [srv/prov] of the volume, which happens to exist,
    and returns: the staged directory is still there. *)
Lemma C2_counterexample :
  truthy (cfg_get (config relative_dest_plugin) "keep_playbooks") = false /\
  resolve (host_world volume_with_prov_fs ∅)
    (_mountpoint relative_dest_plugin +:+ "srv/prov") = Some ["mntsrv"; "prov"] /\
  outcome_of (_copy_playbooks relative_dest_plugin (host_world volume_with_prov_fs ∅)) =
    Ret true /\
  outcome_of (_ansible_cleanup relative_dest_plugin
                (staged_in_chroot relative_dest_plugin
                   (host_world volume_with_prov_fs ∅))) = Ret () /\
  get (fs (state_of (_ansible_cleanup relative_dest_plugin
                       (staged_in_chroot relative_dest_plugin
                          (host_world volume_with_prov_fs ∅)))))
    ["mnt"; "srv"; "prov"] = None /\
  get (fs (state_of (_ansible_cleanup relative_dest_plugin
                       (staged_in_chroot relative_dest_plugin
                          (host_world volume_with_prov_fs ∅)))))
    ["mntsrv"; "prov"] = Some playbooks_tree.
Proof.
  split; [reflexivity|]. split; [reflexivity|].
  split; [vm_compute; reflexivity|]. split; [vm_compute; reflexivity|].
  split; vm_compute; reflexivity.
Qed.

(** C3: when [<mountpoint> + playbooks_path_dest] is already a directory,
    staging returns [False], leaves the whole state (filesystem, open
    files) as it was and attempts nothing but log messages: neither the
    copy nor the secret file is made. *)
Theorem C3_destination_exists (self : plugin) (w : world) (s d : string) (P : path) :
  config self !! "playbooks_path_source" = Some (PyStr s) ->
  config self !! "playbooks_path_dest" = Some (PyStr d) ->
  resolve w (_mountpoint self +:+ d) = Some P ->
  isdir (fs w) P = true ->
  exists evs,
    _copy_playbooks self w = (Ret false, w, evs) /\
    Forall (fun e => is_log e = true) evs.
Proof.
  intros Hs Hd Hr Hdir. unfold _copy_playbooks, cfg_get. rewrite Hs, Hd.
  simpl default. rewrite bind_run. simpl py_concat. unfold ret at 1.
  rewrite bind_run. unfold os_path_isdir at 1.
  destruct (match resolve w s with Some p => isdir (fs w) p | None => false end);
    simpl negb; cbv iota; rewrite bind_run.
  - unfold ret at 1. rewrite bind_run. unfold os_path_isdir. rewrite Hr, Hdir.
    rewrite bind_run. unfold log, ret. simpl. eexists. split; [reflexivity|].
    repeat constructor.
  - unfold log at 1. rewrite bind_run. unfold os_path_isdir. rewrite Hr, Hdir.
    rewrite bind_run. unfold log, ret. simpl. eexists. split; [reflexivity|].
    repeat constructor.
Qed.

(** C3 on a second staging of the same request. *)
Lemma C3_witness :
  exists evs,
    _copy_playbooks plain_plugin
      (state_of (_copy_playbooks plain_plugin (host_world host_fs ∅))) =
    (Ret false, state_of (_copy_playbooks plain_plugin (host_world host_fs ∅)), evs) /\
    Forall (fun e => is_log e = true) evs.
Proof.
  apply (C3_destination_exists plain_plugin _ "/artifacts/playbooks" "/srv/prov"
           ["mnt"; "srv"; "prov"]).
  - reflexivity.
  - reflexivity.
  - reflexivity.
  - vm_compute. reflexivity.
Defined.

(** Staging a source that is not a directory, to a destination that is
    not one either: the missing source is logged and the copy is attempted
    all the same; [shutil.copytree] raises and nothing has changed. *)
Lemma stage_missing_source (self : plugin) (w : world) (s d : string) :
  config self !! "playbooks_path_source" = Some (PyStr s) ->
  config self !! "playbooks_path_dest" = Some (PyStr d) ->
  os_path_isdir (PyStr s) w = (Ret false, w, []) ->
  os_path_isdir (PyStr (_mountpoint self +:+ d)) w = (Ret false, w, []) ->
  _copy_playbooks self w =
    (Raise OSError, w,
     [EvLog CRITICAL ("directory does not exist " +:+ s);
      EvCopytree s (_mountpoint self +:+ d)]).
Proof.
  intros Hs Hd Hsrc Hdst. unfold _copy_playbooks, cfg_get. rewrite Hs, Hd.
  simpl default. simpl py_concat. rewrite ret_bind.
  rewrite bind_run, Hsrc. simpl negb. cbv iota.
  rewrite bind_run. unfold log at 1.
  rewrite bind_run, Hdst.
  rewrite bind_run.
  assert (Hcp : shutil_copytree (PyStr s) (_mountpoint self +:+ d) w =
                (Raise OSError, w, [EvCopytree s (_mountpoint self +:+ d)])).
  { unfold os_path_isdir in Hsrc. inversion Hsrc as [Hb]. clear Hsrc.
    unfold shutil_copytree. simpl py_str.
    destruct (resolve w s) as [ps|]; [|reflexivity].
    destruct (resolve w (_mountpoint self +:+ d)) as [pd|]; [|reflexivity].
    unfold isdir in Hb. destruct (get (fs w) ps) as [[c|m]|]; try reflexivity.
    discriminate. }
  rewrite Hcp. reflexivity.
Qed.

(** C6: staging a source that is not a directory.  The code logs the
    missing directory and goes on to [shutil.copytree], which raises: it
    does not return a failure before the copy. *)
Theorem C6_missing_source_reaches_copy :
  _copy_playbooks missing_source_plugin (host_world host_fs ∅) =
    (Raise OSError, host_world host_fs ∅,
     [EvLog CRITICAL "directory does not exist /artifacts/missing";
      EvCopytree "/artifacts/missing" "/mnt/srv/prov"]).
Proof. vm_compute. reflexivity. Qed.

(** C8, as the code has it: with [keep_playbooks] true, when staging
    succeeded and the steps between staging and cleanup left the staged
    directory alone, the directory still exists after cleanup (whether
    cleanup returned or raised) and holds exactly the tree the source
    held when it was staged -- provided the secret file
    [<mountpoint>/tmp/vault_password] does not lie inside the staged
    directory, or no vault password was asked for. *)
Theorem C8_kept_playbooks_identical (self : plugin) (w0 w1 w2 w3 : world)
    (d : string) (r : result unit) (ev1 ev3 : list event) :
  is_abs (_mountpoint self) = true ->
  config self !! "playbooks_path_dest" = Some (PyStr d) ->
  truthy (cfg_get (config self) "keep_playbooks") = true ->
  (truthy (cfg_get (config self) "vault_password") = true ->
   is_prefix (comps (_mountpoint self +:+ d))
     (comps (_mountpoint self) ++ ["tmp"; "vault_password"]) = false) ->
  _copy_playbooks self w0 = (Ret true, w1, ev1) ->
  root w2 = root w0 ++ comps (_mountpoint self) ->
  get (fs w2) (root w0 ++ comps (_mountpoint self +:+ d)) =
    get (fs w1) (root w0 ++ comps (_mountpoint self +:+ d)) ->
  _ansible_cleanup self w2 = (r, w3, ev3) ->
  exists s S m,
    config self !! "playbooks_path_source" = Some (PyStr s) /\
    resolve w0 s = Some S /\
    get (fs w0) S = Some (Dir m) /\
    get (fs w3) (root w0 ++ comps (_mountpoint self +:+ d)) = Some (Dir m).
Proof.
  intros Hm Hd Hk Hpre Hst Hroot Hsame Hcl.
  assert (Hd' : cfg_get (config self) "playbooks_path_dest" = PyStr d).
  { unfold cfg_get. rewrite Hd. reflexivity. }
  destruct (stage_ret_true_tree self w0 w1 ev1 d Hm Hd' Hst)
    as (s & S & m & Hs & HS & Hg & _ & _ & Htree).
  specialize (Htree Hpre).
  exists s, S, m. split.
  { unfold cfg_get in Hs. destruct (config self !! "playbooks_path_source") as [v|];
      simpl in Hs; [congruence|discriminate]. }
  split; [assumption|]. split; [assumption|].
  rewrite cleanup_keep in Hcl by assumption.
  rewrite (erase_secret_frame self w2 w3 r ev3 _ Hcl).
  - rewrite Hsame. exact Htree.
  - intros Hv. rewrite Hroot, <- app_assoc, is_prefix_app. auto.
  - rewrite Hsame, Htree. eauto.
Qed.

(** C8 on a request that keeps its playbooks and has a vault password. *)
Lemma C8_witness :
  exists s S m,
    config keep_vault_plugin !! "playbooks_path_source" = Some (PyStr s) /\
    resolve (host_world host_fs vault_env) s = Some S /\
    get host_fs S = Some (Dir m) /\
    get (fs (state_of (_ansible_cleanup keep_vault_plugin
                         (staged_in_chroot keep_vault_plugin
                            (host_world host_fs vault_env)))))
      ["mnt"; "srv"; "prov"] = Some (Dir m).
Proof.
  refine (C8_kept_playbooks_identical keep_vault_plugin
            (host_world host_fs vault_env)
            (state_of (_copy_playbooks keep_vault_plugin (host_world host_fs vault_env)))
            (staged_in_chroot keep_vault_plugin (host_world host_fs vault_env))
            (state_of (_ansible_cleanup keep_vault_plugin
                         (staged_in_chroot keep_vault_plugin
                            (host_world host_fs vault_env))))
            "/srv/prov" (Ret ())
            [EvCopytree "/artifacts/playbooks" "/mnt/srv/prov";
             EvOpen "/mnt/tmp/vault_password";
             EvWrite ["mnt"; "tmp"; "vault_password"] "s3cret";
             EvClose ["mnt"; "tmp"; "vault_password"]]
            [EvRemove "/tmp/vault_password"]
            _ _ _ _ _ _ _ _).
  - reflexivity.
  - reflexivity.
  - reflexivity.
  - intros _. reflexivity.
  - vm_compute. reflexivity.
  - reflexivity.
  - reflexivity.
  - vm_compute. reflexivity.
Defined.

(** C8, as stated, fails when the playbooks are staged as the [/tmp] of a
    volume that has none and the source ships a file [vault_password]:
    staging overwrites the copy of that file with the secret and cleanup
    removes it, so the kept tree differs from the source tree. *)
Lemma C8_counterexample :
  truthy (cfg_get (config tmp_dest_plugin) "keep_playbooks") = true /\
  outcome_of (_copy_playbooks tmp_dest_plugin (host_world bare_volume_fs vault_env)) =
    Ret true /\
  outcome_of (_ansible_cleanup tmp_dest_plugin
                (staged_in_chroot tmp_dest_plugin (host_world bare_volume_fs vault_env))) =
    Ret () /\
  get bare_volume_fs ["artifacts"; "playbooks"; "vault_password"] =
    Some (File "from the repository") /\
  get (fs (state_of (_ansible_cleanup tmp_dest_plugin
                       (staged_in_chroot tmp_dest_plugin
                          (host_world bare_volume_fs vault_env)))))
    ["mnt"; "tmp"; "vault_password"] = None /\
  get (fs (state_of (_ansible_cleanup tmp_dest_plugin
                       (staged_in_chroot tmp_dest_plugin
                          (host_world bare_volume_fs vault_env)))))
    ["mnt"; "tmp"] <>
  get bare_volume_fs ["artifacts"; "playbooks"].
Proof.
  split; [reflexivity|]. split; [vm_compute; reflexivity|].
  split; [vm_compute; reflexivity|]. split; [vm_compute; reflexivity|].
  split; [vm_compute; reflexivity|].
  intros H.
  apply (f_equal (fun o => match o with
                           | Some n => get n ["vault_password"]
                           | None => None
                           end)) in H.
  vm_compute in H. discriminate.
Qed.

Section VaultWithoutPassword.

Lemma isdir_nil_inv (t : node) : isdir t [] = true -> exists m, t = Dir m.
Proof. destruct t as [s|m]; [discriminate|]. eauto. Qed.

(** An entry can be bound in any existing directory. *)
Lemma store_in_dir (t : node) (p : path) (c : string) (o : option node) :
  isdir t p = true -> exists t', store t (p ++ [c]) o = Some t'.
Proof.
  revert t. induction p as [|a p IH]; intros t Hp.
  - apply isdir_nil_inv in Hp as [m ->]. simpl. eauto.
  - destruct t as [s|m]; [discriminate|]. rewrite isdir_cons in Hp.
    destruct (m !! a) as [t1|] eqn:Ha; [|discriminate].
    destruct (IH t1 Hp) as [t1' Hst].
    change ((a :: p) ++ [c]) with (a :: (p ++ [c])). simpl.
    destruct (p ++ [c]) as [|b q] eqn:E; [destruct p; discriminate|].
    rewrite Ha, Hst. eauto.
Qed.

Lemma open_ok (p : string) (w : world) (h : path) (t' : node) :
  resolve w p = Some h -> isdir (fs w) h = false ->
  store (fs w) h (Some (File "")) = Some t' ->
  py_open_w p w = (Ret h, set_handles (h :: handles w) (set_fs t' w), [EvOpen p]).
Proof. intros Hr Hd Hs. unfold py_open_w. rewrite Hr, Hd, Hs. reflexivity. Qed.

End VaultWithoutPassword.

(** C9, as the code has it: a vault password is asked for, staging gets
    past the destination check and makes the copy, the volume has a
    directory [tmp] in which [vault_password] is not a directory, and
    [VAULT_PWD] is not set.  Then [_copy_playbooks] has opened, hence
    created, the file [<mountpoint>/tmp/vault_password] before it looked
    the variable up: the file exists and is empty; nothing is written to it
    and [f.close()] is not called, so it is still open when the [except]
    clause has logged the [KeyError], and is released when the method
    returns; the method returns [True]. *)
Theorem C9_vault_env_missing (self : plugin) (w wc : world) (d : string)
    (evc : list event) :
  is_abs (_mountpoint self) = true ->
  truthy (cfg_get (config self) "vault_password") = true ->
  config self !! "playbooks_path_dest" = Some (PyStr d) ->
  shutil_copytree (cfg_get (config self) "playbooks_path_source")
    (_mountpoint self +:+ d) w = (Ret (), wc, evc) ->
  isdir (fs wc) (root w ++ comps (_mountpoint self) ++ ["tmp"]) = true ->
  isdir (fs wc) (root w ++ comps (_mountpoint self) ++ ["tmp"; "vault_password"]) = false ->
  environ w !! "VAULT_PWD" = None ->
  exists wo w1,
    pass_vault_password self wc =
      (Ret (), wo,
       [EvOpen (os_path_join (_mountpoint self) ["tmp"; "vault_password"]);
        EvLog ERROR "Environment variable for Ansible vault not set!"]) /\
    In (root w ++ comps (_mountpoint self) ++ ["tmp"; "vault_password"]) (handles wo) /\
    _copy_playbooks self w =
      (Ret true, w1,
       evc ++ [EvOpen (os_path_join (_mountpoint self) ["tmp"; "vault_password"]);
               EvLog ERROR "Environment variable for Ansible vault not set!"]) /\
    fs w1 = fs wo /\
    get (fs w1) (root w ++ comps (_mountpoint self) ++ ["tmp"; "vault_password"]) =
      Some (File "") /\
    ~ In (root w ++ comps (_mountpoint self) ++ ["tmp"; "vault_password"]) (handles w1).
Proof.
  intros Hm Hv Hd Hcp Htmp Hnd Henv.
  pose proof Hcp as Hcp'.
  apply copytree_ret_inv in Hcp' as (s & S & P & m & t' & Hs & HS & HP & Hg & Hgr & ->).
  set (SP := root w ++ comps (_mountpoint self) ++ ["tmp"; "vault_password"]) in *.
  destruct (store_in_dir t' (root w ++ comps (_mountpoint self) ++ ["tmp"])
              "vault_password" (Some (File ""))) as [t1 Hst].
  { exact Htmp. }
  rewrite <- !app_assoc in Hst. simpl app in Hst. fold SP in Hst.
  destruct (comps_secret (_mountpoint self) Hm) as [Habs Hc].
  assert (Hres : resolve (set_fs t' w)
                   (os_path_join (_mountpoint self) ["tmp"; "vault_password"]) = Some SP).
  { rewrite resolve_abs by assumption. rewrite Hc. reflexivity. }
  pose proof (open_ok _ (set_fs t' w) SP t1 Hres Hnd Hst) as Hopen.
  pose proof (pass_vault_no_env self (set_fs t' w) _ SP _ Hopen Henv) as Hpass.
  exists (set_handles (SP :: handles (set_fs t' w)) (set_fs t1 (set_fs t' w))).
  exists (set_handles
            (filter (fun x => x <> SP) (SP :: handles (set_fs t' w)))
            (set_handles (SP :: handles (set_fs t' w)) (set_fs t1 (set_fs t' w)))).
  split; [exact Hpass|]. split; [simpl; auto|]. split; [|split; [|split]].
  - assert (Hd' : cfg_get (config self) "playbooks_path_dest" = PyStr d).
    { unfold cfg_get. rewrite Hd. reflexivity. }
    unfold _copy_playbooks. rewrite Hv, Hd'.
    rewrite bind_run. simpl py_concat. unfold ret at 1.
    rewrite bind_run. rewrite Hs. unfold os_path_isdir at 1. rewrite HS.
    unfold isdir at 1. rewrite Hg. simpl negb. cbv iota.
    rewrite bind_run. unfold ret at 1.
    rewrite bind_run. unfold os_path_isdir. rewrite HP.
    rewrite (isdir_get_none _ _ (graft_get_none _ _ _ _ Hgr)).
    rewrite bind_run. rewrite <- Hs, Hcp.
    rewrite bind_run. rewrite (bind_run (pass_vault_password self)), Hpass.
    unfold release_file.
    change (resolve (set_handles (SP :: handles (set_fs t' w)) (set_fs t1 (set_fs t' w)))
              (os_path_join (_mountpoint self) ["tmp"; "vault_password"]))
      with (resolve (set_fs t' w)
              (os_path_join (_mountpoint self) ["tmp"; "vault_password"])).
    rewrite Hres. unfold ret. simpl. reflexivity.
  - reflexivity.
  - simpl. eapply store_get_same. exact Hst.
  - simpl handles. intros Hin. apply list_elem_of_In in Hin.
    apply list_elem_of_filter in Hin as [Hne _]. congruence.
Qed.

(** C9 on a request with a vault password, in an environment without
    [VAULT_PWD], on a volume that has a directory [/tmp]. *)
Lemma C9_witness :
  exists wo w1,
    pass_vault_password vault_plugin
      (state_of (shutil_copytree (PyStr "/artifacts/playbooks") "/mnt/srv/prov"
                   (host_world host_fs ∅))) =
      (Ret (), wo,
       [EvOpen (os_path_join "/mnt" ["tmp"; "vault_password"]);
        EvLog ERROR "Environment variable for Ansible vault not set!"]) /\
    In ([] ++ comps "/mnt" ++ ["tmp"; "vault_password"]) (handles wo) /\
    _copy_playbooks vault_plugin (host_world host_fs ∅) =
      (Ret true, w1,
       [EvCopytree "/artifacts/playbooks" "/mnt/srv/prov"] ++
       [EvOpen (os_path_join "/mnt" ["tmp"; "vault_password"]);
        EvLog ERROR "Environment variable for Ansible vault not set!"]) /\
    fs w1 = fs wo /\
    get (fs w1) ([] ++ comps "/mnt" ++ ["tmp"; "vault_password"]) = Some (File "") /\
    ~ In ([] ++ comps "/mnt" ++ ["tmp"; "vault_password"]) (handles w1).
Proof.
  refine (C9_vault_env_missing vault_plugin (host_world host_fs ∅)
            (state_of (shutil_copytree (PyStr "/artifacts/playbooks") "/mnt/srv/prov"
                         (host_world host_fs ∅)))
            "/srv/prov" [EvCopytree "/artifacts/playbooks" "/mnt/srv/prov"]
            _ _ _ _ _ _ _).
  - reflexivity.
  - reflexivity.
  - reflexivity.
  - vm_compute. reflexivity.
  - vm_compute. reflexivity.
  - vm_compute. reflexivity.
  - reflexivity.
Defined.

(** C9, as stated, fails on a volume without a directory [/tmp]: the vault
    password is asked for, the destination did not exist, the copy is made
    and [VAULT_PWD] is not set, yet [open] raises [IOError], which the
    [except KeyError] clause does not catch: no file is created and the
    method does not return. *)
Lemma C9_counterexample :
  truthy (cfg_get (config vault_plugin) "vault_password") = true /\
  isdir bare_volume_fs ["mnt"; "srv"; "prov"] = false /\
  environ (host_world bare_volume_fs ∅) !! "VAULT_PWD" = None /\
  _copy_playbooks vault_plugin (host_world bare_volume_fs ∅) =
    (Raise IOError,
     state_of (shutil_copytree (PyStr "/artifacts/playbooks") "/mnt/srv/prov"
                 (host_world bare_volume_fs ∅)),
     [EvCopytree "/artifacts/playbooks" "/mnt/srv/prov";
      EvOpen "/mnt/tmp/vault_password"]) /\
  isdir (fs (state_of (_copy_playbooks vault_plugin (host_world bare_volume_fs ∅))))
    ["mnt"; "srv"; "prov"] = true /\
  get (fs (state_of (_copy_playbooks vault_plugin (host_world bare_volume_fs ∅))))
    ["mnt"; "tmp"; "vault_password"] = None.
Proof.
  split; [reflexivity|]. split; [reflexivity|]. split; [reflexivity|].
  split; [vm_compute; reflexivity|]. split; vm_compute; reflexivity.
Qed.

(** * The inventory file *)

Section Preservation.

Context {A B X : Type} (f : world -> X).

Lemma preserves_bind (m : M A) (k : A -> M B) :
  preserves f m -> (forall a, preserves f (k a)) -> preserves f (x ← m; k x).
Proof.
  intros Hm Hk w. specialize (Hm w). rewrite bind_run. unfold state_of in *.
  destruct (m w) as [[[a|e] w1] ev1]; simpl in *; [|exact Hm].
  specialize (Hk a w1). unfold state_of in Hk.
  destruct (k a w1) as [[r w2] ev2]. simpl in *. congruence.
Qed.

Lemma preserves_ret (a : A) : preserves f (ret a).
Proof. intros w. reflexivity. Qed.

Lemma preserves_finally (m : M A) (g : M unit) :
  preserves f m -> preserves f g -> preserves f (finally m g).
Proof.
  intros Hm Hg w. specialize (Hm w). unfold finally, state_of in *.
  destruct (m w) as [[r w1] ev1]. simpl in *.
  specialize (Hg w1). unfold state_of in Hg.
  destruct (g w1) as [[[u|e] w2] ev2]; simpl in *; congruence.
Qed.

End Preservation.

Section Inventory.

Lemma preserves_pkg_log (lvl : level) (msg : string) : preserves pkg (log lvl msg).
Proof. intros w. reflexivity. Qed.

Lemma preserves_pkg_isdir (v : pyval) : preserves pkg (os_path_isdir v).
Proof. intros w. unfold os_path_isdir. destruct v; reflexivity. Qed.

Lemma preserves_pkg_makedirs (p : string) : preserves pkg (os_makedirs p).
Proof.
  intros w. unfold os_makedirs. destruct (resolve w p); [|reflexivity].
  destruct (graft _ _ _); reflexivity.
Qed.

Lemma preserves_pkg_open (p : string) : preserves pkg (py_open_w p).
Proof.
  intros w. unfold py_open_w. destruct (resolve w p); [|reflexivity].
  destruct (isdir _ _); [reflexivity|]. destruct (store _ _ _); reflexivity.
Qed.

Lemma preserves_pkg_write (h : path) (v : pyval) : preserves pkg (file_write h v).
Proof.
  intros w. unfold file_write. destruct v; try reflexivity.
  destruct (get (fs w) h) as [[c|m]|]; try reflexivity.
  destruct (store _ _ _); reflexivity.
Qed.

Lemma preserves_pkg_close (h : path) : preserves pkg (file_close h).
Proof. intros w. reflexivity. Qed.

Lemma makedirs_ret_inv (p : string) (w w' : world) (ev : list event) :
  os_makedirs p w = (Ret (), w', ev) ->
  exists pp t',
    resolve w p = Some pp /\ graft (fs w) pp (Dir ∅) = Some t' /\ w' = set_fs t' w.
Proof.
  unfold os_makedirs. destruct (resolve w p) as [pp|]; [|discriminate].
  destruct (graft (fs w) pp (Dir ∅)) as [t'|] eqn:Hg; [|discriminate].
  intros H. inversion H; subst. eauto.
Qed.

Lemma finally_ret_inv {A : Type} (m : M A) (g : M unit) (w w' : world) (a : A)
    (ev : list event) :
  finally m g w = (Ret a, w', ev) ->
  exists w1 ev1 ev2, m w = (Ret a, w1, ev1) /\ g w1 = (Ret (), w', ev2).
Proof.
  unfold finally. destruct (m w) as [[r w1] ev1].
  destruct (g w1) as [[[[]|e] w2] ev2] eqn:Hg; intros H; inversion H; subst.
  exists w1, ev1, ev2. split; [reflexivity|exact Hg].
Qed.

Lemma log_ret_inv (lvl : level) (msg : string) (w w' : world) (ev : list event) :
  log lvl msg w = (Ret (), w', ev) -> w' = w.
Proof. intros H. inversion H. reflexivity. Qed.

(** What [_write_local_inventory] does once the path is recorded. *)
Lemma write_local_inventory_run (self : plugin) (w : world) (pa f : string) :
  cfg_get_d (config self) "inventory_file_path" (PyStr "/etc/ansible") = PyStr pa ->
  config self !! "inventory_file" = Some (PyStr f) ->
  exists rest : M bool,
    preserves pkg rest /\
    _write_local_inventory self w =
      (set_inventory ((pa +:+ "/") +:+ f);; rest) w /\
    rest =
      (is_dir ← os_path_isdir (PyStr pa);
       (if negb is_dir then
          log DEBUG ("creating " +:+ pa);;
          os_makedirs pa;;
          log DEBUG ("created " +:+ pa)
        else ret ());;
       h ← py_open_w ((pa +:+ "/") +:+ f);
       finally
         (log DEBUG ("writing " +:+ (pa +:+ "/") +:+ f);;
          file_write h (cfg_get (config self) "inventory_file_content");;
          log DEBUG ("wrote " +:+ (pa +:+ "/") +:+ f))
         (file_close h);;
       ret true).
Proof.
  intros Hpa Hf. eexists. split; [|split; [|reflexivity]].
  - apply preserves_bind; [apply preserves_pkg_isdir|]. intros b.
    apply preserves_bind.
    { destruct (negb b); [|apply preserves_ret].
      apply preserves_bind; [apply preserves_pkg_log|]. intros _.
      apply preserves_bind; [apply preserves_pkg_makedirs|]. intros _.
      apply preserves_pkg_log. }
    intros _. apply preserves_bind; [apply preserves_pkg_open|]. intros h.
    apply preserves_bind; [|intros _; apply preserves_ret].
    apply preserves_finally; [|apply preserves_pkg_close].
    apply preserves_bind; [apply preserves_pkg_log|]. intros _.
    apply preserves_bind; [apply preserves_pkg_write|]. intros _.
    apply preserves_pkg_log.
  - assert (Hf' : cfg_get (config self) "inventory_file" = PyStr f).
    { unfold cfg_get. rewrite Hf. reflexivity. }
    unfold _write_local_inventory. rewrite Hpa, Hf'.
    simpl py_concat. rewrite ret_bind. simpl py_concat. rewrite ret_bind.
    reflexivity.
Qed.

End Inventory.

Section InventorySuccess.

Lemma cfg_get_some (config : gmap string pyval) (k : string) (v : pyval) :
  config !! k = Some v -> cfg_get config k = v.
Proof. unfold cfg_get. intros ->. reflexivity. Qed.

(** A second binding of the same entry replaces the first. *)
Lemma store_overwrite (t t1 : node) (p : path) (a b : option node) :
  store t p a = Some t1 -> store t1 p b = store t p b.
Proof.
  revert t t1. induction p as [|c p IH]; intros t t1 H; [discriminate|].
  destruct t as [s|m]; [discriminate|]. simpl in H.
  destruct p as [|c' p].
  - inversion H; subst. simpl. f_equal. f_equal.
    apply map_eq. intros i. rewrite !lookup_partial_alter.
    repeat case_decide; reflexivity.
  - destruct (m !! c) as [t'|] eqn:Hc; [|discriminate].
    destruct (store t' (c' :: p) a) as [t1'|] eqn:Hs; [|discriminate].
    inversion H; subst.
    change (store (Dir (<[c:=t1']> m)) (c :: c' :: p) b) with
      (match <[c:=t1']> m !! c with
       | Some x =>
           match store x (c' :: p) b with
           | Some y => Some (Dir (<[c:=y]> (<[c:=t1']> m)))
           | None => None
           end
       | None => None
       end).
    change (store (Dir m) (c :: c' :: p) b) with
      (match m !! c with
       | Some x =>
           match store x (c' :: p) b with
           | Some y => Some (Dir (<[c:=y]> m))
           | None => None
           end
       | None => None
       end).
    rewrite lookup_insert_eq, Hc, (IH t' t1' Hs).
    destruct (store t' (c' :: p) b); [|reflexivity].
    rewrite insert_insert_eq. reflexivity.
Qed.

(** A directory with all its missing parents can be created below any
    existing directory in which the first missing component is free. *)
Lemma graft_succeeds (t : node) (p : path) (c : string) (r : path) (n : node) :
  isdir t p = true -> get t (p ++ [c]) = None ->
  exists t', graft t (p ++ c :: r) n = Some t'.
Proof.
  revert t. induction p as [|a p IH]; intros t Hp Hc.
  - apply isdir_nil_inv in Hp as [m ->]. simpl in Hc. simpl.
    destruct (m !! c); [discriminate|]. eauto.
  - destruct t as [s|m]; [discriminate|]. rewrite isdir_cons in Hp.
    change ((a :: p) ++ [c]) with (a :: (p ++ [c])) in Hc. rewrite get_cons in Hc.
    change ((a :: p) ++ c :: r) with (a :: (p ++ c :: r)). simpl.
    destruct (m !! a) as [t1|]; [|discriminate].
    destruct (IH t1 Hp Hc) as [t1' ->]. eauto.
Qed.

(** The file name [path + "/" + inventory_file] names the entries of
    [inventory_file] below the directory [path] names. *)
Lemma resolve_inventory_file (w : world) (pa f : string) (PA : path) :
  resolve w pa = Some PA ->
  resolve w ((pa +:+ "/") +:+ f) = Some (PA ++ comps f).
Proof.
  destruct pa as [|a pa]; [discriminate|]. intros H.
  unfold resolve in *. inversion H; subst PA. clear H.
  change (((String a pa +:+ "/") +:+ f)) with (String a ((pa +:+ "/") +:+ f)).
  change (is_abs (String a ((pa +:+ "/") +:+ f))) with (is_abs (String a pa)).
  f_equal. rewrite <- app_assoc. f_equal.
  change (String a ((pa +:+ "/") +:+ f)) with ((String a pa +:+ "/") +:+ f).
  unfold comps. rewrite comps_aux_app_slash.
  - f_equal. rewrite comps_aux_app_abs by reflexivity. apply app_nil_r.
  - apply (ends_with_slash_append (String a pa) slash "").
Qed.

(** From [open] to [return True], in a directory that exists. *)
Lemma inventory_tail (w0 : world) (fn : string) (PA : path) (x : string)
    (content : pyval) (c : string) :
  content = PyStr c ->
  resolve w0 fn = Some (PA ++ [x]) ->
  isdir (fs w0) PA = true ->
  isdir (fs w0) (PA ++ [x]) = false ->
  exists w',
    (h ← py_open_w fn;
     finally
       (log DEBUG ("writing " +:+ fn);;
        file_write h content;;
        log DEBUG ("wrote " +:+ fn))
       (file_close h);;
     ret true) w0 =
    (Ret true, w',
     [EvOpen fn; EvLog DEBUG ("writing " +:+ fn); EvWrite (PA ++ [x]) c;
      EvLog DEBUG ("wrote " +:+ fn); EvClose (PA ++ [x])]) /\
    isdir (fs w') PA = true /\
    get (fs w') (PA ++ [x]) = Some (File c) /\
    pkg w' = pkg w0.
Proof.
  intros -> HF Hdir Hnd.
  destruct (store_in_dir (fs w0) PA x (Some (File "")) Hdir) as [t1 Hst].
  destruct (store_in_dir (fs w0) PA x (Some (File c)) Hdir) as [t2 Hst2'].
  assert (Hst2 : store t1 (PA ++ [x]) (Some (File c)) = Some t2).
  { rewrite (store_overwrite _ _ _ _ (Some (File c)) Hst). exact Hst2'. }
  assert (Hg1 : get t1 (PA ++ [x]) = Some (File "")) by apply (store_get_same _ _ _ _ Hst).
  rewrite bind_run. rewrite (open_ok _ w0 (PA ++ [x]) t1 HF Hnd Hst).
  rewrite bind_run.
  unfold finally, log, file_close. rewrite !bind_run.
  unfold file_write. simpl fs. rewrite Hg1.
  change ("" +:+ c) with c. rewrite Hst2. simpl.
  eexists. split; [reflexivity|]. simpl. split; [|split; [|reflexivity]].
  - eapply store_isdir; [exact Hst2|unfold isdir; rewrite Hg1; reflexivity|].
    eapply store_isdir; eassumption.
  - apply (store_get_same _ _ _ _ Hst2).
Qed.

End InventorySuccess.

(** C10: [_write_local_inventory] records the inventory path --
    [inventory_file_path], by default [/etc/ansible], then ['/'], then
    [inventory_file] -- in [context.package.inventory] before it does
    anything else: the assignment is the first effect, and the path is
    recorded whatever the outcome, also when creating the directory or
    writing the file raises.  When the method returns, it returns [True],
    the directory exists and the file holds [inventory_file_content].  And
    it does return: for a plain file name and a content, when the directory
    exists (and the name is not that of a directory in it) the file is
    overwritten, and when the directory does not exist below an existing
    directory it is created, with its parents, by [os.makedirs]. *)
Theorem C10_inventory_recorded_first (self : plugin) (w : world) (pa f : string) :
  cfg_get_d (config self) "inventory_file_path" (PyStr "/etc/ansible") = PyStr pa ->
  config self !! "inventory_file" = Some (PyStr f) ->
  (config self !! "inventory_file_path" = None -> pa = "/etc/ansible") /\
  (exists r w' evs,
     _write_local_inventory self w =
       (r, w', EvSetInventory ((pa +:+ "/") +:+ f) :: evs) /\
     inventory (pkg w') = Some ((pa +:+ "/") +:+ f) /\
     (forall b, r = Ret b ->
        b = true /\
        exists c PA F,
          config self !! "inventory_file_content" = Some (PyStr c) /\
          resolve w pa = Some PA /\
          resolve w ((pa +:+ "/") +:+ f) = Some F /\
          isdir (fs w') PA = true /\
          get (fs w') F = Some (File c))) /\
  (forall (c x : string) (PA : path),
     config self !! "inventory_file_content" = Some (PyStr c) ->
     comps f = [x] ->
     resolve w pa = Some PA ->
     (isdir (fs w) PA = true /\ isdir (fs w) (PA ++ [x]) = false) \/
     (exists A c0 r,
        PA = A ++ c0 :: r /\ isdir (fs w) A = true /\ get (fs w) (A ++ [c0]) = None) ->
     exists w' evs,
       _write_local_inventory self w =
         (Ret true, w', EvSetInventory ((pa +:+ "/") +:+ f) :: evs) /\
       inventory (pkg w') = Some ((pa +:+ "/") +:+ f) /\
       isdir (fs w') PA = true /\
       get (fs w') (PA ++ [x]) = Some (File c) /\
       (isdir (fs w) PA = true -> ~ In (EvMakedirs pa) evs) /\
       (isdir (fs w) PA = false -> In (EvMakedirs pa) evs)).
Proof.
  intros Hpa Hf. split.
  { intros Hnone. unfold cfg_get_d in Hpa. rewrite Hnone in Hpa. simpl in Hpa.
    congruence. }
  split.
  {
  destruct (write_local_inventory_run self w pa f Hpa Hf) as (rest & Hpres & Hrun & Hrest).
  rewrite Hrun, bind_run. unfold set_inventory at 1.
  set (w0 := set_pkg _ w).
  specialize (Hpres w0). unfold state_of in Hpres.
  destruct (rest w0) as [[r w'] evs] eqn:Hr. simpl in Hpres.
  exists r, w', evs. split; [reflexivity|]. split; [rewrite Hpres; reflexivity|].
  intros b ->. subst rest.
  apply bind_ret_inv in Hr as (is_dir & wa & e1 & e2 & Hi & Hr & _).
  apply isdir_ret_inv in Hi as (-> & _ & s & Hs & Hb). inversion Hs; subst s. clear Hs.
  apply bind_ret_inv in Hr as ([] & wb & e3 & e4 & Hmk & Hr & _).
  assert (Hdir : exists PA,
             resolve w pa = Some PA /\ isdir (fs wb) PA = true /\
             root wb = root w /\ cwd wb = cwd w).
  { destruct is_dir; simpl negb in Hmk; cbv iota in Hmk.
    - inversion Hmk; subst wb.
      change (resolve w0 pa) with (resolve w pa) in Hb.
      destruct (resolve w pa) as [PA|]; [|discriminate].
      exists PA. auto.
    - apply bind_ret_inv in Hmk as ([] & wx & e5 & e6 & Hl1 & Hmk & _).
      apply log_ret_inv in Hl1 as ->.
      apply bind_ret_inv in Hmk as ([] & wy & e7 & e8 & Hmd & Hl2 & _).
      apply log_ret_inv in Hl2 as ->.
      apply makedirs_ret_inv in Hmd as (PA & t' & HPA & Hg & ->).
      exists PA. split; [exact HPA|]. split; [|auto].
      unfold isdir. simpl fs. rewrite (graft_get_same _ _ _ _ Hg). reflexivity. }
  destruct Hdir as (PA & HPA & HdirPA & Hroot & Hcwd).
  apply bind_ret_inv in Hr as (h & wc & e9 & e10 & Hop & Hr & _).
  apply open_ret_inv in Hop as (t1 & HF & Hnd & Hst & -> & _).
  apply bind_ret_inv in Hr as ([] & wd & e11 & e12 & Hfin & Hr & _).
  inversion Hr; subst. clear Hr.
  apply finally_ret_inv in Hfin as (we & e13 & e14 & Hbody & Hclose).
  inversion Hclose; subst. clear Hclose.
  apply bind_ret_inv in Hbody as ([] & wf & e15 & e16 & Hl1 & Hbody & _).
  apply log_ret_inv in Hl1 as ->.
  apply bind_ret_inv in Hbody as ([] & wg & e17 & e18 & Hwr & Hl2 & _).
  apply log_ret_inv in Hl2 as ->.
  apply write_ret_inv in Hwr as (c & c0 & t2 & Hc & Hg0 & Hst2 & ->).
  simpl fs in *.
  pose proof (store_get_same _ _ _ _ Hst) as Hempty.
  rewrite Hempty in Hg0. inversion Hg0; subst c0. clear Hg0.
  split; [reflexivity|].
  exists c, PA, h. split.
  { unfold cfg_get in Hc.
    destruct (config self !! "inventory_file_content") as [v|]; simpl in Hc;
      [congruence|discriminate]. }
  split; [exact HPA|]. split.
  { unfold resolve in *. rewrite Hroot, Hcwd in HF. exact HF. }
  split.
  - eapply store_isdir; [exact Hst2| |].
    + unfold isdir. rewrite Hempty. reflexivity.
    + eapply store_isdir; eassumption.
  - apply (store_get_same _ _ _ _ Hst2).
  }
  intros c x PA Hc Hx HPA Hcase.
  pose proof (resolve_inventory_file w pa f PA HPA) as HF. rewrite Hx in HF.
  destruct (write_local_inventory_run self w pa f Hpa Hf) as (rest & _ & Hrun & ->).
  rewrite Hrun. clear Hrun. rewrite bind_run. unfold set_inventory at 1.
  set (w0 := set_pkg _ w).
  rewrite bind_run. unfold os_path_isdir at 1.
  change (resolve w0 pa) with (resolve w pa). rewrite HPA.
  change (fs w0) with (fs w).
  destruct Hcase as [[Hdir Hnd]|(A & c0 & r & -> & HA & Hfree)].
  - rewrite Hdir. simpl negb. cbv iota. rewrite ret_bind.
    destruct (inventory_tail w0 ((pa +:+ "/") +:+ f) PA x
                (cfg_get (config self) "inventory_file_content") c
                (cfg_get_some _ _ _ Hc) HF Hdir Hnd) as (w' & Hrun & Hd' & Hg' & Hp').
    rewrite Hrun. simpl.
    eexists. eexists. split; [reflexivity|].
    split; [rewrite Hp'; reflexivity|]. split; [exact Hd'|]. split; [exact Hg'|].
    split; [|congruence].
    intros _ Hin. simpl in Hin.
    repeat (destruct Hin as [Hin|Hin]; [discriminate|]). exact Hin.
  - assert (Hnone : get (fs w) (A ++ c0 :: r) = None).
    { change (c0 :: r) with ([c0] ++ r). rewrite app_assoc, get_app, Hfree. reflexivity. }
    rewrite (isdir_get_none _ _ Hnone). simpl negb. cbv iota.
    destruct (graft_succeeds (fs w) A c0 r (Dir ∅) HA Hfree) as [t0 Hgr].
    assert (Hmk : os_makedirs pa w0 = (Ret (), set_fs t0 w0, [EvMakedirs pa])).
    { unfold os_makedirs. change (resolve w0 pa) with (resolve w pa). rewrite HPA.
      change (fs w0) with (fs w). rewrite Hgr. reflexivity. }
    pose proof (graft_get_same _ _ _ _ Hgr) as Hnew.
    destruct (inventory_tail (set_fs t0 w0) ((pa +:+ "/") +:+ f) (A ++ c0 :: r) x
                (cfg_get (config self) "inventory_file_content") c
                (cfg_get_some _ _ _ Hc) HF) as (w' & Hrun & Hd' & Hg' & Hp').
    { unfold isdir. simpl fs. rewrite Hnew. reflexivity. }
    { unfold isdir. simpl fs. rewrite get_app, Hnew. reflexivity. }
    assert (Hpre : (log DEBUG ("creating " +:+ pa);;
                    os_makedirs pa;;
                    log DEBUG ("created " +:+ pa)) w0 =
                   (Ret (), set_fs t0 w0,
                    [EvLog DEBUG ("creating " +:+ pa); EvMakedirs pa;
                     EvLog DEBUG ("created " +:+ pa)])).
    { rewrite bind_run. unfold log at 1. rewrite bind_run, Hmk. reflexivity. }
    rewrite bind_run, Hpre, Hrun. simpl.
    eexists. eexists. split; [reflexivity|].
    split; [rewrite Hp'; reflexivity|]. split; [exact Hd'|]. split; [exact Hg'|].
    split.
    + intros Hd. discriminate.
    + intros _. simpl. auto.
Qed.

(** C10 on the staged volume of scenario A, where [/etc] exists and
    [/etc/ansible] does not: the directory is created and the inventory
    written.  And where [/etc] is a regular file: the method raises from
    [os.makedirs] with the path recorded all the same. *)
Lemma C10_witness :
  (exists w' evs,
     _write_local_inventory plain_plugin
       (staged_in_chroot plain_plugin (host_world host_fs ∅)) =
       (Ret true, w', EvSetInventory (("/etc/ansible" +:+ "/") +:+ "hosts") :: evs) /\
     inventory (pkg w') = Some (("/etc/ansible" +:+ "/") +:+ "hosts") /\
     isdir (fs w') ["mnt"; "etc"; "ansible"] = true /\
     get (fs w') (["mnt"; "etc"; "ansible"] ++ ["hosts"]) = Some (File "127.0.0.1") /\
     (isdir (fs (staged_in_chroot plain_plugin (host_world host_fs ∅)))
        ["mnt"; "etc"; "ansible"] = true ->
      ~ In (EvMakedirs "/etc/ansible") evs) /\
     (isdir (fs (staged_in_chroot plain_plugin (host_world host_fs ∅)))
        ["mnt"; "etc"; "ansible"] = false ->
      In (EvMakedirs "/etc/ansible") evs)) /\
  outcome_of (_write_local_inventory plain_plugin
                (enter_chroot "/mnt" (host_world etc_file_fs ∅))) = Raise OSError /\
  inventory (pkg (state_of (_write_local_inventory plain_plugin
                              (enter_chroot "/mnt" (host_world etc_file_fs ∅))))) =
    Some "/etc/ansible/hosts".
Proof.
  split; [|split; vm_compute; reflexivity].
  apply (proj2 (proj2 (C10_inventory_recorded_first plain_plugin
                         (staged_in_chroot plain_plugin (host_world host_fs ∅))
                         "/etc/ansible" "hosts" eq_refl eq_refl))
           "127.0.0.1" "hosts" ["mnt"; "etc"; "ansible"]).
  - reflexivity.
  - reflexivity.
  - reflexivity.
  - right. exists ["mnt"; "etc"], "ansible", []. split; [reflexivity|].
    split; vm_compute; reflexivity.
Defined.

(** The same method on the staged volume of scenario A: the directory
    [/etc/ansible] is created and the inventory written. *)
Example write_local_inventory_scenario_A :
  let x := _write_local_inventory plain_plugin
             (staged_in_chroot plain_plugin (host_world host_fs ∅)) in
  outcome_of x = Ret true /\
  inventory (pkg (state_of x)) = Some "/etc/ansible/hosts" /\
  get (fs (state_of x)) ["mnt"; "etc"; "ansible"; "hosts"] = Some (File "127.0.0.1") /\
  events_of x =
    [EvSetInventory "/etc/ansible/hosts";
     EvLog DEBUG "creating /etc/ansible";
     EvMakedirs "/etc/ansible";
     EvLog DEBUG "created /etc/ansible";
     EvOpen "/etc/ansible/hosts";
     EvLog DEBUG "writing /etc/ansible/hosts";
     EvWrite ["mnt"; "etc"; "ansible"; "hosts"] "127.0.0.1";
     EvLog DEBUG "wrote /etc/ansible/hosts";
     EvClose ["mnt"; "etc"; "ansible"; "hosts"]].
Proof. vm_compute. repeat split; reflexivity. Qed.

(** Scenario A from staging to cleanup: the command line is built from the
    recorded inventory, the playbooks are removed at the end and the
    inventory file stays on the volume. *)
Example scenario_A :
  let w1 := staged_in_chroot plain_plugin (host_world host_fs ∅) in
  let run := _provision_package plain_plugin w1 in
  let w3 := state_of (_store_package_metadata plain_plugin (state_of run)) in
  outcome_of run =
    Ret "ansible-playbook -c local -i /etc/ansible/hosts -e 'ami=True ' /srv/prov/site.yml" /\
  outcome_of (_store_package_metadata plain_plugin (state_of run)) = Ret () /\
  get (fs w3) ["mnt"; "srv"; "prov"] = None /\
  get (fs w3) ["mnt"; "etc"; "ansible"; "hosts"] = Some (File "127.0.0.1") /\
  attributes (pkg w3) = Some (metadata_of plain_plugin "site.yml").
Proof. vm_compute. repeat split; reflexivity. Qed.

(** * More about the filesystem tree *)

Section TreeFrames.

(** Rebinding or unlinking an entry leaves every path that is neither on
    the way to it nor below it as it was. *)
Lemma store_get_unrelated (t t' : node) (q p : path) (o : option node) :
  store t q o = Some t' ->
  is_prefix p q = false -> is_prefix q p = false ->
  get t' p = get t p.
Proof.
  revert t t' p. induction q as [|c q IH]; intros t t' p H Hpq Hqp; [discriminate|].
  destruct t as [s0|m]; [discriminate|]. simpl in H.
  destruct p as [|a p]; [discriminate|].
  simpl in Hpq, Hqp.
  destruct q as [|c' q].
  - inversion H; subst. rewrite !get_cons.
    destruct (decide (c = a)) as [->|Hne].
    + rewrite bool_decide_eq_true_2 in Hqp by reflexivity. discriminate.
    + rewrite lookup_partial_alter_ne by assumption. reflexivity.
  - destruct (m !! c) as [t1|] eqn:Hc; [|discriminate].
    destruct (store t1 (c' :: q) o) as [t1'|] eqn:Hs; [|discriminate].
    inversion H; subst. rewrite !get_cons.
    destruct (decide (c = a)) as [->|Hne].
    + rewrite bool_decide_eq_true_2 in Hpq, Hqp by reflexivity. simpl in Hpq, Hqp.
      rewrite lookup_insert_eq, Hc. eapply IH; eassumption.
    + rewrite lookup_insert_ne by assumption. reflexivity.
Qed.

Lemma chain_get_unrelated (q p : path) (n : node) :
  is_prefix p q = false -> is_prefix q p = false -> get (chain q n) p = None.
Proof.
  revert p. induction q as [|c q IH]; intros p Hpq Hqp; [discriminate|].
  destruct p as [|a p]; [discriminate|].
  simpl in Hpq, Hqp. simpl chain. rewrite get_cons.
  destruct (decide (c = a)) as [->|Hne].
  - rewrite bool_decide_eq_true_2 in Hpq, Hqp by reflexivity. simpl in Hpq, Hqp.
    rewrite lookup_singleton_eq. apply IH; assumption.
  - rewrite lookup_singleton_ne by assumption. reflexivity.
Qed.

(** Grafting leaves every path that is neither on the way to the new
    entry nor below it as it was. *)
Lemma graft_get_unrelated (t t' : node) (q p : path) (n : node) :
  graft t q n = Some t' ->
  is_prefix p q = false -> is_prefix q p = false ->
  get t' p = get t p.
Proof.
  revert t t' p. induction q as [|c q IH]; intros t t' p H Hpq Hqp; [discriminate|].
  destruct t as [s0|m]; [discriminate|]. simpl in H.
  destruct p as [|a p]; [discriminate|].
  simpl in Hpq, Hqp.
  destruct (m !! c) as [t1|] eqn:Hc.
  - destruct (graft t1 q n) as [t1'|] eqn:Hg; [|discriminate].
    inversion H; subst. rewrite !get_cons.
    destruct (decide (c = a)) as [->|Hne].
    + rewrite bool_decide_eq_true_2 in Hpq, Hqp by reflexivity. simpl in Hpq, Hqp.
      rewrite lookup_insert_eq, Hc. eapply IH; eassumption.
    + rewrite lookup_insert_ne by assumption. reflexivity.
  - inversion H; subst. rewrite !get_cons.
    destruct (decide (c = a)) as [->|Hne].
    + rewrite bool_decide_eq_true_2 in Hpq, Hqp by reflexivity. simpl in Hpq, Hqp.
      rewrite lookup_insert_eq, Hc. apply chain_get_unrelated; assumption.
    + rewrite lookup_insert_ne by assumption. reflexivity.
Qed.

(** Unlinking what was just grafted into an existing directory gives the
    tree back. *)
Lemma graft_store_none (t t' : node) (p : path) (c : string) (n : node) :
  isdir t p = true ->
  graft t (p ++ [c]) n = Some t' ->
  store t' (p ++ [c]) None = Some t.
Proof.
  revert t t'. induction p as [|a p IH]; intros t t' Hp Hg.
  - apply isdir_nil_inv in Hp as [m ->]. simpl in Hg.
    destruct (m !! c) as [t1|] eqn:Hc; [discriminate|].
    inversion Hg; subst. simpl. f_equal. f_equal.
    change (delete c (<[c:=n]> m) = m). apply delete_insert_id. exact Hc.
  - destruct t as [s|m]; [discriminate|]. rewrite isdir_cons in Hp.
    destruct (m !! a) as [t1|] eqn:Ha; [|discriminate].
    change ((a :: p) ++ [c]) with (a :: (p ++ [c])) in *. simpl in Hg.
    rewrite Ha in Hg.
    destruct (graft t1 (p ++ [c]) n) as [t1'|] eqn:Hg1; [|discriminate].
    inversion Hg; subst. simpl.
    destruct (p ++ [c]) as [|b q] eqn:E; [destruct p; discriminate|].
    rewrite lookup_insert_eq. rewrite (IH t1 t1' Hp Hg1).
    rewrite insert_insert_eq, insert_id by assumption. reflexivity.
Qed.

(** Binding an entry to what it already is changes nothing. *)
Lemma store_same (t : node) (p : path) (n : node) :
  p <> [] -> get t p = Some n -> store t p (Some n) = Some t.
Proof.
  revert t. induction p as [|c p IH]; intros t Hne Hg; [congruence|].
  destruct t as [s|m]; [discriminate|]. rewrite get_cons in Hg.
  destruct (m !! c) as [t1|] eqn:Hc; [|discriminate].
  simpl. destruct p as [|c' p].
  - simpl in Hg. inversion Hg; subst. f_equal. f_equal.
    change (<[c:=n]> m = m). apply insert_id. exact Hc.
  - rewrite Hc. rewrite (IH t1) by (discriminate || assumption).
    rewrite insert_id by assumption. reflexivity.
Qed.

(** Every directory on the way to a stored entry is still a directory. *)
Lemma store_ancestor_isdir (t t' : node) (p r : path) (o : option node) :
  r <> [] -> store t (p ++ r) o = Some t' -> isdir t' p = true.
Proof.
  revert t t'. induction p as [|a p IH]; intros t t' Hr H.
  - simpl in H. destruct r as [|c r]; [congruence|].
    destruct t as [s|m]; [discriminate|]. simpl in H.
    destruct r; [inversion H; reflexivity|].
    destruct (m !! c); [|discriminate]. destruct (store _ _ _); [|discriminate].
    inversion H. reflexivity.
  - change ((a :: p) ++ r) with (a :: (p ++ r)) in H.
    destruct t as [s|m]; [discriminate|]. simpl in H.
    destruct (p ++ r) as [|b q] eqn:E.
    { destruct p; [simpl in E; congruence|discriminate]. }
    destruct (m !! a) as [t1|] eqn:Ha; [|discriminate].
    destruct (store t1 (b :: q) o) as [t1'|] eqn:Hs; [|discriminate].
    inversion H; subst. rewrite isdir_cons, lookup_insert_eq.
    eapply IH; [exact Hr|exact Hs].
Qed.

End TreeFrames.

(** * Staging: what it copies, what it leaves alone, how it fails *)

Section StagingFootprint.

Lemma same_process_refl (w : world) : same_process w w.
Proof. repeat split. Qed.

Lemma same_process_set_fs (t : node) (w : world) : same_process w (set_fs t w).
Proof. repeat split. Qed.

Lemma same_process_trans (w1 w2 w3 : world) :
  same_process w1 w2 -> same_process w2 w3 -> same_process w1 w3.
Proof.
  intros (A1 & A2 & A3 & A4 & A5) (B1 & B2 & B3 & B4 & B5).
  repeat split; congruence.
Qed.

Lemma cfg_get_str (config : gmap string pyval) (k s : string) :
  cfg_get config k = PyStr s -> config !! k = Some (PyStr s).
Proof.
  unfold cfg_get. destruct (config !! k) as [v|]; simpl; [congruence|discriminate].
Qed.

Lemma cfg_get_none (config : gmap string pyval) (k : string) :
  config !! k = None -> cfg_get config k = PyNone.
Proof. unfold cfg_get. intros ->. reflexivity. Qed.

End StagingFootprint.

(** X1: a staging without vault password that returns [True] found the
    source a directory and nothing at the destination, left at the
    destination exactly the tree of the source, and changed nothing else:
    every path that is neither below the destination nor on the way to it
    reads as before, and so do the open files, the environment and
    [context.package]. *)
Theorem stage_footprint (self : plugin) (w0 w1 : world) (ev : list event) :
  truthy (cfg_get (config self) "vault_password") = false ->
  _copy_playbooks self w0 = (Ret true, w1, ev) ->
  exists s d S P m,
    config self !! "playbooks_path_source" = Some (PyStr s) /\
    config self !! "playbooks_path_dest" = Some (PyStr d) /\
    resolve w0 s = Some S /\
    resolve w0 (_mountpoint self +:+ d) = Some P /\
    get (fs w0) S = Some (Dir m) /\
    get (fs w0) P = None /\
    get (fs w1) P = Some (Dir m) /\
    (forall q, unrelated q P -> get (fs w1) q = get (fs w0) q) /\
    same_process w0 w1.
Proof.
  intros Hv H.
  apply stage_ret_true in H as (d & wc & evc & evv & Hd & Hcp & Hvault).
  rewrite Hv in Hvault. inversion Hvault; subst. clear Hvault.
  apply copytree_ret_inv in Hcp as (s & S & P & m & t' & Hs & HS & HP & Hg & Hgr & ->).
  exists s, d, S, P, m.
  split; [apply cfg_get_str; assumption|]. split; [apply cfg_get_str; assumption|].
  split; [assumption|]. split; [assumption|]. split; [assumption|].
  split; [eapply graft_get_none; eassumption|].
  split; [simpl; eapply graft_get_same; eassumption|].
  split; [|apply same_process_set_fs].
  intros q [Hq1 Hq2]. simpl. eapply graft_get_unrelated; eassumption.
Qed.

(** X1 on the request of scenario A. *)
Lemma stage_footprint_witness :
  exists s d S P m,
    config plain_plugin !! "playbooks_path_source" = Some (PyStr s) /\
    config plain_plugin !! "playbooks_path_dest" = Some (PyStr d) /\
    resolve (host_world host_fs ∅) s = Some S /\
    resolve (host_world host_fs ∅) (_mountpoint plain_plugin +:+ d) = Some P /\
    get (fs (host_world host_fs ∅)) S = Some (Dir m) /\
    get (fs (host_world host_fs ∅)) P = None /\
    get (fs (state_of (_copy_playbooks plain_plugin (host_world host_fs ∅)))) P =
      Some (Dir m) /\
    (forall q, unrelated q P ->
       get (fs (state_of (_copy_playbooks plain_plugin (host_world host_fs ∅)))) q =
       get (fs (host_world host_fs ∅)) q) /\
    same_process (host_world host_fs ∅)
      (state_of (_copy_playbooks plain_plugin (host_world host_fs ∅))).
Proof.
  apply (stage_footprint plain_plugin (host_world host_fs ∅) _
           [EvCopytree "/artifacts/playbooks" "/mnt/srv/prov"]).
  - reflexivity.
  - vm_compute. reflexivity.
Defined.

(** X2: a request without [playbooks_path_dest], or with a destination but
    without [playbooks_path_source], makes staging raise [TypeError] before
    it has logged or touched anything. *)
Theorem stage_missing_keys :
  (forall (self : plugin) (w : world),
     config self !! "playbooks_path_dest" = None ->
     _copy_playbooks self w = (Raise TypeError, w, [])) /\
  (forall (self : plugin) (w : world) (d : string),
     config self !! "playbooks_path_source" = None ->
     config self !! "playbooks_path_dest" = Some (PyStr d) ->
     _copy_playbooks self w = (Raise TypeError, w, [])).
Proof.
  split.
  - intros self w Hd. unfold _copy_playbooks.
    rewrite (cfg_get_none _ _ Hd). reflexivity.
  - intros self w d Hs Hd. unfold _copy_playbooks.
    rewrite (cfg_get_none _ _ Hs), (cfg_get_some _ _ _ Hd).
    simpl py_concat. rewrite ret_bind. reflexivity.
Qed.

Lemma stage_missing_keys_witness :
  _copy_playbooks no_dest_plugin (host_world host_fs ∅) =
    (Raise TypeError, host_world host_fs ∅, []) /\
  _copy_playbooks no_source_plugin (host_world host_fs ∅) =
    (Raise TypeError, host_world host_fs ∅, []).
Proof.
  split.
  - apply (proj1 stage_missing_keys no_dest_plugin). reflexivity.
  - apply (proj2 stage_missing_keys no_source_plugin _ "/srv/prov"); reflexivity.
Defined.

(** X3 on a request whose source directory does not exist. *)
Lemma stage_missing_source_witness :
  _copy_playbooks missing_source_plugin (host_world host_fs ∅) =
    (Raise OSError, host_world host_fs ∅,
     [EvLog CRITICAL ("directory does not exist " +:+ "/artifacts/missing");
      EvCopytree "/artifacts/missing" (_mountpoint missing_source_plugin +:+ "/srv/prov")]).
Proof.
  apply (stage_missing_source missing_source_plugin (host_world host_fs ∅)
           "/artifacts/missing" "/srv/prov"); reflexivity.
Defined.

Section VaultPassword.

(** The vault password block when [VAULT_PWD] is set and the block
    returns: the password is in the file and the file is closed. *)
Lemma pass_vault_ret_env (self : plugin) (w w' : world) (ev : list event)
    (v : string) (SP : path) :
  pass_vault_password self w = (Ret (), w', ev) ->
  environ w !! "VAULT_PWD" = Some v ->
  resolve w (os_path_join (_mountpoint self) ["tmp"; "vault_password"]) = Some SP ->
  get (fs w') SP = Some (File v) /\ (SP ∉ handles w') /\
  ev = [EvOpen (os_path_join (_mountpoint self) ["tmp"; "vault_password"]);
        EvWrite SP v; EvClose SP].
Proof.
  unfold pass_vault_password, try_except_KeyError. rewrite bind_run.
  destruct (py_open_w _ w) as [[[h|e] wo] evo] eqn:Hopen.
  2:{ apply (f_equal outcome_of) in Hopen. unfold py_open_w, outcome_of in Hopen.
      destruct (resolve w _); [|simpl in Hopen; inversion Hopen; subst; discriminate].
      destruct (isdir _ _); [simpl in Hopen; inversion Hopen; subst; discriminate|].
      destruct (store _ _ _); simpl in Hopen; inversion Hopen; subst; discriminate. }
  apply open_ret_inv in Hopen as (t1 & Hres & Hnd & Hst & Hwo & Hevo). subst wo evo.
  intros H Henv HSP. rewrite HSP in Hres. inversion Hres; subst h. clear Hres.
  rewrite bind_run in H. unfold os_environ at 1 in H. simpl environ in H.
  rewrite Henv in H. rewrite bind_run in H.
  destruct (file_writelines SP v _) as [[[[]|e] ww] evw] eqn:Hw.
  2:{ unfold file_writelines in Hw.
      apply write_raise_inv in Hw as [->| ->]; discriminate. }
  unfold file_writelines in Hw.
  pose proof Hw as Hev. apply (f_equal events_of) in Hev.
  apply write_ret_inv in Hw as (data & c & t2 & Hdata & Hg & Hst2 & ->).
  inversion Hdata; subst data. clear Hdata.
  simpl in Hg, Hst2. rewrite (store_get_same _ _ _ _ Hst) in Hg.
  inversion Hg; subst c. clear Hg.
  unfold events_of, file_write in Hev. simpl in Hev.
  rewrite (store_get_same _ _ _ _ Hst), Hst2 in Hev. simpl in Hev. subst evw.
  inversion H; subst. simpl. split; [|split; [|reflexivity]].
  - apply (store_get_same _ _ _ _ Hst2).
  - intros Hin. apply list_elem_of_filter in Hin as [Hne _]. congruence.
Qed.

(** [open] cannot create a file in a directory that does not exist. *)
Lemma store_no_parent (t : node) (p : path) (c : string) (o : option node) :
  isdir t p = false -> store t (p ++ [c]) o = None.
Proof.
  revert t. induction p as [|a p IH]; intros t Hp.
  - destruct t as [s|m]; [reflexivity|discriminate].
  - change ((a :: p) ++ [c]) with (a :: (p ++ [c])).
    destruct t as [s|m]; [reflexivity|]. rewrite isdir_cons in Hp. simpl.
    destruct (p ++ [c]) as [|b q] eqn:E; [destruct p; discriminate|].
    destruct (m !! a) as [t1|]; [|reflexivity].
    rewrite (IH t1 Hp). reflexivity.
Qed.

Lemma open_no_parent (s : string) (w : world) (p : path) (c : string) :
  resolve w s = Some (p ++ [c]) -> isdir (fs w) p = false ->
  py_open_w s w = (Raise IOError, w, [EvOpen s]).
Proof.
  intros Hr Hp. unfold py_open_w. rewrite Hr.
  destruct (isdir (fs w) (p ++ [c])); [reflexivity|].
  rewrite (store_no_parent _ _ _ _ Hp). reflexivity.
Qed.

(** The equation of [_copy_playbooks] from the copy on. *)
Lemma stage_from_copy (self : plugin) (w wc : world) (d : string) (evc : list event) :
  config self !! "playbooks_path_dest" = Some (PyStr d) ->
  shutil_copytree (cfg_get (config self) "playbooks_path_source")
    (_mountpoint self +:+ d) w = (Ret (), wc, evc) ->
  _copy_playbooks self w =
    match (if truthy (cfg_get (config self) "vault_password")
           then
             pass_vault_password self;;
             release_file (os_path_join (_mountpoint self) ["tmp"; "vault_password"])
           else ret ()) wc with
    | (Ret _, w1, ev1) => (Ret true, w1, evc ++ ev1)
    | (Raise e, w1, ev1) => (Raise e, w1, evc ++ ev1)
    end.
Proof.
  intros Hd Hcp. pose proof Hcp as Hcp'.
  apply copytree_ret_inv in Hcp' as (s & S & P & m & t' & Hs & HS & HP & Hg & Hgr & ->).
  unfold _copy_playbooks. rewrite (cfg_get_some _ _ _ Hd).
  simpl py_concat. rewrite ret_bind.
  rewrite bind_run. rewrite Hs. unfold os_path_isdir at 1. rewrite HS.
  unfold isdir at 1. rewrite Hg. simpl negb. cbv iota.
  rewrite ret_bind.
  rewrite bind_run. unfold os_path_isdir. rewrite HP.
  rewrite (isdir_get_none _ _ (graft_get_none _ _ _ _ Hgr)).
  rewrite bind_run. rewrite <- Hs, Hcp.
  rewrite bind_run.
  destruct ((if truthy (cfg_get (config self) "vault_password")
             then
               pass_vault_password self;;
               release_file (os_path_join (_mountpoint self) ["tmp"; "vault_password"])
             else ret ()) (set_fs t' w))
    as [[[[]|e] w1] ev1]; simpl.
  - rewrite app_nil_r. reflexivity.
  - reflexivity.
Qed.

End VaultPassword.

(** X4: when a vault password is asked for, [VAULT_PWD] is set and staging
    returns [True], the file [<mountpoint>/tmp/vault_password] holds exactly
    the value of [VAULT_PWD] and is no longer open. *)
Theorem stage_writes_password (self : plugin) (w0 w1 : world) (ev : list event)
    (v : string) :
  is_abs (_mountpoint self) = true ->
  truthy (cfg_get (config self) "vault_password") = true ->
  environ w0 !! "VAULT_PWD" = Some v ->
  _copy_playbooks self w0 = (Ret true, w1, ev) ->
  get (fs w1) (root w0 ++ comps (_mountpoint self) ++ ["tmp"; "vault_password"]) =
    Some (File v) /\
  (root w0 ++ comps (_mountpoint self) ++ ["tmp"; "vault_password"]) ∉ handles w1.
Proof.
  intros Hm Hv Henv H.
  apply stage_ret_true in H as (d & wc & evc & evv & Hd & Hcp & Hvault).
  rewrite Hv in Hvault.
  apply copytree_ret_inv in Hcp as (s & S & P & m & t' & _ & _ & _ & _ & _ & ->).
  destruct (comps_secret (_mountpoint self) Hm) as [Habs Hc].
  apply vault_release_ret in Hvault as (wb & SP & Hvault & HSP & ->).
  destruct (pass_vault_ret_env self (set_fs t' w0) wb evv v
              (root w0 ++ comps (_mountpoint self) ++ ["tmp"; "vault_password"])
              Hvault Henv) as (Hg & Hh & _).
  { rewrite resolve_abs by assumption. rewrite Hc. reflexivity. }
  split; [exact Hg|]. simpl handles. intros Hin.
  apply list_elem_of_filter in Hin as [_ Hin]. auto.
Qed.

Lemma stage_writes_password_witness :
  get (fs (state_of (_copy_playbooks vault_plugin (host_world host_fs vault_env))))
    ([] ++ comps "/mnt" ++ ["tmp"; "vault_password"]) = Some (File "s3cret") /\
  ([] ++ comps "/mnt" ++ ["tmp"; "vault_password"]) ∉
    handles (state_of (_copy_playbooks vault_plugin (host_world host_fs vault_env))).
Proof.
  apply (stage_writes_password vault_plugin (host_world host_fs vault_env) _
           [EvCopytree "/artifacts/playbooks" "/mnt/srv/prov";
            EvOpen "/mnt/tmp/vault_password";
            EvWrite ["mnt"; "tmp"; "vault_password"] "s3cret";
            EvClose ["mnt"; "tmp"; "vault_password"]]).
  - reflexivity.
  - reflexivity.
  - reflexivity.
  - vm_compute. reflexivity.
Defined.

(** X5: only [KeyError] is caught around the vault password.  When the
    volume has no directory [tmp], [open] raises [IOError] and staging
    raises it on, after the copy: the playbooks stay staged. *)
Theorem stage_open_failure (self : plugin) (w wc : world) (d : string)
    (evc : list event) :
  is_abs (_mountpoint self) = true ->
  truthy (cfg_get (config self) "vault_password") = true ->
  config self !! "playbooks_path_dest" = Some (PyStr d) ->
  shutil_copytree (cfg_get (config self) "playbooks_path_source")
    (_mountpoint self +:+ d) w = (Ret (), wc, evc) ->
  isdir (fs wc) (root w ++ comps (_mountpoint self) ++ ["tmp"]) = false ->
  _copy_playbooks self w =
    (Raise IOError, wc,
     evc ++ [EvOpen (os_path_join (_mountpoint self) ["tmp"; "vault_password"])]) /\
  isdir (fs wc) (root w ++ comps (_mountpoint self +:+ d)) = true.
Proof.
  intros Hm Hv Hd Hcp Htmp. split.
  - rewrite (stage_from_copy self w wc d evc Hd Hcp), Hv.
    pose proof Hcp as Hcp'.
    apply copytree_ret_inv in Hcp' as (s & S & P & m & t' & _ & _ & _ & _ & _ & ->).
    destruct (comps_secret (_mountpoint self) Hm) as [Habs Hc].
    rewrite bind_run.
    unfold pass_vault_password, try_except_KeyError. rewrite bind_run.
    rewrite (open_no_parent _ (set_fs t' w)
               (root w ++ comps (_mountpoint self) ++ ["tmp"]) "vault_password").
    + reflexivity.
    + rewrite resolve_abs by assumption. rewrite Hc. simpl root.
      rewrite <- !app_assoc. reflexivity.
    + exact Htmp.
  - apply copytree_ret_inv in Hcp as (s & S & P & m & t' & _ & _ & HP & _ & Hgr & ->).
    rewrite resolve_abs in HP by (apply is_abs_append; assumption).
    inversion HP; subst P. unfold isdir. simpl fs.
    rewrite (graft_get_same _ _ _ _ Hgr). reflexivity.
Qed.

Lemma stage_open_failure_witness :
  _copy_playbooks vault_plugin (host_world bare_volume_fs vault_env) =
    (Raise IOError,
     state_of (shutil_copytree (PyStr "/artifacts/playbooks") "/mnt/srv/prov"
                 (host_world bare_volume_fs vault_env)),
     [EvCopytree "/artifacts/playbooks" "/mnt/srv/prov"] ++
     [EvOpen (os_path_join "/mnt" ["tmp"; "vault_password"])]) /\
  isdir (fs (state_of (shutil_copytree (PyStr "/artifacts/playbooks") "/mnt/srv/prov"
                         (host_world bare_volume_fs vault_env))))
    ([] ++ comps ("/mnt" +:+ "/srv/prov")) = true.
Proof.
  apply (stage_open_failure vault_plugin (host_world bare_volume_fs vault_env) _
           "/srv/prov" [EvCopytree "/artifacts/playbooks" "/mnt/srv/prov"]).
  - reflexivity.
  - reflexivity.
  - reflexivity.
  - vm_compute. reflexivity.
  - vm_compute. reflexivity.
Defined.

Section PreChroot.

(** Staging onto an existing directory, with the messages it logs. *)
Lemma stage_dest_exists (self : plugin) (w : world) (s d : string) (P : path) :
  config self !! "playbooks_path_source" = Some (PyStr s) ->
  config self !! "playbooks_path_dest" = Some (PyStr d) ->
  resolve w (_mountpoint self +:+ d) = Some P ->
  isdir (fs w) P = true ->
  _copy_playbooks self w =
    (Ret false, w,
     (if match resolve w s with Some p => isdir (fs w) p | None => false end
      then [] else [EvLog CRITICAL ("directory does not exist " +:+ s)]) ++
     [EvLog CRITICAL ("directory already exists " +:+ _mountpoint self +:+ d)]).
Proof.
  intros Hs Hd Hr Hdir. unfold _copy_playbooks.
  rewrite (cfg_get_some _ _ _ Hs), (cfg_get_some _ _ _ Hd).
  simpl py_concat. rewrite ret_bind.
  rewrite bind_run. unfold os_path_isdir at 1.
  destruct (match resolve w s with Some p => isdir (fs w) p | None => false end);
    simpl negb; cbv iota; rewrite bind_run.
  - unfold ret at 1. rewrite bind_run. unfold os_path_isdir. rewrite Hr, Hdir.
    rewrite bind_run. unfold log, ret. reflexivity.
  - unfold log at 1. rewrite bind_run. unfold os_path_isdir. rewrite Hr, Hdir.
    rewrite bind_run. unfold log, ret. reflexivity.
Qed.

End PreChroot.

(** X6: [_pre_chroot_block] drops the result of [_copy_playbooks].  When
    the destination is already a directory, staging has refused to copy,
    yet the block returns normally, with the state as it was and nothing
    but log messages: its caller cannot tell that nothing was staged. *)
Theorem pre_chroot_block_hides_refusal (self : plugin) (w : world) (s d : string)
    (P : path) :
  config self !! "playbooks_path_source" = Some (PyStr s) ->
  config self !! "playbooks_path_dest" = Some (PyStr d) ->
  resolve w (_mountpoint self +:+ d) = Some P ->
  isdir (fs w) P = true ->
  exists evs,
    _pre_chroot_block self w = (Ret (), w, evs) /\
    Forall (fun e => is_log e = true) evs.
Proof.
  intros Hs Hd Hr Hdir. unfold _pre_chroot_block. rewrite bind_run.
  rewrite (stage_dest_exists self w s d P Hs Hd Hr Hdir). unfold ret.
  eexists. split; [reflexivity|].
  rewrite app_nil_r. apply Forall_app. split; [|repeat constructor].
  destruct (match resolve w s with Some p => isdir (fs w) p | None => false end);
    repeat constructor.
Qed.

Lemma pre_chroot_block_hides_refusal_witness :
  exists evs,
    _pre_chroot_block plain_plugin
      (state_of (_copy_playbooks plain_plugin (host_world host_fs ∅))) =
    (Ret (), state_of (_copy_playbooks plain_plugin (host_world host_fs ∅)), evs) /\
    Forall (fun e => is_log e = true) evs.
Proof.
  apply (pre_chroot_block_hides_refusal plain_plugin _ "/artifacts/playbooks" "/srv/prov"
           ["mnt"; "srv"; "prov"]).
  - reflexivity.
  - reflexivity.
  - reflexivity.
  - vm_compute. reflexivity.
Defined.

(** * Cleanup: what it may touch *)

Section CleanupFootprint.

Lemma rmtree_frame (v : pyval) (w w' : world) (r : result unit) (ev : list event)
    (q : path) :
  shutil_rmtree v w = (r, w', ev) ->
  (forall s P, v = PyStr s -> resolve w s = Some P -> unrelated q P) ->
  get (fs w') q = get (fs w) q /\ same_process w w'.
Proof.
  unfold shutil_rmtree. destruct v as [| |s].
  1,2: intros H _; inversion H; split; [reflexivity|apply same_process_refl].
  destruct (resolve w s) as [P|] eqn:Hr.
  2:{ intros H _. inversion H. split; [reflexivity|apply same_process_refl]. }
  intros H Hq. destruct (Hq s P eq_refl Hr) as [Hq1 Hq2].
  destruct (isdir (fs w) P).
  2:{ inversion H. split; [reflexivity|apply same_process_refl]. }
  destruct (bool_decide (P = root w)).
  - destruct P as [|c P]; [destruct q; discriminate|].
    destruct (store (fs w) (c :: P) (Some (Dir ∅))) as [t'|] eqn:Hst;
      inversion H; subst; (split; [|try apply same_process_set_fs; apply same_process_refl]).
    + simpl. eapply store_get_unrelated; eassumption.
    + reflexivity.
  - destruct (store (fs w) P None) as [t'|] eqn:Hst;
      inversion H; subst; (split; [|try apply same_process_set_fs; apply same_process_refl]).
    + simpl. eapply store_get_unrelated; eassumption.
    + reflexivity.
Qed.

Lemma erase_secret_unrelated (self : plugin) (w w' : world) (r : result unit)
    (ev : list event) (q : path) :
  erase_secret self w = (r, w', ev) ->
  (truthy (cfg_get (config self) "vault_password") = true ->
   unrelated q (root w ++ ["tmp"; "vault_password"])) ->
  get (fs w') q = get (fs w) q /\ same_process w w'.
Proof.
  unfold erase_secret. destruct (truthy _).
  2:{ intros H _. inversion H. split; [reflexivity|apply same_process_refl]. }
  unfold os_remove. rewrite (resolve_abs w vault_password_file eq_refl).
  change (comps vault_password_file) with ["tmp"; "vault_password"].
  intros H Hq. destruct (Hq eq_refl) as [Hq1 Hq2].
  destruct (get (fs w) _) as [[c|m]|];
    try (inversion H; split; [reflexivity|apply same_process_refl]).
  destruct (store _ _ _) as [t'|] eqn:Hst; inversion H; subst.
  - split; [|apply same_process_set_fs]. simpl.
    eapply store_get_unrelated; eassumption.
  - split; [reflexivity|apply same_process_refl].
Qed.

End CleanupFootprint.

(** X7: whatever its outcome, [_ansible_cleanup] changes the filesystem
    only at the directory [playbooks_path_dest] names (when
    [keep_playbooks] is false) and at [/tmp/vault_password] (when a vault
    password is asked for): every path that is neither below nor on the way
    to one of them reads as before, and the process root, the environment,
    the open files and [context.package] are as they were. *)
Theorem cleanup_footprint (self : plugin) (w w' : world) (r : result unit)
    (ev : list event) (q : path) :
  _ansible_cleanup self w = (r, w', ev) ->
  (truthy (cfg_get (config self) "keep_playbooks") = false ->
   forall d P,
     config self !! "playbooks_path_dest" = Some (PyStr d) ->
     resolve w d = Some P -> unrelated q P) ->
  (truthy (cfg_get (config self) "vault_password") = true ->
   unrelated q (root w ++ ["tmp"; "vault_password"])) ->
  get (fs w') q = get (fs w) q /\ same_process w w'.
Proof.
  intros H Hdest Hsec.
  destruct (truthy (cfg_get (config self) "keep_playbooks")) eqn:Hk.
  - rewrite cleanup_keep in H by assumption.
    eapply erase_secret_unrelated; eassumption.
  - rewrite cleanup_unstage in H by assumption. rewrite bind_run in H.
    destruct (shutil_rmtree _ w) as [[[[]|e] wa] eva] eqn:Hrm.
    + destruct (rmtree_frame _ _ _ _ _ q Hrm) as [Hg1 Hp1].
      { intros s P Hv HP. apply (Hdest eq_refl s P); [|assumption].
        apply cfg_get_str. assumption. }
      destruct (erase_secret self wa) as [[r2 w2] ev2] eqn:Her.
      inversion H; subst.
      destruct (erase_secret_unrelated _ _ _ _ _ q Her) as [Hg2 Hp2].
      { intros Hv. destruct Hp1 as (-> & _). auto. }
      split; [congruence|eapply same_process_trans; eassumption].
    + inversion H; subst. apply (rmtree_frame _ _ _ _ _ q Hrm).
      intros s P Hv HP. apply (Hdest eq_refl s P); [|assumption].
      apply cfg_get_str. assumption.
Qed.

(** X7 on a staged request with a vault password: the inventory directory
    [/etc] of the volume is untouched by cleanup. *)
Lemma cleanup_footprint_witness :
  get (fs (state_of (_ansible_cleanup vault_plugin
                       (staged_in_chroot vault_plugin (host_world host_fs vault_env)))))
    ["mnt"; "etc"] =
  get (fs (staged_in_chroot vault_plugin (host_world host_fs vault_env))) ["mnt"; "etc"] /\
  same_process (staged_in_chroot vault_plugin (host_world host_fs vault_env))
    (state_of (_ansible_cleanup vault_plugin
                 (staged_in_chroot vault_plugin (host_world host_fs vault_env)))).
Proof.
  apply (cleanup_footprint vault_plugin
           (staged_in_chroot vault_plugin (host_world host_fs vault_env)) _
           (Ret ()) [EvRmtree "/srv/prov"; EvRemove "/tmp/vault_password"]).
  - vm_compute. reflexivity.
  - intros _ d P Hd HP. vm_compute in Hd. inversion Hd; subst d.
    vm_compute in HP. inversion HP; subst P. split; reflexivity.
  - intros _. split; reflexivity.
Defined.

(** * Metadata *)

Section Metadata.

Lemma preserves_pkg_rmtree (v : pyval) : preserves pkg (shutil_rmtree v).
Proof.
  intros w. unfold shutil_rmtree. destruct v as [| |s]; try reflexivity.
  destruct (resolve w s) as [p|]; [|reflexivity].
  destruct (isdir (fs w) p); [|reflexivity].
  destruct (bool_decide (p = root w)).
  - destruct p; [reflexivity|]. destruct (store _ _ _); reflexivity.
  - destruct (store _ _ _); reflexivity.
Qed.

Lemma preserves_pkg_remove (p : string) : preserves pkg (os_remove p).
Proof.
  intros w. unfold os_remove. destruct (resolve w p) as [pp|]; [|reflexivity].
  destruct (get (fs w) pp) as [[c|m]|]; try reflexivity.
  destruct (store _ _ _); reflexivity.
Qed.

Lemma preserves_pkg_cleanup (self : plugin) : preserves pkg (_ansible_cleanup self).
Proof.
  unfold _ansible_cleanup. apply preserves_bind.
  - destruct (negb _); [apply preserves_pkg_rmtree|apply preserves_ret].
  - intros _. destruct (truthy _); [apply preserves_pkg_remove|apply preserves_ret].
Qed.

(** [os.remove] of something that is not a regular file. *)
Lemma remove_not_file (p : string) (w : world) (pp : path) :
  resolve w p = Some pp ->
  (forall c, get (fs w) pp <> Some (File c)) ->
  os_remove p w = (Raise OSError, w, [EvRemove p]).
Proof.
  intros Hr Hn. unfold os_remove. rewrite Hr.
  destruct (get (fs w) pp) as [[c|m]|]; try reflexivity.
  destruct (Hn c eq_refl).
Qed.

End Metadata.

(** X8: cleanup removes the playbooks before the secret and guards
    neither.  When the playbooks are removed but no regular file
    [/tmp/vault_password] is there, [os.remove] raises [OSError] out of
    [_store_package_metadata]: the playbooks are gone and no metadata is
    recorded. *)
Theorem missing_secret_blocks_metadata (self : plugin) (w wa : world)
    (eva : list event) :
  truthy (cfg_get (config self) "keep_playbooks") = false ->
  truthy (cfg_get (config self) "vault_password") = true ->
  shutil_rmtree (cfg_get (config self) "playbooks_path_dest") w = (Ret (), wa, eva) ->
  (forall c, get (fs wa) (root wa ++ ["tmp"; "vault_password"]) <> Some (File c)) ->
  _store_package_metadata self w =
    (Raise OSError, wa, eva ++ [EvRemove vault_password_file]) /\
  pkg wa = pkg w.
Proof.
  intros Hk Hv Hrm Hn. split.
  - rewrite store_package_metadata_run, cleanup_unstage by assumption.
    rewrite bind_run, Hrm. unfold erase_secret. rewrite Hv.
    rewrite (remove_not_file vault_password_file wa
               (root wa ++ ["tmp"; "vault_password"])).
    + reflexivity.
    + apply (resolve_abs wa vault_password_file eq_refl).
    + exact Hn.
  - apply rmtree_ret_inv in Hrm as (s & p & t' & _ & _ & _ & _ & ->). reflexivity.
Qed.

(** X8 on a volume staged without vault password and cleaned up with the
    vault flag set. *)
Lemma missing_secret_blocks_metadata_witness :
  _store_package_metadata vault_plugin
    (staged_in_chroot plain_plugin (host_world host_fs ∅)) =
    (Raise OSError,
     state_of (shutil_rmtree (PyStr "/srv/prov")
                 (staged_in_chroot plain_plugin (host_world host_fs ∅))),
     [EvRmtree "/srv/prov"] ++ [EvRemove vault_password_file]) /\
  pkg (state_of (shutil_rmtree (PyStr "/srv/prov")
                   (staged_in_chroot plain_plugin (host_world host_fs ∅)))) =
  pkg (staged_in_chroot plain_plugin (host_world host_fs ∅)).
Proof.
  apply (missing_secret_blocks_metadata vault_plugin
           (staged_in_chroot plain_plugin (host_world host_fs ∅)) _
           [EvRmtree "/srv/prov"]).
  - reflexivity.
  - reflexivity.
  - vm_compute. reflexivity.
  - intros c H. vm_compute in H. discriminate.
Defined.

(** X9: when [_store_package_metadata] returns, [context.package.attributes]
    is a dictionary with exactly the keys [name], [version], [release] and
    [extra_vars]: the package argument as it was before the call,
    [appversion] and [extravars] from the options, each [''] when absent,
    and an empty release.  The package argument and the recorded inventory
    path are not changed. *)
Theorem metadata_recorded (self : plugin) (w w' : world) (ev : list event) :
  _store_package_metadata self w = (Ret (), w', ev) ->
  exists md,
    attributes (pkg w') = Some md /\
    md !! "name" = Some (PyStr (arg (pkg w))) /\
    md !! "version" =
      Some (match config self !! "appversion" with Some v => v | None => PyStr "" end) /\
    md !! "release" = Some (PyStr "") /\
    md !! "extra_vars" =
      Some (match config self !! "extravars" with Some v => v | None => PyStr "" end) /\
    (forall k, k <> "name" -> k <> "version" -> k <> "release" -> k <> "extra_vars" ->
               md !! k = None) /\
    arg (pkg w') = arg (pkg w) /\
    inventory (pkg w') = inventory (pkg w).
Proof.
  intros H. rewrite store_package_metadata_run in H.
  pose proof (preserves_pkg_cleanup self w) as Hp. unfold state_of in Hp.
  destruct (_ansible_cleanup self w) as [[[[]|e] w1] ev1]; [|discriminate].
  simpl in Hp. inversion H; subst. clear H. simpl. rewrite Hp.
  exists (metadata_of self (arg (pkg w))).
  split; [reflexivity|]. unfold metadata_of, cfg_get_d.
  split; [reflexivity|]. split.
  { destruct (config self !! "appversion"); reflexivity. }
  split; [reflexivity|]. split.
  { destruct (config self !! "extravars"); reflexivity. }
  split; [|split; reflexivity].
  intros k H1 H2 H3 H4.
  rewrite !lookup_insert_ne by congruence. apply lookup_empty.
Qed.

Lemma metadata_recorded_witness :
  exists md,
    attributes (pkg (state_of (_store_package_metadata plain_plugin
                                 (staged_in_chroot plain_plugin (host_world host_fs ∅))))) =
      Some md /\
    md !! "name" = Some (PyStr "site.yml") /\
    md !! "version" = Some (PyStr "") /\
    md !! "release" = Some (PyStr "") /\
    md !! "extra_vars" = Some (PyStr "") /\
    (forall k, k <> "name" -> k <> "version" -> k <> "release" -> k <> "extra_vars" ->
               md !! k = None) /\
    arg (pkg (state_of (_store_package_metadata plain_plugin
                          (staged_in_chroot plain_plugin (host_world host_fs ∅))))) =
      "site.yml" /\
    inventory (pkg (state_of (_store_package_metadata plain_plugin
                                (staged_in_chroot plain_plugin (host_world host_fs ∅))))) =
      None.
Proof.
  apply (metadata_recorded plain_plugin
           (staged_in_chroot plain_plugin (host_world host_fs ∅)) _
           [EvRmtree "/srv/prov"; EvSetAttributes (metadata_of plain_plugin "site.yml")]).
  vm_compute. reflexivity.
Defined.

(** * The inventory file: missing options and a second run *)

(** X10: without an [inventory_file] option, [_write_local_inventory]
    raises [TypeError] while it builds the file name: nothing is recorded
    in [context.package.inventory], nothing is logged, created or
    written. *)
Theorem inventory_without_file_name (self : plugin) (w : world) :
  config self !! "inventory_file" = None ->
  _write_local_inventory self w = (Raise TypeError, w, []).
Proof.
  intros Hf. unfold _write_local_inventory. rewrite (cfg_get_none _ _ Hf).
  destruct (cfg_get_d (config self) "inventory_file_path" (PyStr "/etc/ansible"))
    as [| |pa]; reflexivity.
Qed.

Lemma inventory_without_file_name_witness :
  _write_local_inventory no_inventory_file_plugin
    (enter_chroot "/mnt" (host_world host_fs ∅)) =
  (Raise TypeError, enter_chroot "/mnt" (host_world host_fs ∅), []).
Proof. apply inventory_without_file_name. reflexivity. Defined.

(** X11: without an [inventory_file_content] option, in an existing
    directory where the file can be opened, [_write_local_inventory] raises
    [TypeError] from [f.write(None)] after [open] has truncated the file:
    the file is left empty, the [with] block has closed it, and the path is
    recorded. *)
Theorem inventory_without_content (self : plugin) (w wo : world) (pa f : string)
    (PA F : path) (evo : list event) :
  cfg_get_d (config self) "inventory_file_path" (PyStr "/etc/ansible") = PyStr pa ->
  config self !! "inventory_file" = Some (PyStr f) ->
  config self !! "inventory_file_content" = None ->
  resolve w pa = Some PA -> isdir (fs w) PA = true ->
  py_open_w ((pa +:+ "/") +:+ f) w = (Ret F, wo, evo) ->
  exists w',
    _write_local_inventory self w =
      (Raise TypeError, w',
       [EvSetInventory ((pa +:+ "/") +:+ f);
        EvOpen ((pa +:+ "/") +:+ f);
        EvLog DEBUG ("writing " +:+ (pa +:+ "/") +:+ f);
        EvClose F]) /\
    get (fs w') F = Some (File "") /\
    (F ∉ handles w') /\
    inventory (pkg w') = Some ((pa +:+ "/") +:+ f).
Proof.
  intros Hpa Hf Hc HPA Hdir Hopen.
  apply open_ret_inv in Hopen as (t1 & HF & Hnd & Hst & _ & _).
  destruct (write_local_inventory_run self w pa f Hpa Hf) as (rest & _ & Hrun & ->).
  rewrite Hrun. rewrite bind_run. unfold set_inventory at 1.
  set (w0 := set_pkg _ w).
  rewrite bind_run. unfold os_path_isdir at 1.
  change (resolve w0 pa) with (resolve w pa). rewrite HPA.
  change (fs w0) with (fs w). rewrite Hdir. simpl negb. cbv iota.
  rewrite ret_bind. rewrite bind_run.
  rewrite (open_ok _ w0 F t1 HF Hnd Hst).
  rewrite bind_run. rewrite (cfg_get_none _ _ Hc).
  unfold finally, log, file_write, file_close. rewrite !bind_run. simpl.
  eexists. split; [reflexivity|]. simpl. split; [|split; [|reflexivity]].
  - apply (store_get_same _ _ _ _ Hst).
  - intros Hin. apply list_elem_of_filter in Hin as [Hne _]. congruence.
Qed.

Lemma inventory_without_content_witness :
  exists w',
    _write_local_inventory no_content_plugin
      (enter_chroot "/mnt" (host_world host_fs ∅)) =
      (Raise TypeError, w',
       [EvSetInventory (("/etc" +:+ "/") +:+ "hosts");
        EvOpen (("/etc" +:+ "/") +:+ "hosts");
        EvLog DEBUG ("writing " +:+ ("/etc" +:+ "/") +:+ "hosts");
        EvClose ["mnt"; "etc"; "hosts"]]) /\
    get (fs w') ["mnt"; "etc"; "hosts"] = Some (File "") /\
    (["mnt"; "etc"; "hosts"] ∉ handles w') /\
    inventory (pkg w') = Some (("/etc" +:+ "/") +:+ "hosts").
Proof.
  refine (inventory_without_content no_content_plugin
            (enter_chroot "/mnt" (host_world host_fs ∅))
            (state_of (py_open_w "/etc/hosts" (enter_chroot "/mnt" (host_world host_fs ∅))))
            "/etc" "hosts" ["mnt"; "etc"] ["mnt"; "etc"; "hosts"]
            [EvOpen "/etc/hosts"] _ _ _ _ _ _); reflexivity.
Defined.

Section InventoryTwice.

Lemma filter_out_twice (h : path) (l : list path) :
  filter (fun x => x <> h) (h :: filter (fun x => x <> h) (h :: l)) =
  filter (fun x => x <> h) (h :: l).
Proof.
  rewrite !(filter_cons_False (fun x => x <> h) h) by (intros Hn; congruence).
  induction l as [|a l IH]; [reflexivity|].
  rewrite filter_cons. destruct (decide (a <> h)) as [Ha|Ha].
  - rewrite filter_cons_True by assumption. rewrite IH. reflexivity.
  - exact IH.
Qed.

(** A run of [_write_local_inventory] that returns, step by step: the
    options it read, the trees after the directory is there ([t0]), after
    [open] ([t1]) and after [write] ([t2]), and the state it ends in. *)
Lemma write_local_inventory_ret_inv (self : plugin) (w w1 : world) (b : bool)
    (ev : list event) :
  _write_local_inventory self w = (Ret b, w1, ev) ->
  exists pa f c PA F t0 t1 t2,
    cfg_get_d (config self) "inventory_file_path" (PyStr "/etc/ansible") = PyStr pa /\
    config self !! "inventory_file" = Some (PyStr f) /\
    cfg_get (config self) "inventory_file_content" = PyStr c /\
    resolve w pa = Some PA /\
    resolve w ((pa +:+ "/") +:+ f) = Some F /\
    isdir t0 PA = true /\ isdir t0 F = false /\
    store t0 F (Some (File "")) = Some t1 /\
    store t1 F (Some (File c)) = Some t2 /\
    b = true /\
    w1 = World t2 (root w) (cwd w) (environ w)
           (filter (fun x => x <> F) (F :: handles w))
           (Package (arg (pkg w)) (Some ((pa +:+ "/") +:+ f)) (attributes (pkg w))).
Proof.
  intros H.
  assert (Hcfg : exists pa f,
             cfg_get_d (config self) "inventory_file_path" (PyStr "/etc/ansible") =
               PyStr pa /\
             config self !! "inventory_file" = Some (PyStr f)).
  { unfold _write_local_inventory in H.
    apply bind_ret_inv in H as (ps & wa & e1 & e2 & Hc1 & H & _).
    destruct (cfg_get_d (config self) "inventory_file_path" (PyStr "/etc/ansible"))
      as [| |pa]; try discriminate.
    simpl in Hc1. inversion Hc1; subst. clear Hc1.
    apply bind_ret_inv in H as (fn & wb & e3 & e4 & Hc2 & _ & _).
    destruct (cfg_get (config self) "inventory_file") as [| |f] eqn:Hf; try discriminate.
    exists pa, f. split; [reflexivity|]. apply cfg_get_str. assumption. }
  destruct Hcfg as (pa & f & Hpa & Hf).
  destruct (write_local_inventory_run self w pa f Hpa Hf) as (rest & _ & Hrun & ->).
  rewrite Hrun, bind_run in H. unfold set_inventory at 1 in H.
  set (w0 := set_pkg _ w) in H.
  match type of H with
  | match ?m w0 with _ => _ end = _ => destruct (m w0) as [[r w'] evs] eqn:Hr
  end.
  inversion H; subst r w' ev. clear H.
  apply bind_ret_inv in Hr as (is_dir & wa & e1 & e2 & Hi & Hr & _).
  apply isdir_ret_inv in Hi as (-> & _ & s & Hs & Hb). inversion Hs; subst s. clear Hs.
  apply bind_ret_inv in Hr as ([] & wb & e3 & e4 & Hmk & Hr & _).
  assert (Hdir : exists PA t0,
             resolve w pa = Some PA /\ isdir t0 PA = true /\ wb = set_fs t0 w0).
  { destruct is_dir; simpl negb in Hmk; cbv iota in Hmk.
    - inversion Hmk; subst wb.
      change (resolve w0 pa) with (resolve w pa) in Hb.
      destruct (resolve w pa) as [PA|]; [|discriminate].
      exists PA, (fs w). auto.
    - apply bind_ret_inv in Hmk as ([] & wx & e5 & e6 & Hl1 & Hmk & _).
      apply log_ret_inv in Hl1 as ->.
      apply bind_ret_inv in Hmk as ([] & wy & e7 & e8 & Hmd & Hl2 & _).
      apply log_ret_inv in Hl2 as ->.
      apply makedirs_ret_inv in Hmd as (PA & t' & HPA & Hg & ->).
      exists PA, t'. split; [exact HPA|]. split; [|reflexivity].
      unfold isdir. rewrite (graft_get_same _ _ _ _ Hg). reflexivity. }
  destruct Hdir as (PA & t0 & HPA & HdirPA & ->).
  apply bind_ret_inv in Hr as (h & wc & e9 & e10 & Hop & Hr & _).
  apply open_ret_inv in Hop as (t1 & HF & Hnd & Hst & -> & _).
  apply bind_ret_inv in Hr as ([] & wd & e11 & e12 & Hfin & Hr & _).
  inversion Hr; subst. clear Hr.
  apply finally_ret_inv in Hfin as (we & e13 & e14 & Hbody & Hclose).
  inversion Hclose; subst. clear Hclose.
  apply bind_ret_inv in Hbody as ([] & wf & e15 & e16 & Hl1 & Hbody & _).
  apply log_ret_inv in Hl1 as ->.
  apply bind_ret_inv in Hbody as ([] & wg & e17 & e18 & Hwr & Hl2 & _).
  apply log_ret_inv in Hl2 as ->.
  apply write_ret_inv in Hwr as (c & c0 & t2 & Hc & Hg0 & Hst2 & ->).
  simpl fs in *.
  rewrite (store_get_same _ _ _ _ Hst) in Hg0. inversion Hg0; subst c0. clear Hg0.
  exists pa, f, c, PA, h, t0, t1, t2.
  repeat (split; [first [assumption | reflexivity]|]). reflexivity.
Qed.

End InventoryTwice.

(** X12: the inventory is regenerated, not appended to.  After a run of
    [_write_local_inventory] that returned, a second run returns [True]
    again without creating the directory, and ends in exactly the state
    the first run ended in. *)
Theorem inventory_second_run (self : plugin) (w w1 : world) (b : bool)
    (ev : list event) :
  _write_local_inventory self w = (Ret b, w1, ev) ->
  exists ev2,
    _write_local_inventory self w1 = (Ret true, w1, ev2) /\
    Forall (fun e => match e with EvMakedirs _ => False | _ => True end) ev2.
Proof.
  intros H.
  apply write_local_inventory_ret_inv in H
    as (pa & f & c & PA & F & t0 & t1 & t2 & Hpa & Hf & Hc & HPA & HF & HdPA & HdF &
        Hst & Hst2 & _ & ->).
  destruct (write_local_inventory_run self
              (World t2 (root w) (cwd w) (environ w)
                 (filter (fun x => x <> F) (F :: handles w))
                 (Package (arg (pkg w)) (Some ((pa +:+ "/") +:+ f)) (attributes (pkg w))))
              pa f Hpa Hf) as (rest & _ & Hrun & ->).
  rewrite Hrun. clear Hrun. rewrite bind_run. unfold set_inventory at 1.
  set (w0 := set_pkg _ _).
  assert (Hg2 : get t2 F = Some (File c)) by apply (store_get_same _ _ _ _ Hst2).
  assert (Hg1 : get t1 F = Some (File "")) by apply (store_get_same _ _ _ _ Hst).
  assert (HdPA2 : isdir t2 PA = true).
  { eapply store_isdir; [exact Hst2|unfold isdir; rewrite Hg1; reflexivity|].
    eapply store_isdir; eassumption. }
  assert (HdF2 : isdir t2 F = false) by (unfold isdir; rewrite Hg2; reflexivity).
  assert (Hst' : store t2 F (Some (File "")) = Some t1).
  { rewrite (store_overwrite _ _ _ _ (Some (File "")) Hst2).
    rewrite (store_overwrite _ _ _ _ (Some (File "")) Hst). exact Hst. }
  rewrite bind_run. unfold os_path_isdir at 1.
  change (resolve w0 pa) with (resolve w pa). rewrite HPA.
  change (fs w0) with t2. rewrite HdPA2. simpl negb. cbv iota.
  rewrite ret_bind. rewrite bind_run.
  rewrite (open_ok _ w0 F t1 HF HdF2 Hst').
  rewrite bind_run. rewrite Hc.
  unfold finally, log, file_close. rewrite !bind_run.
  unfold file_write. simpl fs. rewrite Hg1.
  change ("" +:+ c) with c. rewrite Hst2. simpl.
  rewrite filter_out_twice.
  eexists. split; [reflexivity|]. repeat constructor.
Qed.

Lemma inventory_second_run_witness :
  exists ev2,
    _write_local_inventory plain_plugin
      (state_of (_write_local_inventory plain_plugin
                   (enter_chroot "/mnt" (host_world host_fs ∅)))) =
    (Ret true,
     state_of (_write_local_inventory plain_plugin
                 (enter_chroot "/mnt" (host_world host_fs ∅))),
     ev2) /\
    Forall (fun e => match e with EvMakedirs _ => False | _ => True end) ev2.
Proof.
  apply (inventory_second_run plain_plugin (enter_chroot "/mnt" (host_world host_fs ∅)) _
           true
           (events_of (_write_local_inventory plain_plugin
                         (enter_chroot "/mnt" (host_world host_fs ∅))))).
  vm_compute. reflexivity.
Defined.

(** * Provisioning: from the inventory to the command line *)

(** X13: [_provision_package] runs nothing without an inventory.  When
    [_write_local_inventory] raises, the exception goes on as it is and no
    command line is built; when it returns, the command line names, after
    [-i], the path [<inventory_file_path>/<inventory_file>] that was just
    recorded, and the playbook [<playbooks_path_dest>/<package argument>],
    after the "Running Ansible playbook" message. *)
Theorem provision_package_uses_inventory :
  (forall (self : plugin) (w w1 : world) (e : exn) (ev : list event),
     _write_local_inventory self w = (Raise e, w1, ev) ->
     _provision_package self w = (Raise e, w1, ev)) /\
  (forall (self : plugin) (w w1 : world) (b : bool) (ev : list event),
     _write_local_inventory self w = (Ret b, w1, ev) ->
     exists pa f,
       cfg_get_d (config self) "inventory_file_path" (PyStr "/etc/ansible") = PyStr pa /\
       config self !! "inventory_file" = Some (PyStr f) /\
       _provision_package self w =
         (run_ansible_playbook
            (PyStr ((pa +:+ "/") +:+ f))
            (cfg_get_d (config self) "extravars" (PyStr ""))
            (cfg_get (config self) "playbooks_path_dest")
            (PyStr (arg (pkg w)))
            (cfg_get_d (config self) "vault_password" (PyStr "")),
          w1,
          ev ++ [EvLog INFO ("Running Ansible playbook " +:+ arg (pkg w) +:+ "...")])).
Proof.
  split.
  - intros self w w1 e ev H. unfold _provision_package. rewrite bind_run, H. reflexivity.
  - intros self w w1 b ev H. pose proof H as H'.
    apply write_local_inventory_ret_inv in H'
      as (pa & f & c & PA & F & t0 & t1 & t2 & Hpa & Hf & _ & _ & _ & _ & _ & _ & _ &
          -> & ->).
    exists pa, f. split; [assumption|]. split; [assumption|].
    unfold _provision_package. rewrite bind_run, H. simpl negb. cbv iota.
    unfold package_arg, log, package_inventory, lift. rewrite ?bind_run. simpl.
    destruct (run_ansible_playbook _ _ _ _ _); reflexivity.
Qed.

Lemma provision_package_uses_inventory_witness :
  _provision_package plain_plugin (enter_chroot "/mnt" (host_world etc_file_fs ∅)) =
    (Raise OSError,
     state_of (_write_local_inventory plain_plugin
                 (enter_chroot "/mnt" (host_world etc_file_fs ∅))),
     events_of (_write_local_inventory plain_plugin
                  (enter_chroot "/mnt" (host_world etc_file_fs ∅)))) /\
  exists pa f,
    cfg_get_d (config plain_plugin) "inventory_file_path" (PyStr "/etc/ansible") =
      PyStr pa /\
    config plain_plugin !! "inventory_file" = Some (PyStr f) /\
    _provision_package plain_plugin
      (staged_in_chroot plain_plugin (host_world host_fs ∅)) =
      (run_ansible_playbook
         (PyStr ((pa +:+ "/") +:+ f))
         (cfg_get_d (config plain_plugin) "extravars" (PyStr ""))
         (cfg_get (config plain_plugin) "playbooks_path_dest")
         (PyStr (arg (pkg (staged_in_chroot plain_plugin (host_world host_fs ∅)))))
         (cfg_get_d (config plain_plugin) "vault_password" (PyStr "")),
       state_of (_write_local_inventory plain_plugin
                   (staged_in_chroot plain_plugin (host_world host_fs ∅))),
       events_of (_write_local_inventory plain_plugin
                    (staged_in_chroot plain_plugin (host_world host_fs ∅))) ++
       [EvLog INFO
          ("Running Ansible playbook " +:+
           arg (pkg (staged_in_chroot plain_plugin (host_world host_fs ∅))) +:+ "...")]).
Proof.
  split.
  - apply (proj1 provision_package_uses_inventory). vm_compute. reflexivity.
  - apply (proj2 provision_package_uses_inventory plain_plugin _ _ true).
    vm_compute. reflexivity.
Defined.

(** * Staging and cleanup together *)

(** X15: staging then cleanup is a round trip on the filesystem.  Without
    vault password and with [keep_playbooks] false, when the directory that
    is to hold the playbooks directory already exists on the volume, a
    staging that returned [True], followed inside the chroot by cleanup on
    the filesystem as staging left it, returns and restores the filesystem
    exactly as it was before staging. *)
Theorem stage_cleanup_round_trip (self : plugin) (w0 w1 w2 : world) (d : string)
    (q : path) (c : string) (ev1 : list event) :
  is_abs (_mountpoint self) = true ->
  config self !! "playbooks_path_dest" = Some (PyStr d) ->
  is_abs d = true ->
  truthy (cfg_get (config self) "keep_playbooks") = false ->
  truthy (cfg_get (config self) "vault_password") = false ->
  comps d = q ++ [c] ->
  isdir (fs w0) (root w0 ++ comps (_mountpoint self) ++ q) = true ->
  _copy_playbooks self w0 = (Ret true, w1, ev1) ->
  root w2 = root w0 ++ comps (_mountpoint self) ->
  fs w2 = fs w1 ->
  _ansible_cleanup self w2 = (Ret (), set_fs (fs w0) w2, [EvRmtree d]).
Proof.
  intros Hm Hd Habs Hk Hv Hq Hparent Hst Hroot Hfs.
  apply stage_ret_true in Hst as (d' & wc & evc & evv & Hd' & Hcp & Hvault).
  rewrite (cfg_get_some _ _ _ Hd) in Hd'. inversion Hd'; subst d'. clear Hd'.
  rewrite Hv in Hvault. inversion Hvault; subst. clear Hvault.
  apply copytree_ret_inv in Hcp as (s & S & P & m & t' & _ & _ & HP & _ & Hgr & ->).
  destruct (staged_path w0 w2 (_mountpoint self) d Hm Habs Hroot) as [Hr0 Hr2].
  rewrite Hr0 in HP. inversion HP; subst P. clear HP.
  assert (HPq : root w0 ++ comps (_mountpoint self +:+ d) =
                (root w0 ++ comps (_mountpoint self) ++ q) ++ [c]).
  { rewrite comps_app_abs by assumption. rewrite Hq, <- !app_assoc. reflexivity. }
  simpl fs in Hfs.
  rewrite cleanup_unstage by assumption. rewrite bind_run.
  rewrite (cfg_get_some _ _ _ Hd). unfold shutil_rmtree. rewrite Hr2, Hfs.
  unfold isdir at 1. rewrite (graft_get_same _ _ _ _ Hgr).
  rewrite bool_decide_eq_false_2.
  2:{ rewrite Hroot, comps_app_abs by assumption. rewrite Hq, app_assoc.
      intros Heq. rewrite <- (app_nil_r (root w0 ++ comps (_mountpoint self))) in Heq at 2.
      apply app_inv_head in Heq. destruct q; discriminate. }
  rewrite HPq in Hgr |- *.
  rewrite (graft_store_none _ _ _ _ _ Hparent Hgr).
  unfold erase_secret. rewrite Hv. unfold ret. reflexivity.
Qed.

Lemma stage_cleanup_round_trip_witness :
  _ansible_cleanup
    (Plugin "/mnt" (<["playbooks_path_dest" := PyStr "/etc/prov"]> base_config))
    (staged_in_chroot
       (Plugin "/mnt" (<["playbooks_path_dest" := PyStr "/etc/prov"]> base_config))
       (host_world host_fs ∅)) =
  (Ret (),
   set_fs host_fs
     (staged_in_chroot
        (Plugin "/mnt" (<["playbooks_path_dest" := PyStr "/etc/prov"]> base_config))
        (host_world host_fs ∅)),
   [EvRmtree "/etc/prov"]).
Proof.
  refine (stage_cleanup_round_trip
            (Plugin "/mnt" (<["playbooks_path_dest" := PyStr "/etc/prov"]> base_config))
            (host_world host_fs ∅) _ _ "/etc/prov" ["etc"] "prov"
            [EvCopytree "/artifacts/playbooks" "/mnt/etc/prov"]
            _ _ _ _ _ _ _ _ _ _); reflexivity.
Defined.

Section Leftovers.

(** A call of [os.remove] that returns found a regular file. *)
Lemma remove_ret_file (p : string) (w w' : world) (ev : list event) :
  os_remove p w = (Ret (), w', ev) ->
  exists pp c t',
    resolve w p = Some pp /\ get (fs w) pp = Some (File c) /\
    store (fs w) pp None = Some t' /\ w' = set_fs t' w.
Proof.
  unfold os_remove. destruct (resolve w p) as [pp|] eqn:Hr; [|discriminate].
  destruct (get (fs w) pp) as [[c|m]|] eqn:Hg; try discriminate.
  destruct (store (fs w) pp None) as [t'|] eqn:Hs; [|discriminate].
  intros H. inversion H; subst. exists pp, c, t'. auto.
Qed.

(** The second statement of cleanup, when it returns, keeps directories
    directories and creates nothing. *)
Lemma erase_secret_ret_keeps (self : plugin) (w w' : world) (ev : list event) :
  erase_secret self w = (Ret (), w', ev) ->
  (forall p, isdir (fs w) p = true -> isdir (fs w') p = true) /\
  (forall p, get (fs w) p = None -> get (fs w') p = None).
Proof.
  unfold erase_secret. destruct (truthy _).
  - intros H. apply remove_ret_file in H as (pp & c & t' & _ & Hg & Hst & ->).
    simpl fs. split.
    + intros p Hp. eapply store_isdir; [exact Hst| |exact Hp].
      unfold isdir. rewrite Hg. reflexivity.
    + intros p Hp. eapply store_none_get_none; eassumption.
  - intros H. inversion H; subst. auto.
Qed.

End Leftovers.

(** X16: for an absolute mount point and a [playbooks_path_dest] that is
    an absolute path (it starts with a slash) without ['.'] or ['..']
    components, with [keep_playbooks] false, cleanup inside the chroot
    removes the playbooks directory only, not the directories
    [shutil.copytree] created on the way to it.  When the directory that
    holds the playbooks directory did not exist before staging, it is still
    there, as a directory, after a staging that returned [True] and a
    cleanup that returned. *)
Theorem cleanup_leaves_created_parents (self : plugin) (w0 w1 w2 w3 : world)
    (d : string) (q : path) (c : string) (ev1 ev3 : list event) :
  is_abs (_mountpoint self) = true ->
  config self !! "playbooks_path_dest" = Some (PyStr d) ->
  is_abs d = true ->
  no_dots d = true ->
  truthy (cfg_get (config self) "keep_playbooks") = false ->
  comps d = q ++ [c] ->
  get (fs w0) (root w0 ++ comps (_mountpoint self) ++ q) = None ->
  _copy_playbooks self w0 = (Ret true, w1, ev1) ->
  root w2 = root w0 ++ comps (_mountpoint self) ->
  fs w2 = fs w1 ->
  _ansible_cleanup self w2 = (Ret (), w3, ev3) ->
  isdir (fs w1) (root w0 ++ comps (_mountpoint self) ++ q) = true /\
  isdir (fs w3) (root w0 ++ comps (_mountpoint self) ++ q) = true /\
  get (fs w3) (root w0 ++ comps (_mountpoint self) ++ q ++ [c]) = None.
Proof.
  intros Hm Hd Habs _ Hk Hq Hnone Hst Hroot Hfs Hcl.
  destruct (staged_path w0 w2 (_mountpoint self) d Hm Habs Hroot) as [Hr0 Hr2].
  assert (HPq : root w0 ++ comps (_mountpoint self +:+ d) =
                (root w0 ++ comps (_mountpoint self) ++ q) ++ [c]).
  { rewrite comps_app_abs by assumption. rewrite Hq, <- !app_assoc. reflexivity. }
  rewrite cleanup_unstage in Hcl by assumption.
  apply bind_ret_inv in Hcl as ([] & wa & e1 & e2 & Hrm & Her & _).
  apply rmtree_ret_inv in Hrm as (d' & P & t' & Hd' & HP & Hdir & Hstore & ->).
  rewrite (cfg_get_some _ _ _ Hd) in Hd'. inversion Hd'; subst d'. clear Hd'.
  rewrite Hr2 in HP. inversion HP; subst P. clear HP.
  rewrite HPq in Hstore, Hdir.
  assert (Hanc : isdir t' (root w0 ++ comps (_mountpoint self) ++ q) = true).
  { eapply (store_ancestor_isdir _ _ _ [c]); [discriminate|exact Hstore]. }
  assert (Hgone : get t' ((root w0 ++ comps (_mountpoint self) ++ q) ++ [c]) = None).
  { apply (store_get_same _ _ _ _ Hstore). }
  apply erase_secret_ret_keeps in Her as [Hkeep Hnew]. simpl fs in Hkeep, Hnew.
  split; [|split].
  - rewrite <- Hfs. unfold isdir in Hdir |- *. rewrite get_app in Hdir.
    destruct (get (fs w2) (root w0 ++ comps (_mountpoint self) ++ q)) as [[s|m]|];
      [discriminate|reflexivity|discriminate].
  - apply Hkeep. exact Hanc.
  - rewrite <- !app_assoc in Hgone. apply Hnew. exact Hgone.
Qed.

Lemma cleanup_leaves_created_parents_witness :
  isdir (fs (state_of (_copy_playbooks plain_plugin (host_world host_fs ∅))))
    ([] ++ comps "/mnt" ++ ["srv"]) = true /\
  isdir (fs (state_of (_ansible_cleanup plain_plugin
                         (staged_in_chroot plain_plugin (host_world host_fs ∅)))))
    ([] ++ comps "/mnt" ++ ["srv"]) = true /\
  get (fs (state_of (_ansible_cleanup plain_plugin
                       (staged_in_chroot plain_plugin (host_world host_fs ∅)))))
    ([] ++ comps "/mnt" ++ ["srv"] ++ ["prov"]) = None.
Proof.
  refine (cleanup_leaves_created_parents plain_plugin (host_world host_fs ∅)
            _ (staged_in_chroot plain_plugin (host_world host_fs ∅)) _
            "/srv/prov" ["srv"] "prov"
            [EvCopytree "/artifacts/playbooks" "/mnt/srv/prov"]
            [EvRmtree "/srv/prov"]
            _ _ _ _ _ _ _ _ _ _ _); reflexivity.
Defined.
